(** * Codebase-Explainer: dependency graph, metadata builder and comparator

    A shallow embedding of the three services of the repository that carry
    its algorithmic content,

      - [app/services/dependency_graph.py]  (class [DependencyGraphBuilder]),
      - [app/services/metadata_builder.py]  (class [MetadataBuilder]),
      - [app/services/comparison.py]        (class [CodebaseComparator]),

    together with the properties the specification states about them.

    Conventions of the embedding.
      - A Python [str] is a Rocq [string]; Python [int] is [Z].
      - A Python [dict] that the code iterates over is an association list in
        insertion order ([pydict]); a dict that is only looked up is a [gmap].
      - A Python [set] is a [gset]; where the code iterates over a set the model
        uses [elements].  CPython fixes no iteration order for a set of strings
        (it depends on the per-process hash seed), so no statement below relies
        on a particular order unless it says so.
      - Methods that mutate [self] are state transformers on a record holding
        the instance attributes.
      - Python's [ast], [hashlib] and text decoding are not part of the
        repository: they are the operations of the class [PyRuntime]. *)

From Stdlib Require Import ZArith QArith Qabs String Ascii List Lia Lqa.
From stdpp Require Import base tactics option list gmap sets strings sorting pretty.

Set Warnings "-register-all,-clear-no-such-hyp".

Local Open Scope string_scope.
Local Open Scope list_scope.
Local Open Scope Z_scope.

(* ===================================================================== *)
(** * Python strings *)
(* ===================================================================== *)

Module PyStr.

(** [old in s] for a one-character [old]. *)
Fixpoint contains_char (c : ascii) (s : string) : bool :=
  match s with
  | EmptyString => false
  | String d s' => if decide (c = d) then true else contains_char c s'
  end.

(** [s.startswith(p)]. *)
Definition startswith (s p : string) : bool := String.prefix p s.

(** [s.replace(old, new)] for a non-empty [old]: non-overlapping occurrences
    are replaced from left to right.  [skip] counts the characters of a
    matched occurrence that are still to be dropped. *)
Fixpoint replace_from (old new : string) (skip : nat) (s : string) : string :=
  match s with
  | EmptyString => EmptyString
  | String c s' =>
      match skip with
      | S k => replace_from old new k s'
      | O =>
          if String.prefix old s
          then new +:+ replace_from old new (Nat.pred (String.length old)) s'
          else String c (replace_from old new O s')
      end
  end.

Definition replace (s old new : string) : string := replace_from old new O s.

(** [s.split(sep)] for a one-character separator; never the empty list. *)
Fixpoint split (sep : ascii) (s : string) : list string :=
  match s with
  | EmptyString => [EmptyString]
  | String c s' =>
      if decide (c = sep) then EmptyString :: split sep s'
      else match split sep s' with
           | h :: t => String c h :: t
           | [] => [String c EmptyString]
           end
  end.

(** [sep.join(parts)]. *)
Definition join (sep : string) (parts : list string) : string :=
  String.concat sep parts.

(** [s.count(c)] for a one-character [c]. *)
Fixpoint count_char (c : ascii) (s : string) : Z :=
  match s with
  | EmptyString => 0
  | String d s' => (if decide (c = d) then 1 else 0) + count_char c s'
  end.

(** [s.lower()] on the ASCII letters. *)
Definition lower_ascii (c : ascii) : ascii :=
  let n := nat_of_ascii c in
  if (65 <=? n)%nat && (n <=? 90)%nat then ascii_of_nat (n + 32) else c.

Fixpoint lower (s : string) : string :=
  match s with
  | EmptyString => EmptyString
  | String c s' => String (lower_ascii c) (lower s')
  end.

(** [s.rfind(c)] for a one-character [c]: the last index, if any. *)
Fixpoint rfind_char (c : ascii) (s : string) : option nat :=
  match s with
  | EmptyString => None
  | String d s' =>
      match rfind_char c s' with
      | Some i => Some (S i)
      | None => if decide (c = d) then Some O else None
      end
  end.

(** The one-character string of a backslash. *)
Definition backslash : string := String "092" EmptyString.

(** Truthiness of a string: [bool(s)]. *)
Definition truthy (s : string) : bool :=
  match s with EmptyString => false | _ => true end.

End PyStr.

(* ===================================================================== *)
(** * Python dictionaries in insertion order *)
(* ===================================================================== *)

Module PyDict.

Section Dict.
Context {V : Type}.

Definition pydict := list (string * V).

(** [d.get(k)] / [k in d]. *)
Fixpoint get (k : string) (d : pydict) : option V :=
  match d with
  | [] => None
  | (k', v) :: d' => if decide (k = k') then Some v else get k d'
  end.

(** [d[k] = v]: the value of an existing key is replaced in place, a new
    key goes to the end. *)
Fixpoint set (k : string) (v : V) (d : pydict) : pydict :=
  match d with
  | [] => [(k, v)]
  | (k', v') :: d' =>
      if decide (k = k') then (k, v) :: d' else (k', v') :: set k v d'
  end.

Definition keys (d : pydict) : list string := d.*1.
Definition items (d : pydict) : list (string * V) := d.

End Dict.
Arguments pydict V : clear implicits.

End PyDict.

Abbreviation pydict := PyDict.pydict.

(* ===================================================================== *)
(** * The analysed tree and the Python runtime *)
(* ===================================================================== *)

(** The nodes [ast.walk] yields, as far as the services look at them.
    [ImportFrom None] is a relative import without a module name
    ([from . import x]); [ast.AsyncFunctionDef] is not an [ast.FunctionDef]
    and falls under [OtherNode]. *)
Inductive ast_node :=
  | Import (names : list string)
  | ImportFrom (module : option string)
  | ClassDef
  | FunctionDef
  | OtherNode.

(** What [ast.parse] does with a source text. *)
Inductive parse_outcome :=
  | Parsed (nodes : list ast_node)               (* ast.walk(ast.parse(code)) *)
  | SyntaxError (lineno : Z) (msg : string)      (* raise SyntaxError *)
  | ParseFailure.                                (* any other exception *)

Class PyRuntime := {
  (** [open(path, 'r', encoding='utf-8').read()] on the bytes of a file:
      the decoded text with newlines translated, [None] when decoding fails. *)
  read_text : string -> option string;
  ast_parse : string -> parse_outcome;
  (** [hashlib.sha256(bytes).hexdigest()]. *)
  sha256_hexdigest : string -> string
}.

Record pyfile := {
  readable : bool;       (* whether [open] succeeds *)
  data : string          (* the bytes of the file *)
}.

Inductive fs_entry :=
  | File (f : pyfile)
  | Dir (entries : list (string * fs_entry)).

(** A tree is the listing of its root directory; every listing is in the
    order the operating system reports it. *)
Definition fs_tree := list (string * fs_entry).

Definition st_size (f : pyfile) : Z := Z.of_nat (String.length (data f)).

Module PyPath.

(** [str(parent / name)] for paths relative to the root (the empty path is
    the root). *)
Definition child (parent name : string) : string :=
  match parent with
  | EmptyString => name
  | _ => parent +:+ "/" +:+ name
  end.

Definition endswith (s suffix : string) : bool :=
  let n := String.length s in
  let m := String.length suffix in
  (m <=? n)%nat && String.eqb (String.substring (n - m) m s) suffix.

(** [Path(p).name]: the final component. *)
Definition name (p : string) : string := List.last (PyStr.split "/" p) EmptyString.

(** [Path(p).suffix]: from the last dot of the final component, unless that
    dot is its first or its last character. *)
Definition suffix (p : string) : string :=
  let n := name p in
  match PyStr.rfind_char "." n with
  | Some i =>
      if (0 <? i)%nat && (i <? String.length n - 1)%nat
      then String.substring i (String.length n - i) n
      else EmptyString
  | None => EmptyString
  end.

(** [root.glob("**/*.py")]: every directory of the tree in pre-order, and in
    each one the entries (files or directories) whose name matches [*.py],
    paired with their path relative to the root. *)
Fixpoint glob_py_from (path : string) (e : fs_entry) : list (string * fs_entry) :=
  match e with
  | File _ => []
  | Dir es =>
      List.map (fun ne => (child path (fst ne), snd ne))
               (List.filter (fun ne => endswith (fst ne) ".py") es)
      ++ (fix subdirs (l : list (string * fs_entry)) : list (string * fs_entry) :=
            match l with
            | [] => []
            | (n, x) :: r => glob_py_from (child path n) x ++ subdirs r
            end) es
  end.

Definition glob_py (root : fs_tree) : list (string * fs_entry) :=
  glob_py_from EmptyString (Dir root).

End PyPath.

(* ===================================================================== *)
(** * dependency_graph.py *)
(* ===================================================================== *)

Module DependencyGraph.

(** An entry of [missing_imports]: [{'file': ..., 'import': ...}]. *)
Record MissingImport := { mi_file : string; mi_import : string }.

(** The attributes of a [DependencyGraphBuilder] ([upload_dir] is the tree
    handed to the methods that read it). *)
Record Builder := {
  files_data : pydict (list string);
  graph : pydict (gset string);            (* defaultdict(set) *)
  reverse_graph : pydict (gset string);    (* defaultdict(set) *)
  circular_deps : list (list string);
  missing_imports : list MissingImport
}.

(** [DependencyGraphBuilder.__init__]. *)
Definition new_builder : Builder :=
  {| files_data := []; graph := []; reverse_graph := [];
     circular_deps := []; missing_imports := [] |}.

(** [dd.get(k, set())] on a [defaultdict(set)]: no key is created. *)
Definition dd_get (k : string) (dd : pydict (gset string)) : gset string :=
  default ∅ (PyDict.get k dd).

(** [dd[k].add(x)]: indexing creates the missing key with an empty set. *)
Definition dd_add (k x : string) (dd : pydict (gset string)) : pydict (gset string) :=
  PyDict.set k (dd_get k dd ∪ {[ x ]}) dd.

(** The tokens [_extract_imports] collects from a parsed file. *)
Definition import_tokens (nodes : list ast_node) : list string :=
  List.flat_map
    (fun node =>
       match node with
       | Import names => names
       | ImportFrom (Some m) => if PyStr.truthy m then [m] else []
       | _ => []
       end) nodes.

(** [_extract_imports]: both [except] clauses only log, so every failure
    (a directory matched by the glob, an unreadable or undecodable file, a
    parse error) leaves the initial empty list. *)
Definition _extract_imports `{PyRuntime} (e : fs_entry) : list string :=
  match e with
  | Dir _ => []
  | File f =>
      if readable f then
        match read_text (data f) with
        | Some code =>
            match ast_parse code with
            | Parsed nodes => import_tokens nodes
            | SyntaxError _ _ => []
            | ParseFailure => []
            end
        | None => []
        end
      else []
  end.

Definition module_name_of (file_path : string) : string :=
  PyStr.replace (PyStr.replace (PyStr.replace file_path "/" ".") PyStr.backslash ".")
                ".py" EmptyString.

(** The inner loop of [_build_module_mapping] for one value of [i]. *)
Definition register_partial (file_path : string) (parts : list string)
    (module_map : gmap string string) (i : nat) : gmap string string :=
  let partial := PyStr.join "." (drop i parts) in
  match module_map !! partial with
  | Some _ => module_map
  | None => <[ partial := file_path ]> module_map
  end.

(** The body of the loop of [_build_module_mapping] for one file. *)
Definition register_file (module_map : gmap string string) (file_path : string)
    : gmap string string :=
  let module_name := module_name_of file_path in
  let module_map := <[ module_name := file_path ]> module_map in
  let parts := PyStr.split "." module_name in
  foldl (register_partial file_path parts) module_map (seq 0 (length parts)).

Definition _build_module_mapping (b : Builder) : gmap string string :=
  foldl register_file ∅ (PyDict.keys (files_data b)).

(** The [for i in range(len(parts), 0, -1)] loop of [_resolve_import], over
    the values of [i] still to try. *)
Fixpoint resolve_prefixes (parts : list string) (module_map : gmap string string)
    (indices : list nat) : option string :=
  match indices with
  | [] => None
  | i :: rest =>
      match module_map !! PyStr.join "." (take i parts) with
      | Some f => Some f
      | None => resolve_prefixes parts module_map rest
      end
  end.

Definition _resolve_import (import_name source_file : string)
    (module_map : gmap string string) : option string :=
  match module_map !! import_name with
  | Some f => Some f
  | None =>
      let parts := PyStr.split "." import_name in
      resolve_prefixes parts module_map (rev (seq 1 (length parts)))
  end.

Definition local_patterns : list string :=
  ["app"; "src"; "lib"; "utils"; "services"; "models"; "routes"].

Definition _is_local_import (import_name : string) : bool :=
  let first_part := List.hd EmptyString (PyStr.split "." import_name) in
  bool_decide (first_part ∈ local_patterns).

(** The body of the inner loop of [_build_relationships].  [if target_file:]
    tests truthiness: [None] and the empty string both take the [elif]. *)
Definition relate (module_map : gmap string string) (file_path : string)
    (b : Builder) (import_name : string) : Builder :=
  match _resolve_import import_name file_path module_map with
  | Some target_file =>
      if PyStr.truthy target_file then
        {| files_data := files_data b;
           graph := dd_add file_path target_file (graph b);
           reverse_graph := dd_add target_file file_path (reverse_graph b);
           circular_deps := circular_deps b;
           missing_imports := missing_imports b |}
      else if _is_local_import import_name then
        {| files_data := files_data b; graph := graph b;
           reverse_graph := reverse_graph b; circular_deps := circular_deps b;
           missing_imports :=
             missing_imports b ++ [ {| mi_file := file_path; mi_import := import_name |} ] |}
      else b
  | None =>
      if _is_local_import import_name then
        {| files_data := files_data b; graph := graph b;
           reverse_graph := reverse_graph b; circular_deps := circular_deps b;
           missing_imports :=
             missing_imports b ++ [ {| mi_file := file_path; mi_import := import_name |} ] |}
      else b
  end.

(** All edges and missing-import records one file contributes. *)
Definition relate_file (module_map : gmap string string) (b : Builder)
    (item : string * list string) : Builder :=
  foldl (relate module_map (fst item)) b (snd item).

(** [_build_relationships].  The loops read [self.files_data] and write the
    other attributes, so the items iterated are those of the entry state. *)
Definition _build_relationships (b : Builder) : Builder :=
  foldl (relate_file (_build_module_mapping b)) b (PyDict.items (files_data b)).


(** ** Cycle detection *)

Inductive exn := ValueError.

(** The result of running a method: a value and the state it leaves, an
    exception and the state at the point it was raised, or a recursion that
    the fuel given did not cover. *)
Inductive outcome (A S : Type) :=
  | Ok (a : A) (s : S)
  | Raise (e : exn) (s : S)
  | OutOfFuel.
Arguments Ok {A S} a s.
Arguments Raise {A S} e s.
Arguments OutOfFuel {A S}.

(** [path.index(x)]. *)
Fixpoint index_of (x : string) (path : list string) : option nat :=
  match path with
  | [] => None
  | y :: path' => if decide (x = y) then Some O else S <$> index_of x path'
  end.

(** The variables the closure [dfs] shares with its enclosing method. *)
Record dfs_state := {
  visited : gset string;
  rec_stack : gset string;
  cycles : list (list string)               (* self.circular_deps *)
}.

Definition enter (node : string) (st : dfs_state) : dfs_state :=
  {| visited := visited st ∪ {[ node ]};
     rec_stack := rec_stack st ∪ {[ node ]};
     cycles := cycles st |}.

Definition leave (node : string) (st : dfs_state) : dfs_state :=
  {| visited := visited st; rec_stack := rec_stack st ∖ {[ node ]};
     cycles := cycles st |}.

Definition record_cycle (cycle : list string) (st : dfs_state) : dfs_state :=
  {| visited := visited st; rec_stack := rec_stack st;
     cycles := cycles st ++ [cycle] |}.

Section Dfs.
(** The forward adjacency, every target set in its iteration order. *)
Variable adjacency : pydict (list string).

(** [self.graph.get(node, [])]. *)
Definition neighbors (node : string) : list string :=
  default [] (PyDict.get node adjacency).

(** The [for neighbor in ...] loop of [dfs] over the neighbours still to
    visit; [path] already ends with the current node and [call] is the
    recursive call.  The value is [true] when the loop returned [True]
    and [false] when it ran to its end. *)
Fixpoint dfs_neighbors
    (call : string -> list string -> dfs_state -> outcome bool dfs_state)
    (path : list string) (todo : list string) (st : dfs_state)
    : outcome bool dfs_state :=
  match todo with
  | [] => Ok false st
  | neighbor :: rest =>
      if decide (neighbor ∈ visited st) then
        if decide (neighbor ∈ rec_stack st) then
          match index_of neighbor path with
          | Some cycle_start =>
              Ok true (record_cycle (drop cycle_start path ++ [neighbor]) st)
          | None => Raise ValueError st
          end
        else dfs_neighbors call path rest st
      else
        match call neighbor path st with
        | Ok true st' => Ok true st'
        | Ok false st' => dfs_neighbors call path rest st'
        | Raise e st' => Raise e st'
        | OutOfFuel => OutOfFuel
        end
  end.

(** The closure [dfs(node, path)]; the list handed to a recursive call is
    a copy, so the callee's [append] is not seen by the caller. *)
Fixpoint dfs (fuel : nat) (node : string) (path : list string) (st : dfs_state)
    : outcome bool dfs_state :=
  match fuel with
  | O => OutOfFuel
  | S fuel' =>
      match dfs_neighbors (dfs fuel') (path ++ [node]) (neighbors node)
                          (enter node st) with
      | Ok false st' => Ok false (leave node st')
      | r => r
      end
  end.

(** The loop [for node in self.graph.keys()] over the keys still to try. *)
Fixpoint dfs_roots (fuel : nat) (roots : list string) (st : dfs_state)
    : outcome unit dfs_state :=
  match roots with
  | [] => Ok tt st
  | node :: rest =>
      if decide (node ∈ visited st) then dfs_roots fuel rest st
      else
        match dfs fuel node [] st with
        | Ok _ st' => dfs_roots fuel rest st'
        | Raise e st' => Raise e st'
        | OutOfFuel => OutOfFuel
        end
  end.

(** Every file that occurs in the adjacency, as a key or as a target. *)
Definition all_nodes : gset string :=
  list_to_set (PyDict.keys adjacency ++ concat adjacency.*2).

(** One call of [dfs] marks one more file as visited, so the recursion is
    never deeper than the number of files. *)
Definition enough_fuel : nat := S (size all_nodes).

Definition detect (found : list (list string)) : outcome unit dfs_state :=
  dfs_roots enough_fuel (PyDict.keys adjacency)
            {| visited := ∅; rec_stack := ∅; cycles := found |}.

End Dfs.

Definition adjacency_of (dd : pydict (gset string)) : pydict (list string) :=
  List.map (fun kv => (fst kv, elements (snd kv))) dd.

Definition with_circular_deps (b : Builder) (found : list (list string)) : Builder :=
  {| files_data := files_data b; graph := graph b;
     reverse_graph := reverse_graph b; circular_deps := found;
     missing_imports := missing_imports b |}.

(** [_detect_circular_dependencies]: cycles are appended to
    [self.circular_deps] as they are found, also before an exception. *)
Definition _detect_circular_dependencies (b : Builder) : outcome unit Builder :=
  match detect (adjacency_of (graph b)) (circular_deps b) with
  | Ok _ st => Ok tt (with_circular_deps b (cycles st))
  | Raise e st => Raise e (with_circular_deps b (cycles st))
  | OutOfFuel => OutOfFuel
  end.

(** ** The result of [build_graph] *)

Record Node := {
  node_id : string;
  node_label : string;
  node_full_path : string;
  node_imports_count : Z;
  node_imported_by_count : Z;
  node_size : Z
}.

Record Edge := {
  edge_id : Z;
  edge_from : string;
  edge_to : string;
  edge_arrows : string
}.

Record FileCount := { fc_file : string; fc_count : Z }.

Record Statistics := {
  stat_total_files : Z;
  stat_total_dependencies : Z;
  stat_circular_dependencies : Z;
  stat_missing_imports : Z;
  stat_isolated_files : Z;
  stat_most_imported : list FileCount;
  stat_most_imports : list FileCount
}.

Record GraphData := {
  gd_nodes : list Node;
  gd_edges : list Edge;
  gd_circular_dependencies : list (list string);
  gd_missing_imports : list MissingImport;
  gd_statistics : Statistics
}.

Definition len {A} (l : list A) : Z := Z.of_nat (length l).
Definition set_len (s : gset string) : Z := Z.of_nat (size s).

(** [list.sort(key=lambda x: x['count'], reverse=True)]: a stable sort, the
    entries of equal count keep their order. *)
Fixpoint insert_by_count (x : FileCount) (sorted : list FileCount) : list FileCount :=
  match sorted with
  | [] => [x]
  | y :: rest =>
      if fc_count x <? fc_count y then y :: insert_by_count x rest
      else x :: sorted
  end.

Definition sort_by_count_desc (l : list FileCount) : list FileCount :=
  foldr insert_by_count [] l.

Definition file_counts (dd : pydict (gset string)) : list FileCount :=
  List.map (fun kv => {| fc_file := fst kv; fc_count := set_len (snd kv) |}) dd.

Definition _get_most_imported (b : Builder) (limit : nat) : list FileCount :=
  take limit (sort_by_count_desc (file_counts (reverse_graph b))).

Definition _get_most_imports (b : Builder) (limit : nat) : list FileCount :=
  take limit (sort_by_count_desc (file_counts (graph b))).

Definition make_node (b : Builder) (file_path : string) : Node :=
  let imports_count := set_len (dd_get file_path (graph b)) in
  let imported_by_count := set_len (dd_get file_path (reverse_graph b)) in
  {| node_id := file_path;
     node_label := PyPath.name file_path;
     node_full_path := file_path;
     node_imports_count := imports_count;
     node_imported_by_count := imported_by_count;
     node_size := Z.max 10 (imported_by_count * 5) |}.

(** The pairs the nested loop over [self.graph.items()] visits. *)
Definition edge_pairs (dd : pydict (gset string)) : list (string * string) :=
  List.flat_map (fun kv => List.map (fun target => (fst kv, target)) (elements (snd kv))) dd.

Definition make_edges (dd : pydict (gset string)) : list Edge :=
  imap (fun i st => {| edge_id := Z.of_nat i; edge_from := fst st;
                       edge_to := snd st; edge_arrows := "to" |})
       (edge_pairs dd).

Definition is_isolated (b : Builder) (f : string) : bool :=
  bool_decide (dd_get f (graph b) = ∅) && bool_decide (dd_get f (reverse_graph b) = ∅).

Definition _generate_graph_data (b : Builder) : GraphData :=
  let all_files : gset string := list_to_set (PyDict.keys (files_data b)) in
  let nodes := List.map (make_node b) (elements all_files) in
  let edges := make_edges (graph b) in
  {| gd_nodes := nodes;
     gd_edges := edges;
     gd_circular_dependencies := circular_deps b;
     gd_missing_imports := missing_imports b;
     gd_statistics :=
       {| stat_total_files := set_len all_files;
          stat_total_dependencies := len edges;
          stat_circular_dependencies := len (circular_deps b);
          stat_missing_imports := len (missing_imports b);
          stat_isolated_files := len (List.filter (is_isolated b) (elements all_files));
          stat_most_imported := _get_most_imported b 3;
          stat_most_imports := _get_most_imports b 3 |} |}.

Definition with_files_data (b : Builder) (fd : pydict (list string)) : Builder :=
  {| files_data := fd; graph := graph b; reverse_graph := reverse_graph b;
     circular_deps := circular_deps b; missing_imports := missing_imports b |}.

(** The first loop of [build_graph]: [self.files_data[rel_path] = imports]. *)
Definition scan_imports `{PyRuntime} (python_files : list (string * fs_entry))
    (b : Builder) : Builder :=
  foldl (fun b pf => with_files_data b
                       (PyDict.set (fst pf) (_extract_imports (snd pf)) (files_data b)))
        b python_files.

(** [build_graph] on the tree [upload_dir] of the builder.  None of the
    attributes is reset on entry. *)
Definition build_graph `{PyRuntime} (upload_dir : fs_tree) (upload_id : string)
    (b : Builder) : outcome GraphData Builder :=
  let python_files := PyPath.glob_py upload_dir in
  let b := scan_imports python_files b in
  let b := _build_relationships b in
  match _detect_circular_dependencies b with
  | Ok _ b => Ok (_generate_graph_data b) b
  | Raise e b => Raise e b
  | OutOfFuel => OutOfFuel
  end.

Record FileDependencies := {
  fd_file : string;
  fd_imports_from : list string;
  fd_imported_by : list string;
  fd_imports_count : Z;
  fd_imported_by_count : Z
}.

(** [get_file_dependencies]: both dictionaries are read with [.get], which
    does not create the key, so the state handed back is the one received. *)
Definition get_file_dependencies (file_path : string) (b : Builder)
    : outcome FileDependencies Builder :=
  Ok {| fd_file := file_path;
        fd_imports_from := elements (dd_get file_path (graph b));
        fd_imported_by := elements (dd_get file_path (reverse_graph b));
        fd_imports_count := set_len (dd_get file_path (graph b));
        fd_imported_by_count := set_len (dd_get file_path (reverse_graph b)) |}
     b.

End DependencyGraph.

(* ===================================================================== *)
(** * Python floats *)
(* ===================================================================== *)

(** A finite binary64 value is a sign and a rational magnitude.  The model
    rounds every result to 53 significant bits, to nearest and ties to even,
    as IEEE 754 does; it has no infinities, NaNs or subnormals: all the floats
    of the services are quotients and products of file counts and sizes. *)
Module PyFloat.

Local Open Scope Q_scope.

Record float := { negative : bool; magnitude : Q }.

(** The nearest integer, ties to the even one. *)
Definition round_half_even (q : Q) : Z :=
  let a := Qnum q in
  let b := Z.pos (Qden q) in
  let f := (a / b)%Z in
  match (2 * (a mod b) ?= b)%Z with
  | Lt => f
  | Gt => (f + 1)%Z
  | Eq => if Z.even f then f else (f + 1)%Z
  end.

Definition pow2 (e : Z) : Q :=
  if (0 <=? e)%Z then inject_Z (2 ^ e) else 1 # Z.to_pos (2 ^ (- e)).

(** For [q > 0], the [e] with [2^e <= q < 2^(e+1)]. *)
Definition floor_log2 (q : Q) : Z :=
  let d := (Z.log2 (Qnum q) - Z.log2 (Z.pos (Qden q)))%Z in
  if Qle_bool (pow2 d) q then d else (d - 1)%Z.

(** The binary64 value nearest to a non-negative rational. *)
Definition round_binary64 (q : Q) : Q :=
  let q := Qred q in
  if (Qnum q <=? 0)%Z then 0
  else
    let e := (52 - floor_log2 q)%Z in
    Qred (inject_Z (round_half_even (q * pow2 e)) * pow2 (- e)).

Definition of_Q (q : Q) : float :=
  {| negative := (Qnum q <? 0)%Z; magnitude := round_binary64 (Qabs q) |}.

(** A float literal or an [int] used as a float. *)
Definition of_Z (z : Z) : float := of_Q (inject_Z z).

(** [a / b] on two [int]s with [b > 0]: the correctly rounded quotient. *)
Definition truediv (a b : Z) : float := of_Q (a # Z.to_pos b).

(** [x * k] for a float [x] and an [int] [k > 0]. *)
Definition mul_int (x : float) (k : Z) : float :=
  {| negative := negative x;
     magnitude := round_binary64 (magnitude x * inject_Z k) |}.

(** [abs(x)]. *)
Definition fabs (x : float) : float :=
  {| negative := false; magnitude := magnitude x |}.

(** [round(x, ndigits)]: the exact value of [x] is rounded to [ndigits]
    decimals, ties to even, and the decimal found is converted back; zero is
    returned as it is and the sign is kept. *)
Definition round_ndigits (x : float) (ndigits : nat) : float :=
  if Qeq_bool (magnitude x) 0 then x
  else
    let scale := inject_Z (10 ^ Z.of_nat ndigits) in
    {| negative := negative x;
       magnitude :=
         round_binary64 (inject_Z (round_half_even (magnitude x * scale)) / scale) |}.

(** The float a decimal literal with three places denotes, in thousandths. *)
Definition of_thousandths (m : Z) : float := of_Q (m # 1000).

(** [f"{x:.1f}"] and, with [plus], [f"{x:+.1f}"]. *)
Definition format_1f (plus : bool) (x : float) : string :=
  let tenths := round_half_even (magnitude x * 10) in
  ((if negative x then "-" else if plus then "+" else EmptyString)
     +:+ pretty (tenths / 10)%Z +:+ "." +:+ pretty (tenths mod 10)%Z)%string.

End PyFloat.

Abbreviation float := PyFloat.float.

(* ===================================================================== *)
(** * models/codebase_metadata.py *)
(* ===================================================================== *)

Module Models.

Record FileMetadataStandard := {
relative_path : string;
filename : string;
size_bytes : Z;
extension : string;
lines_count : option Z;
classes_count : option Z;
functions_count : option Z;
imports : list string;
content_hash : option string
}.

Record DependencyMetadata := {
total_dependencies : Z;
circular_dependencies : list (list string);
most_imported_files : list (string * Z);
dep_missing_imports : list string;
external_packages : list string
}.

Record CodebaseMetadata := {
upload_id : string;
name : string;
uploaded_at : Z;                       (* a datetime, as a timestamp *)
total_files : Z;
total_bytes : Z;
file_types : pydict Z;
folder_structure : pydict Z;
total_lines : Z;
total_classes : Z;
total_functions : Z;
dependencies : option DependencyMetadata;
files : list FileMetadataStandard;
has_summaries : bool;
summaries_generated_at : option Z;
version_tag : option string
}.

Record CodebaseComparison := {
base_upload_id : string;
compare_upload_id : string;
base_name : string;
compare_name : string;
compared_at : Z;
files_added : list string;
files_removed : list string;
files_modified : list string;
files_unchanged : list string;
size_change_bytes : Z;
size_change_percent : float;
lines_change : Z;
lines_change_percent : float;
classes_change : Z;
functions_change : Z;
dependencies_added : list string;
dependencies_removed : list string;
new_circular_dependencies : list (list string);
resolved_circular_dependencies : list (list string);
similarity_score : float;
comparison_summary : string
}.

End Models.

(** [sorted(l)] on a list of strings (compared by code units). *)
Module PySorted.

Fixpoint insert (x : string) (sorted : list string) : list string :=
  match sorted with
  | [] => [x]
  | y :: rest => if String.ltb y x then y :: insert x rest else x :: sorted
  end.

Definition sorted (l : list string) : list string := foldr insert [] l.

End PySorted.

(* ===================================================================== *)
(** * metadata_builder.py *)
(* ===================================================================== *)

Module MetadataBuilder.

Definition SUPPORTED_EXTENSIONS : list string :=
  [".py"; ".js"; ".ts"; ".jsx"; ".tsx"; ".java"; ".cpp"; ".c"; ".h"].

Definition EXCLUDE_DIRS : list string :=
  ["__pycache__"; ".git"; "venv"; "node_modules"; ".venv"; "env"; "build"; "dist"].

(** The attributes of a [MetadataBuilder]. *)
Record State := {
  files_metadata : list Models.FileMetadataStandard;
  file_types : pydict Z;                 (* defaultdict(int) *)
  folder_structure : pydict Z;           (* defaultdict(int) *)
  total_bytes : Z;
  total_lines : Z;
  total_classes : Z;
  total_functions : Z;
  external_packages : gset string
}.

(** The state [build_metadata] starts from (its "reset counters" block). *)
Definition reset : State :=
  {| files_metadata := []; file_types := []; folder_structure := [];
     total_bytes := 0; total_lines := 0; total_classes := 0;
     total_functions := 0; external_packages := ∅ |}.

(** [dd[k] += 1] on a [defaultdict(int)]. *)
Definition dd_incr (k : string) (dd : pydict Z) : pydict Z :=
  PyDict.set k (default 0 (PyDict.get k dd) + 1) dd.

(** The dictionary [_extract_python_metrics] returns. *)
Record Metrics := {
  m_lines : Z;
  m_classes : Z;
  m_functions : Z;
  m_imports : list string
}.

Definition count_nodes (p : ast_node -> bool) (nodes : list ast_node) : Z :=
  Z.of_nat (length (List.filter p nodes)).

Definition is_ClassDef (n : ast_node) : bool :=
  match n with ClassDef => true | _ => false end.

Definition is_FunctionDef (n : ast_node) : bool :=
  match n with FunctionDef => true | _ => false end.

(** [_extract_python_metrics]: the inner [try] catches [SyntaxError] only
    and keeps the line count; the outer one catches everything else. *)
Definition _extract_python_metrics `{PyRuntime} (f : pyfile) : Metrics :=
  let failed := {| m_lines := 0; m_classes := 0; m_functions := 0; m_imports := [] |} in
  if readable f then
    match read_text (data f) with
    | Some content =>
        let lines := PyStr.count_char "010" content + 1 in
        match ast_parse content with
        | Parsed nodes =>
            {| m_lines := lines;
               m_classes := count_nodes is_ClassDef nodes;
               m_functions := count_nodes is_FunctionDef nodes;
               m_imports := DependencyGraph.import_tokens nodes |}
        | SyntaxError _ _ =>
            {| m_lines := lines; m_classes := 0; m_functions := 0; m_imports := [] |}
        | ParseFailure => failed
        end
    | None => failed
    end
  else failed.

(** [compute_file_hash] of comparison.py. *)
Definition compute_file_hash `{PyRuntime} (f : pyfile) : string :=
  if readable f then sha256_hexdigest (data f) else EmptyString.

(** The loop [for imp in imports] that feeds [self.external_packages]. *)
Definition is_package_token (imp : string) : bool :=
  negb (PyStr.startswith imp ".") && negb (PyStr.contains_char "." imp).

Definition track_external (imports : list string) (packages : gset string) : gset string :=
  foldl (fun acc imp => if is_package_token imp then acc ∪ {[ imp ]} else acc)
        packages imports.

(** One directory as [Path.walk] reports it: its parts relative to the
    root and the files in it. *)
Record Visit := { v_parts : list string; v_files : list (string * pyfile) }.

Definition files_of (es : list (string * fs_entry)) : list (string * pyfile) :=
  List.flat_map (fun ne => match snd ne with File f => [(fst ne, f)] | Dir _ => [] end) es.

(** [self.upload_dir.walk()] driven by the loop of [_scan_directory], which
    removes the excluded names from [dirnames] before the walk descends. *)
Fixpoint walk (parts : list string) (e : fs_entry) : list Visit :=
  match e with
  | File _ => []
  | Dir es =>
      {| v_parts := parts; v_files := files_of es |}
      :: (fix subdirs (l : list (string * fs_entry)) : list Visit :=
            match l with
            | [] => []
            | (d, x) :: r =>
                (if bool_decide (d ∈ EXCLUDE_DIRS) then []
                 else walk (parts ++ [d]) x) ++ subdirs r
            end) es
  end.

(** The body of the loop [for filename in filenames] for a file whose
    extension is supported. *)
Definition record_file `{PyRuntime} (parts : list string) (folder_name : string)
    (filename : string) (f : pyfile) (ext : string) (s : State) : State :=
  let size_bytes := st_size f in
  let rel_path := PyStr.join "/" (parts ++ [filename]) in
  let metrics :=
    if String.eqb ext ".py" then Some (_extract_python_metrics f) else None in
  let imports := from_option m_imports [] metrics in
  let file_meta :=
    {| Models.relative_path := PyStr.replace rel_path PyStr.backslash "/";
       Models.filename := filename;
       Models.size_bytes := size_bytes;
       Models.extension := ext;
       Models.lines_count := m_lines <$> metrics;
       Models.classes_count := Some (from_option m_classes 0 metrics);
       Models.functions_count := Some (from_option m_functions 0 metrics);
       Models.imports := imports;
       Models.content_hash :=
         Some (if String.eqb ext ".py" then compute_file_hash f else EmptyString) |} in
  {| files_metadata := files_metadata s ++ [file_meta];
     file_types := dd_incr ext (file_types s);
     folder_structure := dd_incr folder_name (folder_structure s);
     total_bytes := total_bytes s + size_bytes;
     total_lines := total_lines s + from_option m_lines 0 metrics;
     total_classes := total_classes s + from_option m_classes 0 metrics;
     total_functions := total_functions s + from_option m_functions 0 metrics;
     external_packages := track_external imports (external_packages s) |}.

Definition scan_file `{PyRuntime} (parts : list string) (folder_name : string)
    (s : State) (nf : string * pyfile) : State :=
  let ext := PyStr.lower (PyPath.suffix (fst nf)) in
  if bool_decide (ext ∈ SUPPORTED_EXTENSIONS)
  then record_file parts folder_name (fst nf) (snd nf) ext s
  else s.

Definition scan_visit `{PyRuntime} (s : State) (v : Visit) : State :=
  let folder_name := List.hd "root" (v_parts v) in
  foldl (scan_file (v_parts v) folder_name) s (v_files v).

(** [_scan_directory] on the tree [upload_dir]. *)
Definition _scan_directory `{PyRuntime} (upload_dir : fs_tree) (s : State) : State :=
  foldl scan_visit s (walk [] (Dir upload_dir)).

Definition _build_dependency_metadata (s : State) : option Models.DependencyMetadata :=
  Some {| Models.total_dependencies := 0;
          Models.circular_dependencies := [];
          Models.most_imported_files := [];
          Models.dep_missing_imports := [];
          Models.external_packages := PySorted.sorted (elements (external_packages s)) |}.

(** What [build_metadata] reads besides the tree: the name and modification
    time of the upload directory and, when summaries exist, the
    modification time of their directory. *)
Record UploadInfo := {
  dir_name : string;
  dir_mtime : Z;
  summaries_mtime : option Z
}.

(** [build_metadata]: the counters are reset first, so the snapshot does
    not depend on the state the builder was left in. *)
Definition build_metadata `{PyRuntime} (upload_dir : fs_tree) (info : UploadInfo)
    (upload_id : string) (s : State) : Models.CodebaseMetadata * State :=
  let s := _scan_directory upload_dir reset in
  ({| Models.upload_id := upload_id;
      Models.name := dir_name info;
      Models.uploaded_at := dir_mtime info;
      Models.total_files := Z.of_nat (length (files_metadata s));
      Models.total_bytes := total_bytes s;
      Models.file_types := file_types s;
      Models.folder_structure := folder_structure s;
      Models.total_lines := total_lines s;
      Models.total_classes := total_classes s;
      Models.total_functions := total_functions s;
      Models.dependencies := _build_dependency_metadata s;
      Models.files := files_metadata s;
      Models.has_summaries := bool_decide (is_Some (summaries_mtime info));
      Models.summaries_generated_at := summaries_mtime info;
      Models.version_tag := None |}, s).

End MetadataBuilder.


(* ===================================================================== *)
(** * comparison.py *)
(* ===================================================================== *)

Module Comparator.
Import Models.

(** The attributes of a [CodebaseComparator]. *)
Record State := {
  base_metadata : option CodebaseMetadata;
  compare_metadata : option CodebaseMetadata
}.

(** [CodebaseComparator.__init__]. *)
Definition new_comparator : State :=
  {| base_metadata := None; compare_metadata := None |}.

(** [{f.relative_path: f for f in files}]: a later file replaces an earlier
    one of the same path. *)
Definition by_path (fs : list FileMetadataStandard) : gmap string FileMetadataStandard :=
  foldl (fun acc f => <[ relative_path f := f ]> acc) ∅ fs.

(** Truthiness of an [Optional[str]]. *)
Definition has_hash (h : option string) : bool :=
  match h with Some s => PyStr.truthy s | None => false end.

(** The test of the loop over the common paths: hashes when both files have
    one, sizes otherwise. *)
Definition is_modified (base_file compare_file : FileMetadataStandard) : bool :=
  if has_hash (content_hash base_file) && has_hash (content_hash compare_file)
  then negb (bool_decide (content_hash base_file = content_hash compare_file))
  else negb (size_bytes base_file =? size_bytes compare_file).

(** [common] holds keys of both dictionaries, so both lookups succeed; the
    last case is never taken. *)
Definition path_modified (base_files compare_files : gmap string FileMetadataStandard)
    (path : string) : bool :=
  match base_files !! path, compare_files !! path with
  | Some base_file, Some compare_file => is_modified base_file compare_file
  | _, _ => false
  end.

Record FileChanges := {
  fc_added : list string;
  fc_removed : list string;
  fc_modified : list string;
  fc_unchanged : list string
}.

Definition _compare_file_structures (base compare : CodebaseMetadata) : FileChanges :=
  let base_files := by_path (files base) in
  let compare_files := by_path (files compare) in
  let base_paths : gset string := dom base_files in
  let compare_paths : gset string := dom compare_files in
  let added := elements (compare_paths ∖ base_paths) in
  let removed := elements (base_paths ∖ compare_paths) in
  let common := elements (base_paths ∩ compare_paths) in
  let modified := List.filter (path_modified base_files compare_files) common in
  let unchanged :=
    List.filter (fun p => negb (path_modified base_files compare_files p)) common in
  {| fc_added := PySorted.sorted added;
     fc_removed := PySorted.sorted removed;
     fc_modified := PySorted.sorted modified;
     fc_unchanged := PySorted.sorted unchanged |}.

Record MetricChanges := {
  mc_size_change : Z;
  mc_size_change_percent : float;
  mc_lines_change : Z;
  mc_lines_change_percent : float;
  mc_classes_change : Z;
  mc_functions_change : Z
}.

(** [round((change / total * 100) if total > 0 else 0, 2)]. *)
Definition percent_change (change total : Z) : float :=
  PyFloat.round_ndigits
    (if 0 <? total then PyFloat.mul_int (PyFloat.truediv change total) 100
     else PyFloat.of_Z 0)
    2.

Definition _compare_metrics (base compare : CodebaseMetadata) : MetricChanges :=
  let size_change := total_bytes compare - total_bytes base in
  let lines_change := total_lines compare - total_lines base in
  {| mc_size_change := size_change;
     mc_size_change_percent := percent_change size_change (total_bytes base);
     mc_lines_change := lines_change;
     mc_lines_change_percent := percent_change lines_change (total_lines base);
     mc_classes_change := total_classes compare - total_classes base;
     mc_functions_change := total_functions compare - total_functions base |}.

Record DepChanges := {
  dc_added : list string;
  dc_removed : list string;
  dc_new_circular : list (list string);
  dc_resolved_circular : list (list string)
}.

Definition _compare_dependencies (base compare : CodebaseMetadata) : DepChanges :=
  match dependencies base, dependencies compare with
  | Some base_deps, Some compare_deps =>
      let base_packages : gset string := list_to_set (external_packages base_deps) in
      let compare_packages : gset string := list_to_set (external_packages compare_deps) in
      let base_circular : gset (list string) :=
        list_to_set (circular_dependencies base_deps) in
      let compare_circular : gset (list string) :=
        list_to_set (circular_dependencies compare_deps) in
      {| dc_added := PySorted.sorted (elements (compare_packages ∖ base_packages));
         dc_removed := PySorted.sorted (elements (base_packages ∖ compare_packages));
         dc_new_circular := elements (compare_circular ∖ base_circular);
         dc_resolved_circular := elements (base_circular ∖ compare_circular) |}
  | _, _ =>
      {| dc_added := []; dc_removed := []; dc_new_circular := [];
         dc_resolved_circular := [] |}
  end.

Definition path_set (m : CodebaseMetadata) : gset string :=
  list_to_set (relative_path <$> files m).

Definition _calculate_similarity (base compare : CodebaseMetadata) : float :=
  let base_count := length (files base) in
  let compare_count := length (files compare) in
  if bool_decide (base_count = 0%nat) && bool_decide (compare_count = 0%nat)
  then PyFloat.of_Z 1
  else if bool_decide (base_count = 0%nat) || bool_decide (compare_count = 0%nat)
  then PyFloat.of_Z 0
  else
    let base_paths := path_set base in
    let compare_paths := path_set compare in
    let common_files := base_paths ∩ compare_paths in
    let total_unique := base_paths ∪ compare_paths in
    if bool_decide (size total_unique = 0%nat) then PyFloat.of_Z 1
    else
      PyFloat.round_ndigits
        (PyFloat.truediv (Z.of_nat (size common_files)) (Z.of_nat (size total_unique))) 3.

Definition nonempty {A} (l : list A) : bool :=
  match l with [] => false | _ => true end.

Definition len {A} (l : list A) : Z := Z.of_nat (length l).

Definition NO_CHANGES : string := "No significant changes detected".

(** [_generate_summary]: every clause is appended to [lines] under its own
    condition; the clauses are joined with ["; "]. *)
Definition _generate_summary (file_changes : FileChanges)
    (metric_changes : MetricChanges) (dep_changes : DepChanges) : string :=
  let size_change := mc_size_change metric_changes in
  let lines_change := mc_lines_change metric_changes in
  let lines : list string :=
    (if nonempty (fc_added file_changes)
     then ["Added " +:+ pretty (len (fc_added file_changes)) +:+ " new files"] else [])
    ++ (if nonempty (fc_removed file_changes)
        then ["Removed " +:+ pretty (len (fc_removed file_changes)) +:+ " files"] else [])
    ++ (if nonempty (fc_modified file_changes)
        then ["Modified " +:+ pretty (len (fc_modified file_changes)) +:+ " files"] else [])
    ++ (if 1024 <? Z.abs size_change
        then
          let size_kb := PyFloat.truediv size_change 1024 in
          let direction := if 0 <? size_change then "increased" else "decreased" in
          ["Codebase size " +:+ direction +:+ " by "
             +:+ PyFloat.format_1f false (PyFloat.fabs size_kb) +:+ " KB ("
             +:+ PyFloat.format_1f true (mc_size_change_percent metric_changes) +:+ "%)"]
        else [])
    ++ (if negb (lines_change =? 0)
        then
          let direction := if 0 <? lines_change then "added" else "removed" in
          [pretty (Z.abs lines_change) +:+ " lines " +:+ direction +:+ " ("
             +:+ PyFloat.format_1f true (mc_lines_change_percent metric_changes) +:+ "%)"]
        else [])
    ++ (if nonempty (dc_added dep_changes)
        then
          ["Added dependencies: " +:+ PyStr.join ", " (take 5 (dc_added dep_changes))
             +:+ (if 5 <? len (dc_added dep_changes)
                  then " and " +:+ pretty (len (dc_added dep_changes) - 5) +:+ " more"
                  else EmptyString)]
        else [])
    ++ (if nonempty (dc_new_circular dep_changes)
        then ["⚠️ Introduced " +:+ pretty (len (dc_new_circular dep_changes))
                +:+ " new circular dependencies"]
        else [])
    ++ (if nonempty (dc_resolved_circular dep_changes)
        then ["✓ Resolved " +:+ pretty (len (dc_resolved_circular dep_changes))
                +:+ " circular dependencies"]
        else []) in
  if nonempty lines then PyStr.join "; " lines else NO_CHANGES.

(** [compare]: both attributes are overwritten before anything reads them;
    [now] is the clock read by [datetime.utcnow()]. *)
Definition compare (base compare : CodebaseMetadata) (now : Z) (self : State)
    : CodebaseComparison * State :=
  let self := {| base_metadata := Some base; compare_metadata := Some compare |} in
  let file_changes := _compare_file_structures base compare in
  let metric_changes := _compare_metrics base compare in
  let dep_changes := _compare_dependencies base compare in
  let similarity := _calculate_similarity base compare in
  let summary := _generate_summary file_changes metric_changes dep_changes in
  ({| base_upload_id := upload_id base;
      compare_upload_id := upload_id compare;
      base_name := name base;
      compare_name := name compare;
      compared_at := now;
      files_added := fc_added file_changes;
      files_removed := fc_removed file_changes;
      files_modified := fc_modified file_changes;
      files_unchanged := fc_unchanged file_changes;
      size_change_bytes := mc_size_change metric_changes;
      size_change_percent := mc_size_change_percent metric_changes;
      lines_change := mc_lines_change metric_changes;
      lines_change_percent := mc_lines_change_percent metric_changes;
      classes_change := mc_classes_change metric_changes;
      functions_change := mc_functions_change metric_changes;
      dependencies_added := dc_added dep_changes;
      dependencies_removed := dc_removed dep_changes;
      new_circular_dependencies := dc_new_circular dep_changes;
      resolved_circular_dependencies := dc_resolved_circular dep_changes;
      similarity_score := similarity;
      comparison_summary := summary |}, self).

End Comparator.

(* ===================================================================== *)
(** * Vocabulary of the specification *)
(* ===================================================================== *)

Module GraphSpec.
Import DependencyGraph.

(** The reverse adjacency is the transpose of the forward one. *)
Definition transposed (forward reverse : pydict (gset string)) : Prop :=
  forall source target : string,
    target ∈ dd_get source forward <-> source ∈ dd_get target reverse.

(** The states a builder created by the constructor can be in: [build_graph]
    may have been called any number of times, on any trees, and the state an
    exception leaves behind stays in the object. *)
Inductive reachable `{PyRuntime} : Builder -> Prop :=
  | reach_new : reachable new_builder
  | reach_ok tree id b data b' :
      reachable b -> build_graph tree id b = Ok data b' -> reachable b'
  | reach_raise tree id b e b' :
      reachable b -> build_graph tree id b = Raise e b' -> reachable b'.

(** The test [if target_file:] fails: the token is not resolved. *)
Definition unresolved (module_map : gmap string string) (file_path import_name : string)
    : bool :=
  match _resolve_import import_name file_path module_map with
  | Some target_file => negb (PyStr.truthy target_file)
  | None => true
  end.

(** The records a list of items adds to [missing_imports], in order. *)
Definition missing_of (module_map : gmap string string)
    (items : list (string * list string)) : list MissingImport :=
  List.flat_map
    (fun item =>
       List.map (fun token => {| mi_file := fst item; mi_import := token |})
         (List.filter
            (fun token => unresolved module_map (fst item) token
                          && _is_local_import token)
            (snd item)))
    items.

End GraphSpec.

Module ResolverSpec.
Import DependencyGraph.

(** The dotted names one file answers to besides its own: every right-aligned
    suffix of its dotted name, the longest first. *)
Definition suffix_names (module_name : string) : list string :=
  let parts := PyStr.split "." module_name in
  (fun i => PyStr.join "." (drop i parts)) <$> seq 0 (length parts).

(** The file a dotted name is mapped to after the files [scanned], in this
    order, have been registered: the last file whose dotted name it is, and
    otherwise the first file that has it as a suffix. *)
Definition registered (scanned : list string) (key : string) : option string :=
  match last (filter (fun f => module_name_of f = key) scanned) with
  | Some f => Some f
  | None => head (filter (fun f => key ∈ suffix_names (module_name_of f)) scanned)
  end.

(** The token cut down to its first [i] components. *)
Definition token_prefix (import_name : string) (i : nat) : string :=
  PyStr.join "." (take i (PyStr.split "." import_name)).

Definition components (import_name : string) : nat :=
  length (PyStr.split "." import_name).

End ResolverSpec.

Module CycleSpec.
Import DependencyGraph.

Section Adjacency.
Variable adjacency : pydict (list string).

(** [v] is a neighbour of [u] in the forward adjacency. *)
Definition edge (u v : string) : Prop := v ∈ neighbors adjacency u.

(** No file reaches itself along one or more edges. *)
Definition acyclic : Prop := forall n, ~ tc edge n n.

(** Consecutive entries are joined by an edge. *)
Definition is_walk (l : list string) : Prop :=
  forall i u v, l !! i = Some u -> l !! S i = Some v -> edge u v.

(** A cycle of the data model: a walk of at least one edge that returns to
    its start. *)
Definition is_cycle (c : list string) : Prop :=
  is_walk c /\ (2 <= length c)%nat /\ head c = last c.

(** The slice of a path from the first occurrence of [neighbor] to its end,
    closed by [neighbor], where the last file of the path imports [neighbor]. *)
Definition path_slice (c : list string) : Prop :=
  exists path neighbor i,
    is_walk path /\ index_of neighbor path = Some i
    /\ (exists node, last path = Some node /\ edge node neighbor)
    /\ c = drop i path ++ [neighbor].

(** The files [dfs] has not visited yet. *)
Definition unvisited (st : dfs_state) : nat :=
  size (all_nodes adjacency ∖ visited st).

(** A call ended within its fuel, and the files it found visited stay so. *)
Definition ended {A} (st : dfs_state) (r : outcome A dfs_state) : Prop :=
  match r with
  | Ok _ st' | Raise _ st' => visited st ⊆ visited st'
  | OutOfFuel => False
  end.

(** A call of [dfs] on an acyclic graph returned [False], reported nothing
    and left on the recursion stack only what was there. *)
Definition quiet (st : dfs_state) (r : outcome bool dfs_state) : Prop :=
  r = OutOfFuel \/
  exists st', r = Ok false st' /\ cycles st' = cycles st /\ rec_stack st' ⊆ rec_stack st.

(** Between two states only slices of a path were appended to the cycles. *)
Definition reported (st st' : dfs_state) : Prop :=
  exists new, cycles st' = cycles st ++ new /\ Forall path_slice new.

Definition sound {A} (st : dfs_state) (r : outcome A dfs_state) : Prop :=
  match r with
  | Ok _ st' | Raise _ st' => reported st st'
  | OutOfFuel => True
  end.

End Adjacency.

(** The edges of the builder's forward adjacency. *)
Definition imports_from (b : Builder) (u v : string) : Prop := v ∈ dd_get u (graph b).

End CycleSpec.

Module BuilderSpec.
Import DependencyGraph.

(** The state a call leaves in the object. *)
Definition state_after {A} (r : outcome A Builder) (before : Builder) : Builder :=
  match r with
  | Ok _ b' | Raise _ b' => b'
  | OutOfFuel => before
  end.

(** Every file with an edge is a file of [files_data]. *)
Definition recorded_in_files (b : Builder) : Prop :=
  forall k, k ∈ PyDict.keys (graph b) \/ k ∈ PyDict.keys (reverse_graph b) ->
            k ∈ PyDict.keys (files_data b).

(** No file of [files_data] has the empty path. *)
Definition paths_nonempty (b : Builder) : Prop :=
  forall k, k ∈ PyDict.keys (files_data b) -> k <> EmptyString.

End BuilderSpec.

Module SimilaritySpec.
Import Models.
Local Open Scope Q_scope.

(** The Jaccard index of two sets that are not both empty. *)
Definition jaccard (A B : gset string) : Q :=
  Z.of_nat (size (A ∩ B)) # Pos.of_nat (size (A ∪ B)).

(** [m] thousandths is a decimal with three places nearest to [q]. *)
Definition nearest_thousandth (m : Z) (q : Q) : Prop :=
  Qabs ((m # 1000) - q) <= 1 # 2000.

End SimilaritySpec.

Module ScanSpec.
Import MetadataBuilder.







(** The external packages a snapshot lists. *)
Definition snapshot_packages (m : Models.CodebaseMetadata) : list string :=
  from_option Models.external_packages [] (Models.dependencies m).

(** The package set holds the tokens without a dot of the files recorded. *)
Definition packages_of_files (s : State) : Prop :=
  forall imp : string,
    imp ∈ external_packages s
    <-> exists fm, fm ∈ files_metadata s /\ imp ∈ Models.imports fm
                   /\ PyStr.contains_char "." imp = false.

End ScanSpec.

(* ===================================================================== *)
(** * Example inputs *)
(* ===================================================================== *)

Module Example.
Import DependencyGraph.

(** A reader of the few Python statements the examples are written in, one
    per line: [pass], [import m], [class C: pass] and [def f(): pass].  On
    such texts it yields what [ast.walk(ast.parse(text))] yields: the module
    and its statements, then their children.  Any other line is a syntax
    error at that line. *)
Definition parse_line (line : string) : option (list ast_node * list ast_node) :=
  if String.eqb line EmptyString then Some ([], [])
  else if String.eqb line "pass" then Some ([OtherNode], [])
  else if String.prefix "import " line
       then Some ([Import [String.substring 7 (String.length line - 7) line]], [OtherNode])
  else if String.prefix "class " line && PyPath.endswith line ": pass"
       then Some ([ClassDef], [OtherNode])
  else if String.prefix "def " line && PyPath.endswith line "(): pass"
       then Some ([FunctionDef], [OtherNode; OtherNode])
  else None.

Fixpoint parse_lines (lineno : Z) (lines : list string)
    : Z + (list ast_node * list ast_node) :=
  match lines with
  | [] => inr ([], [])
  | line :: rest =>
      match parse_line line with
      | None => inl lineno
      | Some (stmts, children) =>
          match parse_lines (lineno + 1) rest with
          | inl bad => inl bad
          | inr (stmts', children') => inr (stmts ++ stmts', children ++ children')
          end
      end
  end.

Definition parse (text : string) : parse_outcome :=
  match parse_lines 1 (PyStr.split "010" text) with
  | inl lineno => SyntaxError lineno "invalid syntax"
  | inr (stmts, children) => Parsed (OtherNode :: stmts ++ children)
  end.

(** The texts of the examples are ASCII with [\n] line ends, which decoding
    leaves as they are; the digest is a stand-in that tells contents apart. *)
Definition runtime : PyRuntime :=
  {| read_text := Some;
     ast_parse := parse;
     sha256_hexdigest := fun bytes => "sha256:" +:+ bytes |}.

Definition source (text : string) : fs_entry :=
  File {| readable := true; data := text |}.

(** Three files in one directory: A imports B, B imports C, C imports A. *)
Definition cycle_tree : fs_tree :=
  [ ("a.py", source "import b"); ("b.py", source "import c"); ("c.py", source "import a") ].

(** The token map of [cycle_tree]. *)
Definition cycle_tokens : pydict (list string) :=
  [ ("a.py", ["b"]); ("b.py", ["c"]); ("c.py", ["a"]) ].

(** A chain without a way back, with one import that names no file. *)
Definition chain_tree : fs_tree :=
  [ ("a.py", source "import b"); ("b.py", source "import c");
    ("c.py", source ("import numpy" +:+ String "010" "import app.nonexistent.module")) ].

(** The state of a builder after one [build_graph] on [chain_tree]. *)
Definition chain_builder : Builder :=
  BuilderSpec.state_after
    (build_graph (H := runtime) chain_tree "chain" new_builder) new_builder.

(** The builder of [chain_tree] between the second and the third step of
    [build_graph]. *)
Definition chain_related : Builder :=
  _build_relationships (scan_imports (H := runtime) (PyPath.glob_py chain_tree) new_builder).

(** A cycle between two files and a third file that imports one of them. *)
Definition tangled_tree : fs_tree :=
  [ ("a.py", source "import b"); ("b.py", source "import a"); ("c.py", source "import a") ].

(** Two files that both answer to the name [c]. *)
Definition collision : list string := [ "a/b/c.py"; "x/c.py" ].


(** A script that imports a module of its own tree. *)
Definition local_tree : fs_tree :=
  [ ("main.py", source "import utils"); ("utils.py", source "pass") ].

Definition upload : MetadataBuilder.UploadInfo :=
  {| MetadataBuilder.dir_name := "upload"; MetadataBuilder.dir_mtime := 0;
     MetadataBuilder.summaries_mtime := None |}.

Definition local_snapshot : Models.CodebaseMetadata :=
  fst (MetadataBuilder.build_metadata (H := runtime) local_tree upload "upload"
         MetadataBuilder.reset).

(** The module mapping [build_graph] works with on [local_tree]. *)
Definition local_mapping : gmap string string :=
  _build_module_mapping (scan_imports (H := runtime) (PyPath.glob_py local_tree) new_builder).

End Example.

Module ExampleSnapshots.
Import Models.

Definition file (path : string) (size : Z) (hash : string) : FileMetadataStandard :=
  {| relative_path := path; filename := path; size_bytes := size; extension := ".py";
     lines_count := Some 1; classes_count := Some 0; functions_count := Some 0;
     imports := []; content_hash := Some hash |}.

Definition snapshot (id : string) (fs : list FileMetadataStandard) : CodebaseMetadata :=
  {| upload_id := id; name := id; uploaded_at := 0;
     total_files := Z.of_nat (length fs);
     total_bytes := foldr Z.add 0 (size_bytes <$> fs);
     file_types := [(".py", Z.of_nat (length fs))];
     folder_structure := [("root", Z.of_nat (length fs))];
     total_lines := Z.of_nat (length fs); total_classes := 0; total_functions := 0;
     dependencies := None; files := fs;
     has_summaries := false; summaries_generated_at := None; version_tag := None |}.

(** Base files {a, b}, candidate files {b, c}. *)
Definition base_ab : CodebaseMetadata :=
  snapshot "base" [file "a" 10 "h-a"; file "b" 20 "h-b"].

Definition candidate_bc : CodebaseMetadata :=
  snapshot "candidate" [file "b" 20 "h-b"; file "c" 30 "h-c"].

End ExampleSnapshots.

(* ===================================================================== *)
(** * Vocabulary for the graph data, the scan and the comparison *)
(* ===================================================================== *)

Module DataSpec.
Import DependencyGraph.

(** The keys of a Python dictionary are distinct. *)
Definition keys_unique (b : Builder) : Prop :=
  NoDup (PyDict.keys (files_data b))
  /\ NoDup (PyDict.keys (graph b))
  /\ NoDup (PyDict.keys (reverse_graph b)).

(** The two files an edge joins. *)
Definition endpoints (e : Edge) : string * string := (edge_from e, edge_to e).

(** [sum(l)]. *)
Definition total (l : list Z) : Z := foldr Z.add 0 l.

(** The order of a ranking: [x] is listed before [y]. *)
Definition ranks_before (x y : FileCount) : Prop := fc_count y <= fc_count x.

(** The edges the tokens of the scanned files resolve to. *)
Definition resolved_edge (module_map : gmap string string)
    (items : list (string * list string)) (source target : string) : Prop :=
  exists tokens token,
    (source, tokens) ∈ items /\ token ∈ tokens
    /\ _resolve_import token source module_map = Some target
    /\ PyStr.truthy target = true.

End DataSpec.

Module DetectorSpec.
Import DependencyGraph CycleSpec.

Section Adjacency.
Variable adjacency : pydict (list string).

(** The files whose call of [dfs] has returned: visited and no longer on
    the recursion stack. *)
Definition finished (st : dfs_state) : gset string := visited st ∖ rec_stack st.

(** The recursion stack holds visited files only; a finished file imports
    finished files only, and no finished file lies on a cycle. *)
Definition settled (st : dfs_state) : Prop :=
  rec_stack st ⊆ visited st
  /\ (forall u v, u ∈ finished st -> edge adjacency u v -> v ∈ finished st)
  /\ (forall u, u ∈ finished st -> ~ tc (edge adjacency) u u).

(** What a call that returned [False] leaves behind. *)
Definition returned_false (node : string) (st : dfs_state)
    (r : outcome bool dfs_state) : Prop :=
  match r with
  | Ok false st' =>
      settled st' /\ rec_stack st' = rec_stack st /\ node ∈ finished st'
      /\ finished st ⊆ finished st' /\ visited st ⊆ visited st'
  | _ => True
  end.

(** A call appends one cycle when it returns [True] and none otherwise. *)
Definition tally (st : dfs_state) (r : outcome bool dfs_state) : Prop :=
  match r with
  | Ok false st' | Raise _ st' => cycles st' = cycles st
  | Ok true st' => exists cycle, cycles st' = cycles st ++ [cycle]
  | OutOfFuel => True
  end.

(** A call that found the recursion stack within its path does not raise. *)
Definition no_raise {A} (r : outcome A dfs_state) : Prop :=
  match r with
  | Raise _ _ => False
  | _ => True
  end.

(** The files of a path. *)
Definition on_path (path : list string) : gset string := list_to_set path.

(** The loop over the roots appends at most one cycle for each root. *)
Definition bounded (roots : list string) (st : dfs_state)
    (r : outcome unit dfs_state) : Prop :=
  match r with
  | Ok _ st' | Raise _ st' =>
      exists new, cycles st' = cycles st ++ new /\ (length new <= length roots)%nat
  | OutOfFuel => True
  end.

End Adjacency.

End DetectorSpec.

Module SnapshotSpec.
Import MetadataBuilder.

(** The records one file of a directory adds to [files_metadata]: one when
    its extension is supported, none otherwise. *)
Definition records_of `{PyRuntime} (parts : list string) (nf : string * pyfile)
    : list Models.FileMetadataStandard :=
  files_metadata (scan_file parts (List.hd "root" parts) reset nf).

(** The records of the files of one directory, in the order of its listing. *)
Definition visit_records `{PyRuntime} (v : Visit) : list Models.FileMetadataStandard :=
  List.flat_map (records_of (v_parts v)) (v_files v).

(** The directory reached from [e] along the names [parts], with its
    listing. *)
Inductive subdir : fs_entry -> list string -> list (string * fs_entry) -> Prop :=
  | subdir_here es : subdir (Dir es) [] es
  | subdir_down es d x parts es' :
      (d, x) ∈ es -> subdir x parts es' -> subdir (Dir es) (d :: parts) es'.

(** No name on the way is one of the excluded directory names. *)
Definition kept (parts : list string) : Prop :=
  Forall (fun d => d ∉ EXCLUDE_DIRS) parts.

(** The number of records with a given extension. *)
Definition count_extension (ext : string) (fs : list Models.FileMetadataStandard) : Z :=
  Z.of_nat (length (filter (fun fm => Models.extension fm = ext) fs)).

(** An optional count, [None] counting as zero. *)
Definition or_zero (n : option Z) : Z := default 0 n.

(** The counters of a builder agree with the records it holds. *)
Definition consistent (s : State) : Prop :=
  total_bytes s = DataSpec.total (Models.size_bytes <$> files_metadata s)
  /\ total_lines s
     = DataSpec.total ((or_zero ∘ Models.lines_count) <$> files_metadata s)
  /\ total_classes s
     = DataSpec.total ((or_zero ∘ Models.classes_count) <$> files_metadata s)
  /\ total_functions s
     = DataSpec.total ((or_zero ∘ Models.functions_count) <$> files_metadata s)
  /\ (forall ext, default 0 (PyDict.get ext (file_types s))
                  = count_extension ext (files_metadata s))
  /\ DataSpec.total (file_types s).*2 = Z.of_nat (length (files_metadata s))
  /\ DataSpec.total (folder_structure s).*2 = Z.of_nat (length (files_metadata s)).

End SnapshotSpec.

Module OrderSpec.

(** [a <= b] on strings, as Python compares them. *)
Definition str_le (a b : string) : Prop := String.leb a b = true.

(** A list in ascending order without a repeated entry. *)
Definition ascending (l : list string) : Prop :=
  StronglySorted str_le l /\ NoDup l.

End OrderSpec.

Module SummarySpec.



End SummarySpec.

(* ===================================================================== *)
(** * routes/graph.py *)
(* ===================================================================== *)

(** The handlers of the graph routes, on the module-level dictionary
    [_graph_cache] and the directory [uploads]. *)
Module GraphRoutes.

(** What a handler does: it returns a body, or raises [HTTPException] with
    status 404 or 500. *)
Inductive response (A : Type) :=
  | Http200 (body : A)
  | Http404
  | Http500.
Arguments Http200 {A} body.
Arguments Http404 {A}.
Arguments Http500 {A}.

(** The directory [uploads]: the tree of every upload directory that
    exists. *)
Definition uploads := gmap string fs_tree.

(** [_graph_cache]. *)
Definition graph_cache := gmap string DependencyGraph.GraphData.

(** [get_dependency_graph]: the cache is looked at before the directory;
    every exception of [build_graph] becomes status 500, and then nothing is
    cached. *)
Definition get_dependency_graph `{PyRuntime} (disk : uploads) (upload_id : string)
    (cache : graph_cache) : response DependencyGraph.GraphData * graph_cache :=
  match cache !! upload_id with
  | Some graph_data => (Http200 graph_data, cache)
  | None =>
      match disk !! upload_id with
      | None => (Http404, cache)
      | Some upload_dir =>
          match DependencyGraph.build_graph upload_dir upload_id
                  DependencyGraph.new_builder with
          | DependencyGraph.Ok graph_data _ =>
              (Http200 graph_data, <[ upload_id := graph_data ]> cache)
          | DependencyGraph.Raise _ _ => (Http500, cache)
          | DependencyGraph.OutOfFuel => (Http500, cache)
          end
      end
  end.

(** [get_file_dependencies]: the directory is looked at first, and the
    graph is built again whether it is cached or not. *)
Definition get_file_dependencies `{PyRuntime} (disk : uploads)
    (upload_id file_path : string) (cache : graph_cache)
    : response DependencyGraph.FileDependencies * graph_cache :=
  match disk !! upload_id with
  | None => (Http404, cache)
  | Some upload_dir =>
      match DependencyGraph.build_graph upload_dir upload_id
              DependencyGraph.new_builder with
      | DependencyGraph.Ok graph_data builder =>
          let cache :=
            match cache !! upload_id with
            | None => <[ upload_id := graph_data ]> cache
            | Some _ => cache
            end in
          match DependencyGraph.get_file_dependencies file_path builder with
          | DependencyGraph.Ok file_deps _ => (Http200 file_deps, cache)
          | _ => (Http500, cache)
          end
      | _ => (Http500, cache)
      end
  end.

(** The [status] field of what [clear_graph_cache] returns. *)
Inductive cleared := Success | Info.

Definition clear_graph_cache (upload_id : string) (cache : graph_cache)
    : cleared * graph_cache :=
  match cache !! upload_id with
  | Some _ => (Success, delete upload_id cache)
  | None => (Info, cache)
  end.

(** A request to one of the three routes. *)
Inductive request :=
  | GetGraph (upload_id : string)
  | GetFile (upload_id file_path : string)
  | ClearCache (upload_id : string).

(** The cache after a request that meets the directory [disk]. *)
Definition serve `{PyRuntime} (cache : graph_cache) (step : uploads * request)
    : graph_cache :=
  match snd step with
  | GetGraph upload_id => snd (get_dependency_graph (fst step) upload_id cache)
  | GetFile upload_id file_path =>
      snd (get_file_dependencies (fst step) upload_id file_path cache)
  | ClearCache upload_id => snd (clear_graph_cache upload_id cache)
  end.

(** The cache after a sequence of requests, each one with the directory as
    it is when the request arrives. *)
Definition serve_all `{PyRuntime} (cache : graph_cache)
    (steps : list (uploads * request)) : graph_cache :=
  foldl serve cache steps.

(** A cached graph is what [build_graph] returned on a new builder for a
    tree that one of the requests met. *)
Definition built_from `{PyRuntime} (steps : list (uploads * request))
    (upload_id : string) (graph_data : DependencyGraph.GraphData) : Prop :=
  exists disk r upload_dir b,
    (disk, r) ∈ steps /\ disk !! upload_id = Some upload_dir
    /\ DependencyGraph.build_graph upload_dir upload_id DependencyGraph.new_builder
       = DependencyGraph.Ok graph_data b.

End GraphRoutes.

Module ExampleRoutes.

(** An [uploads] directory with one acyclic and one tangled upload. *)
Definition disk : GraphRoutes.uploads :=
  {[ "chain" := Example.chain_tree; "tangled" := Example.tangled_tree ]}.

(** The cache after the graph of [chain] was asked for. *)
Definition warm : GraphRoutes.graph_cache :=
  snd (GraphRoutes.get_dependency_graph (H := Example.runtime) disk "chain" ∅).

End ExampleRoutes.

Module GlobSpec.

(** The path of the entry reached from [path] along the names [parts]. *)
Definition path_from (path : string) (parts : list string) : string :=
  foldl PyPath.child path parts.

(** An entry named [*.py], at any depth below [e]. *)
Definition python_entry (e : fs_entry) (path : string) (p : string) (x : fs_entry)
    : Prop :=
  exists parts es name,
    SnapshotSpec.subdir e parts es /\ (name, x) ∈ es
    /\ PyPath.endswith name ".py" = true
    /\ p = path_from path (parts ++ [name]).

End GlobSpec.

(* ===================================================================== *)
(** * routes/comparison.py *)
(* ===================================================================== *)

(** The handlers of the module and the module-level dictionary
    [_metadata_cache] they share. *)
Module MetadataRoutes.

(** An upload directory: its tree and what [build_metadata] reads besides
    the tree. *)
Record upload := { up_tree : fs_tree; up_info : MetadataBuilder.UploadInfo }.

Definition uploads := gmap string upload.

(** [_metadata_cache]. *)
Definition metadata_cache := gmap string Models.CodebaseMetadata.

(** [get_codebase_metadata]: the cache is used unless [refresh] is set.
    [refresh] is the truth value [not refresh] reads: that of the query
    parameter when the route is requested, and that of the default when the
    function is called with the upload id alone.  The default is the object
    [Query(False, ...)], not [False], and an object is true. *)
Definition get_codebase_metadata `{PyRuntime} (disk : uploads) (upload_id : string)
    (refresh : bool) (cache : metadata_cache)
    : GraphRoutes.response Models.CodebaseMetadata * metadata_cache :=
  match refresh, cache !! upload_id with
  | false, Some metadata => (GraphRoutes.Http200 metadata, cache)
  | _, _ =>
      match disk !! upload_id with
      | None => (GraphRoutes.Http404, cache)
      | Some upload_dir =>
          let metadata :=
            fst (MetadataBuilder.build_metadata (up_tree upload_dir) (up_info upload_dir)
                   upload_id MetadataBuilder.reset) in
          (GraphRoutes.Http200 metadata, <[ upload_id := metadata ]> cache)
      end
  end.

(** [compare_codebases].  Both snapshots come from [get_codebase_metadata]
    called with the upload id alone, so [refresh] is the default object,
    which is true: the cache is not read and each call that finds its
    directory overwrites the entry of its upload.  An [HTTPException] of
    either call is raised again as it is, and the second call is not made
    when the first one raises.  [now] is the clock [compare] reads. *)
Definition compare_codebases `{PyRuntime} (disk : uploads)
    (base_upload_id compare_upload_id : string) (now : Z) (cache : metadata_cache)
    : GraphRoutes.response Models.CodebaseComparison * metadata_cache :=
  match get_codebase_metadata disk base_upload_id true cache with
  | (GraphRoutes.Http200 base_metadata, cache) =>
      match get_codebase_metadata disk compare_upload_id true cache with
      | (GraphRoutes.Http200 compare_metadata, cache) =>
          let comparison :=
            fst (Comparator.compare base_metadata compare_metadata now
                   Comparator.new_comparator) in
          (GraphRoutes.Http200 comparison, cache)
      | (GraphRoutes.Http404, cache) => (GraphRoutes.Http404, cache)
      | (GraphRoutes.Http500, cache) => (GraphRoutes.Http500, cache)
      end
  | (GraphRoutes.Http404, cache) => (GraphRoutes.Http404, cache)
  | (GraphRoutes.Http500, cache) => (GraphRoutes.Http500, cache)
  end.

(** [clear_metadata_cache], with whether there was an entry to delete. *)
Definition clear_metadata_cache (upload_id : string) (cache : metadata_cache)
    : bool * metadata_cache :=
  match cache !! upload_id with
  | Some _ => (true, delete upload_id cache)
  | None => (false, cache)
  end.

(** A request to one of the four routes of the module.
    [list_available_codebases] reads [_metadata_cache] and never writes
    it. *)
Inductive request :=
  | GetMetadata (upload_id : string) (refresh : bool)
  | Compare (base_upload_id compare_upload_id : string) (now : Z)
  | ListCodebases
  | ClearCache (upload_id : string).

(** The cache a request leaves, served on the upload directories of the
    moment. *)
Definition serve `{PyRuntime} (cache : metadata_cache) (step : uploads * request)
    : metadata_cache :=
  match snd step with
  | GetMetadata upload_id refresh =>
      snd (get_codebase_metadata (fst step) upload_id refresh cache)
  | Compare base_upload_id compare_upload_id now =>
      snd (compare_codebases (fst step) base_upload_id compare_upload_id now cache)
  | ListCodebases => cache
  | ClearCache upload_id => snd (clear_metadata_cache upload_id cache)
  end.

Definition serve_all `{PyRuntime} (cache : metadata_cache)
    (steps : list (uploads * request)) : metadata_cache :=
  foldl serve cache steps.

(** The request refreshes or clears the entry of [upload_id], or compares
    [upload_id] with another upload or another upload with it. *)
Definition renews (upload_id : string) (r : request) : Prop :=
  match r with
  | GetMetadata id refresh => id = upload_id /\ refresh = true
  | Compare base_upload_id compare_upload_id _ =>
      base_upload_id = upload_id \/ compare_upload_id = upload_id
  | ListCodebases => False
  | ClearCache id => id = upload_id
  end.

(** No request of the sequence refreshes, compares or clears
    [upload_id]. *)
Definition untouched (upload_id : string) (steps : list (uploads * request)) : Prop :=
  Forall (fun step => ~ renews upload_id (snd step)) steps.

End MetadataRoutes.

(** Three modules of a package that import each other in a ring: views
    imports models, models imports forms and forms imports views. *)
Module ExampleTriangle.

Definition ring_tree : fs_tree :=
  [ ("pkg", Dir [ ("views.py", Example.source "import pkg.models");
                  ("forms.py", Example.source "import pkg.views");
                  ("models.py", Example.source "import pkg.forms") ]) ].

End ExampleTriangle.

(** A runtime on which no text parses: the parser gives up with an
    exception that is not a [SyntaxError]. *)
Module ExampleFailure.

Definition runtime : PyRuntime :=
  {| read_text := Some;
     ast_parse := fun _ => ParseFailure;
     sha256_hexdigest := fun bytes => "sha256:" +:+ bytes |}.

End ExampleFailure.

Module ExampleEdits.
Import ExampleSnapshots.

(** The files of [base_ab], every one of them edited. *)
Definition edited_ab : Models.CodebaseMetadata :=
  snapshot "edited" [file "a" 11 "h-a2"; file "b" 21 "h-b2"].

(** A snapshot that shares no path with [base_ab]. *)
Definition other_cd : Models.CodebaseMetadata :=
  snapshot "other" [file "c" 30 "h-c"; file "d" 40 "h-d"].

End ExampleEdits.


(* ===================================================================== *)
(** * Dictionaries *)
(* ===================================================================== *)

Module PyDictFacts.
Import PyDict.

Section Facts.
Context {V : Type}.
Implicit Types (d : pydict V) (k : string) (v : V).

Lemma get_set d k k' v :
  get k' (set k v d) = if decide (k = k') then Some v else get k' d.
Proof.
  induction d as [|[k0 v0] d IH]; simpl.
  - repeat case_decide; congruence.
  - destruct (decide (k = k0)) as [->|Hne]; simpl.
    + repeat case_decide; congruence.
    + rewrite IH. repeat case_decide; congruence.
Qed.

Lemma get_set_eq d k v : get k (set k v d) = Some v.
Proof. rewrite get_set. by case_decide. Qed.

Lemma get_set_ne d k k' v : k <> k' -> get k' (set k v d) = get k' d.
Proof. intros. rewrite get_set. by case_decide. Qed.

Lemma get_Some_keys d k v : get k d = Some v -> k ∈ keys d.
Proof.
  unfold keys. induction d as [|[k0 v0] d IH]; simpl; [done|].
  destruct (decide (k = k0)) as [->|Hne]; intros Hget.
  - apply list_elem_of_here.
  - apply list_elem_of_further; auto.
Qed.

Lemma get_None_keys d k : get k d = None <-> k ∉ keys d.
Proof.
  unfold keys. induction d as [|[k0 v0] d IH]; simpl.
  - split; [intros _; apply not_elem_of_nil | done].
  - rewrite not_elem_of_cons. case_decide; subst; [split; [done | intros [? _]; done] | ].
    rewrite IH. naive_solver.
Qed.

Lemma keys_set d k v :
  keys (set k v d) = if decide (k ∈ keys d) then keys d else keys d ++ [k].
Proof.
  unfold keys. induction d as [|[k0 v0] d IH]; csimpl.
  - done.
  - destruct (decide (k = k0)) as [->|Hne]; csimpl.
    + rewrite decide_True by apply list_elem_of_here. done.
    + rewrite IH. destruct (decide (k ∈ d.*1)) as [Hin|Hin].
      * rewrite decide_True by (by apply list_elem_of_further). done.
      * rewrite decide_False; [done|]. rewrite elem_of_cons. naive_solver.
Qed.

Lemma elem_of_keys_set d k k' v : k' ∈ keys (set k v d) <-> k' = k \/ k' ∈ keys d.
Proof.
  rewrite keys_set. case_decide; [|rewrite elem_of_app, list_elem_of_singleton];
    naive_solver.
Qed.

End Facts.
End PyDictFacts.

(* ===================================================================== *)
(** * The dependency graph *)
(* ===================================================================== *)

Module GraphFacts.
Import DependencyGraph GraphSpec.

Lemma foldl_invariant {A B} (P : A -> Prop) (f : A -> B -> A) (l : list B) (a : A) :
  P a -> (forall a b, b ∈ l -> P a -> P (f a b)) -> P (foldl f a l).
Proof.
  revert a. induction l as [|x l IH]; intros a Ha Hstep; simpl; [done|].
  apply IH.
  - apply Hstep; [apply list_elem_of_here | done].
  - intros a' b Hb. apply Hstep. by apply list_elem_of_further.
Qed.

(** ** [defaultdict(set)] *)

Lemma dd_get_add k k' x dd :
  dd_get k' (dd_add k x dd) = if decide (k = k') then dd_get k dd ∪ {[ x ]} else dd_get k' dd.
Proof.
  unfold dd_add, dd_get at 1. rewrite PyDictFacts.get_set.
  by destruct (decide (k = k')).
Qed.

Lemma elem_of_dd_get_add k k' x y dd :
  y ∈ dd_get k' (dd_add k x dd) <-> y ∈ dd_get k' dd \/ (k' = k /\ y = x).
Proof.
  rewrite dd_get_add. destruct (decide (k = k')) as [->|Hne]; set_solver.
Qed.

Lemma keys_dd_add k k' x dd :
  k' ∈ PyDict.keys (dd_add k x dd) <-> k' = k \/ k' ∈ PyDict.keys dd.
Proof. apply PyDictFacts.elem_of_keys_set. Qed.

Lemma dd_get_not_key k (dd : pydict (gset string)) :
  k ∉ PyDict.keys dd -> dd_get k dd = ∅.
Proof. intros Hk. unfold dd_get. apply PyDictFacts.get_None_keys in Hk. by rewrite Hk. Qed.

(** ** One step of [_build_relationships] *)

(** What [relate] does, by the three branches of the source. *)
Lemma relate_cases module_map file_path b import_name :
  let b' := relate module_map file_path b import_name in
  files_data b' = files_data b /\ circular_deps b' = circular_deps b /\
  ((exists target, _resolve_import import_name file_path module_map = Some target
                   /\ PyStr.truthy target = true
                   /\ graph b' = dd_add file_path target (graph b)
                   /\ reverse_graph b' = dd_add target file_path (reverse_graph b)
                   /\ missing_imports b' = missing_imports b)
   \/ (unresolved module_map file_path import_name = true
       /\ graph b' = graph b /\ reverse_graph b' = reverse_graph b
       /\ missing_imports b' =
            missing_imports b ++
              (if _is_local_import import_name
               then [ {| mi_file := file_path; mi_import := import_name |} ] else []))).
Proof.
  unfold relate, unresolved.
  destruct (_resolve_import import_name file_path module_map) as [target|] eqn:Hres.
  - destruct (PyStr.truthy target) eqn:Ht; simpl.
    + split; [done|]. split; [done|]. left. by exists target.
    + destruct (_is_local_import import_name); simpl;
        (split; [done|]; split; [done|]); right; by rewrite ?app_nil_r.
  - destruct (_is_local_import import_name); simpl;
      (split; [done|]; split; [done|]); right; by rewrite ?app_nil_r.
Qed.

Lemma transposed_add forward reverse source target :
  transposed forward reverse ->
  transposed (dd_add source target forward) (dd_add target source reverse).
Proof.
  intros Ht s t. rewrite !elem_of_dd_get_add, (Ht s t). naive_solver.
Qed.

Lemma relate_transposed module_map file_path b import_name :
  transposed (graph b) (reverse_graph b) ->
  transposed (graph (relate module_map file_path b import_name))
             (reverse_graph (relate module_map file_path b import_name)).
Proof.
  intros Ht.
  destruct (relate_cases module_map file_path b import_name)
    as (_ & _ & [(target & _ & _ & -> & -> & _) | (_ & -> & -> & _)]); [|done].
  by apply transposed_add.
Qed.

Lemma relate_file_files_data module_map b item :
  files_data (relate_file module_map b item) = files_data b.
Proof.
  unfold relate_file.
  apply (foldl_invariant (fun b' => files_data b' = files_data b)); [done|].
  intros a t _ <-. apply relate_cases.
Qed.

Lemma relate_file_circular_deps module_map b item :
  circular_deps (relate_file module_map b item) = circular_deps b.
Proof.
  unfold relate_file.
  apply (foldl_invariant (fun b' => circular_deps b' = circular_deps b)); [done|].
  intros a t _ <-. apply relate_cases.
Qed.

Lemma relate_file_transposed module_map b item :
  transposed (graph b) (reverse_graph b) ->
  transposed (graph (relate_file module_map b item))
             (reverse_graph (relate_file module_map b item)).
Proof.
  intros Ht. unfold relate_file.
  apply (foldl_invariant (fun b' => transposed (graph b') (reverse_graph b'))); [done|].
  intros a t _. apply relate_transposed.
Qed.

Lemma _build_relationships_files_data b :
  files_data (_build_relationships b) = files_data b.
Proof.
  unfold _build_relationships.
  apply (foldl_invariant (fun b' => files_data b' = files_data b)); [done|].
  intros a t _ <-. apply relate_file_files_data.
Qed.

Lemma _build_relationships_circular_deps b :
  circular_deps (_build_relationships b) = circular_deps b.
Proof.
  unfold _build_relationships.
  apply (foldl_invariant (fun b' => circular_deps b' = circular_deps b)); [done|].
  intros a t _ <-. apply relate_file_circular_deps.
Qed.

Lemma _build_relationships_transposed b :
  transposed (graph b) (reverse_graph b) ->
  transposed (graph (_build_relationships b)) (reverse_graph (_build_relationships b)).
Proof.
  intros Ht. unfold _build_relationships.
  apply (foldl_invariant (fun b' => transposed (graph b') (reverse_graph b'))); [done|].
  intros a t _. apply relate_file_transposed.
Qed.

Section WithRuntime.
Context `{PyRuntime}.

Lemma scan_imports_graphs python_files b :
  graph (scan_imports python_files b) = graph b /\
  reverse_graph (scan_imports python_files b) = reverse_graph b /\
  circular_deps (scan_imports python_files b) = circular_deps b /\
  missing_imports (scan_imports python_files b) = missing_imports b.
Proof.
  unfold scan_imports.
  apply (foldl_invariant
           (fun b' => graph b' = graph b /\ reverse_graph b' = reverse_graph b /\
                      circular_deps b' = circular_deps b /\
                      missing_imports b' = missing_imports b)); [done|].
  by intros a pf _ (<- & <- & <- & <-).
Qed.

(** The state [build_graph] leaves: the relationships of the scanned files
    with the cycles found so far. *)
Lemma build_graph_state upload_dir upload_id b :
  let b1 := _build_relationships (scan_imports (PyPath.glob_py upload_dir) b) in
  match build_graph upload_dir upload_id b with
  | Ok data b' =>
      (exists found, b' = with_circular_deps b1 found) /\ data = _generate_graph_data b'
  | Raise _ b' => exists found, b' = with_circular_deps b1 found
  | OutOfFuel => True
  end.
Proof.
  unfold build_graph, _detect_circular_dependencies. simpl.
  destruct (detect _ _) as [[] st|e st|]; eauto.
Qed.

Lemma build_graph_transposed upload_dir upload_id b :
  transposed (graph b) (reverse_graph b) ->
  match build_graph upload_dir upload_id b with
  | Ok _ b' | Raise _ b' => transposed (graph b') (reverse_graph b')
  | OutOfFuel => True
  end.
Proof.
  intros Ht.
  assert (transposed
            (graph (_build_relationships (scan_imports (PyPath.glob_py upload_dir) b)))
            (reverse_graph (_build_relationships (scan_imports (PyPath.glob_py upload_dir) b))))
    as Ht'.
  { apply _build_relationships_transposed.
    destruct (scan_imports_graphs (PyPath.glob_py upload_dir) b) as (-> & -> & _). done. }
  pose proof (build_graph_state upload_dir upload_id b) as Hst. simpl in Hst.
  destruct (build_graph upload_dir upload_id b) as [data b'|e b'|]; [| |done].
  - destruct Hst as [[found ->] _]. done.
  - destruct Hst as [found ->]. done.
Qed.

Lemma reachable_transposed b :
  reachable b -> transposed (graph b) (reverse_graph b).
Proof.
  induction 1 as [|tree id b data b' _ IH Hrun|tree id b e b' _ IH Hrun].
  - intros s t. unfold dd_get. simpl. set_solver.
  - pose proof (build_graph_transposed tree id b IH) as Ht. by rewrite Hrun in Ht.
  - pose proof (build_graph_transposed tree id b IH) as Ht. by rewrite Hrun in Ht.
Qed.

End WithRuntime.

(** ** The missing-imports list *)

Lemma relate_file_missing module_map b item :
  missing_imports (relate_file module_map b item)
  = missing_imports b ++ missing_of module_map [item].
Proof.
  unfold relate_file, missing_of. simpl. rewrite app_nil_r.
  destruct item as [file_path tokens]. simpl. revert b.
  induction tokens as [|t tokens IH]; intros b; simpl.
  - by rewrite app_nil_r.
  - rewrite IH.
    destruct (relate_cases module_map file_path b t)
      as (_ & _ & [(target & Hres & Htruthy & _ & _ & ->) | (Hun & _ & _ & ->)]).
    + unfold unresolved. rewrite Hres, Htruthy. done.
    + rewrite Hun. simpl.
      destruct (_is_local_import t); simpl; by rewrite <- ?app_assoc, ?app_nil_r.
Qed.

Lemma missing_of_app module_map items1 items2 :
  missing_of module_map (items1 ++ items2)
  = missing_of module_map items1 ++ missing_of module_map items2.
Proof. unfold missing_of. apply flat_map_app. Qed.

Lemma _build_relationships_missing b :
  missing_imports (_build_relationships b)
  = missing_imports b
      ++ missing_of (_build_module_mapping b) (PyDict.items (files_data b)).
Proof.
  unfold _build_relationships. generalize (_build_module_mapping b) as module_map.
  intros module_map. generalize (PyDict.items (files_data b)) as items.
  intros items. revert b.
  induction items as [|item items IH]; intros b.
  - simpl. by rewrite app_nil_r.
  - cbn [foldl]. rewrite IH, relate_file_missing.
    change (item :: items) with ([item] ++ items).
    by rewrite missing_of_app, app_assoc.
Qed.

Lemma elem_of_missing_of module_map items file_path token :
  {| mi_file := file_path; mi_import := token |} ∈ missing_of module_map items
  <-> exists tokens, (file_path, tokens) ∈ items /\ token ∈ tokens
                     /\ unresolved module_map file_path token = true
                     /\ _is_local_import token = true.
Proof.
  unfold missing_of. rewrite list_elem_of_In, in_flat_map. split.
  - intros ([f tokens] & Hitem & Hin). simpl in Hin.
    apply in_map_iff in Hin as (t & Heq & Ht).
    apply filter_In in Ht as [Ht Hcond].
    injection Heq as -> ->.
    apply andb_true_iff in Hcond as [? ?].
    exists tokens. by rewrite !list_elem_of_In.
  - intros (tokens & Hitem & Ht & Hun & Hloc).
    exists (file_path, tokens). split; [by apply list_elem_of_In|].
    simpl. apply in_map_iff. exists token. split; [done|].
    apply filter_In. split; [by apply list_elem_of_In|]. by rewrite Hun, Hloc.
Qed.

End GraphFacts.

(* ===================================================================== *)
(** * The module resolver *)
(* ===================================================================== *)

Module ResolverFacts.
Import DependencyGraph ResolverSpec.

Lemma register_partials_lookup file_path parts indices module_map key :
  foldl (register_partial file_path parts) module_map indices !! key
  = match module_map !! key with
    | Some g => Some g
    | None =>
        if decide (key ∈ (fun i => PyStr.join "." (drop i parts)) <$> indices)
        then Some file_path else None
    end.
Proof.
  revert module_map. induction indices as [|i indices IH]; intros module_map.
  - simpl. by destruct (module_map !! key).
  - cbn [foldl]. rewrite IH. unfold register_partial. rewrite fmap_cons.
    destruct (module_map !! PyStr.join "." (drop i parts)) as [g|] eqn:Hi.
    + destruct (module_map !! key) as [g'|] eqn:Hk; [done|].
      assert (key <> PyStr.join "." (drop i parts)) as Hne by congruence.
      destruct (decide (key ∈ _ <$> indices)) as [Hin|Hin].
      * rewrite decide_True; [done|]. by apply list_elem_of_further.
      * rewrite decide_False; [done|]. rewrite elem_of_cons. naive_solver.
    + destruct (decide (key = PyStr.join "." (drop i parts))) as [->|Hne].
      * rewrite lookup_insert_eq, Hi.
        rewrite decide_True; [done|]. apply list_elem_of_here.
      * rewrite lookup_insert_ne by done.
        destruct (module_map !! key) as [g'|]; [done|].
        destruct (decide (key ∈ _ <$> indices)) as [Hin|Hin].
        -- rewrite decide_True; [done|]. by apply list_elem_of_further.
        -- rewrite decide_False; [done|]. rewrite elem_of_cons. naive_solver.
Qed.

(** Registering one file: its dotted name is overwritten, every other suffix
    is entered unless the name is taken, nothing else changes. *)
Lemma register_file_lookup module_map file_path key :
  register_file module_map file_path !! key
  = if decide (key = module_name_of file_path) then Some file_path
    else match module_map !! key with
         | Some g => Some g
         | None =>
             if decide (key ∈ suffix_names (module_name_of file_path))
             then Some file_path else None
         end.
Proof.
  unfold register_file. rewrite register_partials_lookup.
  destruct (decide (key = module_name_of file_path)) as [->|Hne].
  - by rewrite lookup_insert_eq.
  - rewrite lookup_insert_ne by done. done.
Qed.

Lemma registered_snoc scanned f key :
  registered (scanned ++ [f]) key
  = if decide (key = module_name_of f) then Some f
    else match registered scanned key with
         | Some g => Some g
         | None => if decide (key ∈ suffix_names (module_name_of f)) then Some f else None
         end.
Proof.
  unfold registered. rewrite !filter_app, !head_app.
  rewrite !filter_cons, !filter_nil.
  destruct (decide (key = module_name_of f)) as [->|Hne].
  - rewrite decide_True by done. by rewrite last_snoc.
  - rewrite (decide_False (P := module_name_of f = key)) by done.
    rewrite app_nil_r.
    destruct (last _) as [g|]; [done|].
    destruct (head (filter _ scanned)) as [g|]; [done|].
    by destruct (decide (key ∈ suffix_names (module_name_of f))).
Qed.

(** The mapping [_build_module_mapping] returns, key by key. *)
Lemma build_mapping_registered scanned key :
  foldl register_file ∅ scanned !! key = registered scanned key.
Proof.
  induction scanned as [|f scanned IH] using rev_ind.
  - done.
  - rewrite foldl_app. cbn [foldl].
    by rewrite register_file_lookup, registered_snoc, IH.
Qed.

Lemma registered_elem_of scanned key f :
  registered scanned key = Some f -> f ∈ scanned.
Proof.
  unfold registered.
  destruct (last _) as [g|] eqn:Hlast.
  - intros [= ->]. apply last_Some_elem_of in Hlast.
    by apply list_elem_of_filter in Hlast as [_ ?].
  - intros Hhead. apply head_Some_elem_of in Hhead.
    by apply list_elem_of_filter in Hhead as [_ ?].
Qed.

Lemma rev_seq_succ n : rev (seq 1 (S n)) = S n :: rev (seq 1 n).
Proof. rewrite seq_S, rev_app_distr. done. Qed.

(** [_resolve_import] after a failed direct match, over the first [n]
    components: the longest prefix that is a key decides. *)
Lemma resolve_prefixes_Some parts module_map n f :
  resolve_prefixes parts module_map (rev (seq 1 n)) = Some f
  <-> exists i, (1 <= i <= n)%nat
        /\ module_map !! PyStr.join "." (take i parts) = Some f
        /\ forall j, (i < j <= n)%nat -> module_map !! PyStr.join "." (take j parts) = None.
Proof.
  induction n as [|n IH].
  - simpl. split; [done | intros (i & ? & _); lia].
  - rewrite rev_seq_succ. cbn [resolve_prefixes].
    destruct (module_map !! PyStr.join "." (take (S n) parts)) as [g|] eqn:Hn.
    + split.
      * intros [= ->]. exists (S n). split; [lia|]. split; [done|]. intros j ?; lia.
      * intros (i & Hi & Hhit & Hnone).
        destruct (decide (i = S n)) as [->|Hne]; [congruence|].
        rewrite Hnone in Hn by lia. done.
    + rewrite IH. split.
      * intros (i & Hi & Hhit & Hnone). exists i. split; [lia|]. split; [done|].
        intros j Hj. destruct (decide (j = S n)) as [->|]; [done|]. apply Hnone. lia.
      * intros (i & Hi & Hhit & Hnone).
        destruct (decide (i = S n)) as [->|Hne]; [congruence|].
        exists i. split; [lia|]. split; [done|]. intros j Hj. apply Hnone. lia.
Qed.

Lemma resolve_prefixes_None parts module_map n :
  resolve_prefixes parts module_map (rev (seq 1 n)) = None
  <-> forall i, (1 <= i <= n)%nat -> module_map !! PyStr.join "." (take i parts) = None.
Proof.
  induction n as [|n IH].
  - simpl. split; [intros _ i ?; lia | done].
  - rewrite rev_seq_succ. cbn [resolve_prefixes].
    destruct (module_map !! PyStr.join "." (take (S n) parts)) as [g|] eqn:Hn.
    + split; [done|]. intros Hall. rewrite Hall in Hn by lia. done.
    + rewrite IH. split.
      * intros Hall i Hi. destruct (decide (i = S n)) as [->|]; [done|]. apply Hall. lia.
      * intros Hall i Hi. apply Hall. lia.
Qed.

Lemma _resolve_import_value import_name source_file module_map f :
  _resolve_import import_name source_file module_map = Some f ->
  exists key, module_map !! key = Some f.
Proof.
  unfold _resolve_import. destruct (module_map !! import_name) as [g|] eqn:Hd.
  - intros [= ->]. eauto.
  - intros Hres. apply resolve_prefixes_Some in Hres as (i & _ & Hhit & _). eauto.
Qed.

End ResolverFacts.

(* ===================================================================== *)
(** * The cycle detector *)
(* ===================================================================== *)

Module CycleFacts.
Import DependencyGraph CycleSpec.

Lemma index_of_Some x path i :
  index_of x path = Some i ->
  path !! i = Some x /\ forall j, (j < i)%nat -> path !! j <> Some x.
Proof.
  revert i. induction path as [|y path IH]; intros i; simpl; [done|].
  destruct (decide (x = y)) as [->|Hne].
  - intros [= <-]. split; [done|]. intros j ?; lia.
  - destruct (index_of x path) as [k|]; simpl; [|done].
    intros [= <-]. destruct (IH k eq_refl) as [Hk Hfirst]. split; [done|].
    intros [|j] Hj; simpl; [congruence|]. apply Hfirst. lia.
Qed.

Lemma index_of_None x path : index_of x path = None <-> x ∉ path.
Proof.
  induction path as [|y path IH]; simpl.
  - split; [intros _; apply not_elem_of_nil | done].
  - rewrite not_elem_of_cons. destruct (decide (x = y)) as [->|Hne].
    + split; [done | intros [? _]; done].
    + destruct (index_of x path) as [k|]; simpl.
      * split; [done|]. intros [_ Hx]. by apply IH in Hx.
      * split; [|done]. intros _. split; [done|]. by apply IH.
Qed.

Section Detector.
Variable adjacency : pydict (list string).

Local Abbreviation U := (all_nodes adjacency).
Local Abbreviation edge := (edge adjacency).
Local Abbreviation unvisited := (unvisited adjacency).

Lemma key_in_all_nodes k : k ∈ PyDict.keys adjacency -> k ∈ U.
Proof. intros Hk. apply elem_of_list_to_set, elem_of_app. by left. Qed.

Lemma neighbor_in_all_nodes u v : edge u v -> v ∈ U.
Proof.
  unfold CycleSpec.edge, neighbors. intros Hv.
  destruct (PyDict.get u adjacency) as [targets|] eqn:Hget; simpl in Hv;
    [|by apply elem_of_nil in Hv].
  apply elem_of_list_to_set, elem_of_app. right.
  apply list_elem_of_In, in_concat. exists targets. split; [|by apply list_elem_of_In].
  clear Hv. apply list_elem_of_In.
  induction adjacency as [|[k0 v0] d IH]; simpl in *; [done|].
  destruct (decide (u = k0)) as [->|Hne].
  - injection Hget as ->. apply list_elem_of_here.
  - apply list_elem_of_further. auto.
Qed.

(** *** The recursion ends within the fuel *)

Lemma unvisited_mono st st' :
  visited st ⊆ visited st' -> (unvisited st' <= unvisited st)%nat.
Proof.
  intros Hsub. unfold CycleSpec.unvisited. generalize (all_nodes adjacency) as X.
  intros X. apply subseteq_size. set_solver.
Qed.

Lemma unvisited_enter node st :
  node ∈ U -> node ∉ visited st -> (unvisited (enter node st) < unvisited st)%nat.
Proof.
  unfold CycleSpec.unvisited. generalize (all_nodes adjacency) as X.
  intros X HU Hv. apply subset_size. simpl. split; [set_solver|].
  intros Hsub. specialize (Hsub node). set_solver.
Qed.

Lemma dfs_neighbors_ended call fuel path todo st :
  (forall n st, n ∈ U -> n ∉ visited st -> (unvisited st <= fuel)%nat ->
                ended st (call n path st)) ->
  (forall n, n ∈ todo -> n ∈ U) ->
  (unvisited st <= fuel)%nat ->
  ended st (dfs_neighbors call path todo st).
Proof.
  intros Hcall. revert st. induction todo as [|n todo IH]; intros st Htodo Hfuel.
  - simpl. done.
  - cbn [dfs_neighbors].
    assert (forall n, n ∈ todo -> n ∈ U) as Htodo'
      by (intros; apply Htodo; by apply list_elem_of_further).
    destruct (decide (n ∈ visited st)) as [Hv|Hv].
    + destruct (decide (n ∈ rec_stack st)).
      * destruct (index_of n path); simpl; done.
      * by apply IH.
    + pose proof (Hcall n st (Htodo n (list_elem_of_here _ _)) Hv Hfuel) as Hn.
      destruct (call n path st) as [[] st'|e st'|]; simpl in Hn; simpl; try done.
      pose proof (unvisited_mono _ _ Hn).
      pose proof (IH st' Htodo' ltac:(lia)) as Hrest.
      destruct (dfs_neighbors call path todo st') as [? st''|? st''|];
        simpl in *; [set_solver | set_solver | done].
Qed.

Lemma dfs_ended fuel node path st :
  node ∈ U -> node ∉ visited st -> (unvisited st <= fuel)%nat ->
  ended st (dfs adjacency fuel node path st).
Proof.
  revert node path st. induction fuel as [|fuel IH]; intros node path st HU Hv Hfuel.
  - pose proof (unvisited_enter node st HU Hv). lia.
  - cbn [dfs].
    pose proof (unvisited_enter node st HU Hv) as Hlt.
    pose proof (dfs_neighbors_ended (dfs adjacency fuel) fuel (path ++ [node])
                  (neighbors adjacency node) (enter node st)) as Hloop.
    specialize (Hloop (fun n st' Hn Hnv Hf => IH n (path ++ [node]) st' Hn Hnv Hf)).
    specialize (Hloop (fun n Hn => neighbor_in_all_nodes node n Hn) ltac:(lia)).
    destruct (dfs_neighbors _ _ _ _) as [[] st'|e st'|]; simpl in *; set_solver.
Qed.

Lemma dfs_roots_ended roots st :
  (forall k, k ∈ roots -> k ∈ U) ->
  ended st (dfs_roots adjacency (enough_fuel adjacency) roots st).
Proof.
  revert st. induction roots as [|k roots IH]; intros st Hroots.
  - simpl. done.
  - cbn [dfs_roots].
    assert (forall k, k ∈ roots -> k ∈ U) as Hroots'
      by (intros; apply Hroots; by apply list_elem_of_further).
    destruct (decide (k ∈ visited st)) as [Hv|Hv]; [by apply IH|].
    assert (unvisited st <= enough_fuel adjacency)%nat as Hfuel.
    { unfold enough_fuel, CycleSpec.unvisited. generalize (all_nodes adjacency) as X.
      intros X. pose proof (subseteq_size (X ∖ visited st) X ltac:(set_solver)). lia. }
    pose proof (dfs_ended (enough_fuel adjacency) k [] st
                  (Hroots k (list_elem_of_here _ _)) Hv Hfuel) as Hk.
    destruct (dfs adjacency _ k [] st) as [? st'|e st'|]; simpl in Hk; simpl; try done.
    pose proof (IH st' Hroots') as Hrest.
    destruct (dfs_roots _ _ roots st') as [? st''|? st''|]; simpl in *;
      [set_solver | set_solver | done].
Qed.

(** [detect] never runs out of fuel. *)
Lemma detect_ended found : detect adjacency found <> OutOfFuel.
Proof.
  unfold detect. intros Hout.
  pose proof (dfs_roots_ended (PyDict.keys adjacency)
                {| visited := ∅; rec_stack := ∅; cycles := found |}
                key_in_all_nodes) as Hend.
  by rewrite Hout in Hend.
Qed.


(** *** Without a cycle in the graph nothing is reported *)

Lemma dfs_neighbors_quiet call node path todo st :
  acyclic adjacency ->
  (forall n st, edge node n -> (forall x, x ∈ rec_stack st -> rtc edge x n) ->
                quiet st (call n path st)) ->
  (forall n, n ∈ todo -> edge node n) ->
  (forall x, x ∈ rec_stack st -> rtc edge x node) ->
  quiet st (dfs_neighbors call path todo st).
Proof.
  intros Hacyclic Hcall. revert st.
  induction todo as [|n todo IH]; intros st Htodo Hstack.
  - right. exists st. simpl. done.
  - cbn [dfs_neighbors].
    assert (edge node n) as Hedge by apply Htodo, list_elem_of_here.
    assert (forall n, n ∈ todo -> edge node n) as Htodo'
      by (intros; apply Htodo; by apply list_elem_of_further).
    destruct (decide (n ∈ visited st)) as [Hv|Hv].
    + destruct (decide (n ∈ rec_stack st)) as [Hr|Hr]; [|by apply IH].
      exfalso. apply (Hacyclic n).
      eapply tc_rtc_l; [by apply Hstack | by apply tc_once].
    + destruct (Hcall n st Hedge) as [->|(st' & -> & Hc & Hs)].
      * intros x Hx. eapply rtc_r; [by apply Hstack | done].
      * by left.
      * destruct (IH st' Htodo') as [->|(st'' & -> & Hc' & Hs')].
        -- intros x Hx. apply Hstack. set_solver.
        -- by left.
        -- right. exists st''. split; [done|]. split; [congruence | set_solver].
Qed.

Lemma dfs_quiet fuel node path st :
  acyclic adjacency ->
  (forall x, x ∈ rec_stack st -> rtc edge x node) ->
  quiet st (dfs adjacency fuel node path st).
Proof.
  intros Hacyclic. revert node path st.
  induction fuel as [|fuel IH]; intros node path st Hstack; [by left|].
  cbn [dfs].
  destruct (dfs_neighbors_quiet (dfs adjacency fuel) node (path ++ [node])
              (neighbors adjacency node) (enter node st) Hacyclic)
    as [->|(st' & -> & Hc & Hs)].
  - intros n st' _ Hst'. by apply IH.
  - done.
  - simpl. intros x [Hx| ->%elem_of_singleton]%elem_of_union; [by apply Hstack | done].
  - by left.
  - right. exists (leave node st'). split; [done|]. simpl in *. split; [done | set_solver].
Qed.

Lemma dfs_roots_quiet fuel roots st :
  acyclic adjacency -> rec_stack st = ∅ ->
  dfs_roots adjacency fuel roots st = OutOfFuel \/
  exists st', dfs_roots adjacency fuel roots st = Ok tt st' /\ cycles st' = cycles st.
Proof.
  intros Hacyclic. revert st. induction roots as [|k roots IH]; intros st Hempty.
  - right. by exists st.
  - cbn [dfs_roots]. destruct (decide (k ∈ visited st)); [by apply IH|].
    destruct (dfs_quiet fuel k [] st Hacyclic) as [->|(st' & -> & Hc & Hs)].
    + rewrite Hempty. set_solver.
    + by left.
    + destruct (IH st') as [->|(st'' & -> & Hc')]; [set_solver | by left |].
      right. exists st''. split; [done | congruence].
Qed.

(** On an acyclic adjacency [detect] ends normally and appends nothing. *)
Lemma detect_acyclic found :
  acyclic adjacency ->
  exists st, detect adjacency found = Ok tt st /\ cycles st = found.
Proof.
  intros Hacyclic. pose proof (detect_ended found) as Hended. unfold detect in *.
  destruct (dfs_roots_quiet (enough_fuel adjacency) (PyDict.keys adjacency)
              {| visited := ∅; rec_stack := ∅; cycles := found |} Hacyclic eq_refl)
    as [Hout|(st' & Hok & Hc)]; [done|].
  by exists st'.
Qed.


(** *** Every cycle reported is a slice of the path *)

Lemma is_walk_snoc l x y :
  is_walk adjacency l -> last l = Some x -> edge x y -> is_walk adjacency (l ++ [y]).
Proof.
  intros Hwalk Hlast Hedge i u v Hu Hv.
  rewrite last_lookup in Hlast.
  destruct (decide (S i < length l)%nat) as [Hlt|Hge].
  - rewrite lookup_app_l in Hu by lia. rewrite lookup_app_l in Hv by lia.
    by apply (Hwalk i).
  - assert (S i = length l) as Hi.
    { apply lookup_lt_Some in Hv. rewrite length_app in Hv. simpl in Hv. lia. }
    rewrite lookup_app_l in Hu by lia.
    rewrite lookup_app_r in Hv by lia.
    replace (S i - length l)%nat with 0%nat in Hv by lia. simpl in Hv.
    replace (pred (length l)) with i in Hlast by lia.
    congruence.
Qed.

Lemma is_walk_drop l i : is_walk adjacency l -> is_walk adjacency (drop i l).
Proof.
  intros Hwalk j u v. rewrite !lookup_drop.
  replace (i + S j)%nat with (S (i + j)) by lia. apply Hwalk.
Qed.

Lemma path_slice_is_cycle c : path_slice adjacency c -> is_cycle adjacency c.
Proof.
  intros (path & n & i & Hwalk & Hidx & (node & Hlast & Hedge) & ->).
  apply index_of_Some in Hidx as [Hi _].
  pose proof (lookup_lt_Some _ _ _ Hi) as Hlt.
  split; [|split].
  - apply (is_walk_snoc _ node); [by apply is_walk_drop | | done].
    rewrite last_lookup in *. rewrite lookup_drop, length_drop.
    replace (i + pred (length path - i))%nat with (pred (length path)) by lia. done.
  - rewrite length_app, length_drop. simpl. lia.
  - rewrite last_snoc. destruct (drop i path) as [|x l] eqn:Hd.
    + apply (f_equal length) in Hd. rewrite length_drop in Hd. simpl in Hd. lia.
    + simpl. f_equal. apply (f_equal (fun l => l !! 0%nat)) in Hd.
      rewrite lookup_drop, Nat.add_0_r in Hd. simpl in Hd. congruence.
Qed.

Lemma reported_refl st : reported adjacency st st.
Proof. exists []. by rewrite app_nil_r. Qed.

Lemma reported_trans st1 st2 st3 :
  reported adjacency st1 st2 -> reported adjacency st2 st3 -> reported adjacency st1 st3.
Proof.
  intros (new1 & H1 & F1) (new2 & H2 & F2). exists (new1 ++ new2).
  split; [by rewrite H2, H1, app_assoc | by apply Forall_app].
Qed.

Lemma dfs_neighbors_sound call node path todo st :
  is_walk adjacency path -> last path = Some node ->
  (forall n st, edge node n -> sound adjacency st (call n path st)) ->
  (forall n, n ∈ todo -> edge node n) ->
  sound adjacency st (dfs_neighbors call path todo st).
Proof.
  intros Hwalk Hlast Hcall. revert st.
  induction todo as [|n todo IH]; intros st Htodo.
  - simpl. apply reported_refl.
  - cbn [dfs_neighbors].
    assert (edge node n) as Hedge by apply Htodo, list_elem_of_here.
    assert (forall n, n ∈ todo -> edge node n) as Htodo'
      by (intros; apply Htodo; by apply list_elem_of_further).
    destruct (decide (n ∈ visited st)) as [Hv|Hv].
    + destruct (decide (n ∈ rec_stack st)) as [Hr|Hr]; [|by apply IH].
      destruct (index_of n path) as [i|] eqn:Hidx; simpl; [|apply reported_refl].
      exists [drop i path ++ [n]]. split; [done|].
      apply Forall_singleton. exists path, n, i. eauto 10.
    + pose proof (Hcall n st Hedge) as Hn.
      destruct (call n path st) as [[] st'|e st'|]; simpl in *; try done.
      pose proof (IH st' Htodo') as Hrest.
      destruct (dfs_neighbors call path todo st') as [? st''|? st''|]; simpl in *;
        [by eapply reported_trans | by eapply reported_trans | done].
Qed.

Lemma dfs_sound fuel node path st :
  is_walk adjacency (path ++ [node]) ->
  sound adjacency st (dfs adjacency fuel node path st).
Proof.
  revert node path st. induction fuel as [|fuel IH]; intros node path st Hwalk; [done|].
  cbn [dfs].
  pose proof (dfs_neighbors_sound (dfs adjacency fuel) node (path ++ [node])
                (neighbors adjacency node) (enter node st) Hwalk (last_snoc _ _)) as Hloop.
  assert (sound adjacency (enter node st)
            (dfs_neighbors (dfs adjacency fuel) (path ++ [node])
               (neighbors adjacency node) (enter node st))) as Hs.
  { apply Hloop; [|done]. intros n st' Hedge. apply IH.
    by apply (is_walk_snoc _ node); [|apply last_snoc|]. }
  destruct (dfs_neighbors _ _ _ _) as [[] st'|e st'|]; simpl in *; done.
Qed.

Lemma dfs_roots_sound fuel roots st :
  sound adjacency st (dfs_roots adjacency fuel roots st).
Proof.
  revert st. induction roots as [|k roots IH]; intros st.
  - simpl. apply reported_refl.
  - cbn [dfs_roots]. destruct (decide (k ∈ visited st)); [by apply IH|].
    pose proof (dfs_sound fuel k [] st) as Hk.
    assert (is_walk adjacency ([] ++ [k])) as Hwalk by (intros [|i] u v; done).
    specialize (Hk Hwalk).
    destruct (dfs adjacency fuel k [] st) as [? st'|e st'|]; simpl in *; try done.
    pose proof (IH st') as Hrest.
    destruct (dfs_roots adjacency fuel roots st') as [? st''|? st''|]; simpl in *;
      [by eapply reported_trans | by eapply reported_trans | done].
Qed.

(** Whatever [detect] appends is a slice of a path of the graph, hence a
    cycle of it. *)
Lemma detect_sound found :
  match detect adjacency found with
  | Ok _ st | Raise _ st =>
      exists new, cycles st = found ++ new /\ Forall (path_slice adjacency) new
  | OutOfFuel => False
  end.
Proof.
  pose proof (detect_ended found) as Hended. unfold detect in *.
  pose proof (dfs_roots_sound (enough_fuel adjacency) (PyDict.keys adjacency)
                {| visited := ∅; rec_stack := ∅; cycles := found |}) as Hs.
  destruct (dfs_roots _ _ _ _) as [? st|e st|]; done.
Qed.

End Detector.
End CycleFacts.

(* ===================================================================== *)
(** * [build_graph] as a whole *)
(* ===================================================================== *)

Module BuilderFacts.
Import DependencyGraph GraphSpec CycleSpec.

Lemma get_adjacency_of u (dd : pydict (gset string)) :
  PyDict.get u (adjacency_of dd) = elements <$> PyDict.get u dd.
Proof.
  induction dd as [|[k s] dd IH]; simpl; [done|].
  destruct (decide (u = k)); [done | exact IH].
Qed.

Lemma neighbors_adjacency_of u (dd : pydict (gset string)) :
  neighbors (adjacency_of dd) u = elements (dd_get u dd).
Proof.
  unfold neighbors, dd_get. rewrite get_adjacency_of.
  destruct (PyDict.get u dd); simpl; [done|]. by rewrite elements_empty.
Qed.

Lemma edge_adjacency_of b u v :
  edge (adjacency_of (graph b)) u v <-> imports_from b u v.
Proof. unfold edge, imports_from. rewrite neighbors_adjacency_of. apply elem_of_elements. Qed.

Lemma acyclic_adjacency_of b :
  (forall n, ~ tc (imports_from b) n n) -> acyclic (adjacency_of (graph b)).
Proof.
  intros Hacyclic n Hn. apply (Hacyclic n).
  apply (tc_congruence id (imports_from b) n n) in Hn; [done|].
  intros u v. apply edge_adjacency_of.
Qed.

Lemma _detect_circular_dependencies_ended b :
  _detect_circular_dependencies b <> OutOfFuel.
Proof.
  unfold _detect_circular_dependencies.
  pose proof (CycleFacts.detect_ended (adjacency_of (graph b)) (circular_deps b)).
  by destruct (detect _ _).
Qed.

Lemma _detect_circular_dependencies_acyclic b :
  (forall n, ~ tc (imports_from b) n n) ->
  _detect_circular_dependencies b = Ok tt (with_circular_deps b (circular_deps b)).
Proof.
  intros Hacyclic. unfold _detect_circular_dependencies.
  destruct (CycleFacts.detect_acyclic (adjacency_of (graph b)) (circular_deps b)
              (acyclic_adjacency_of b Hacyclic)) as (st & -> & ->).
  done.
Qed.

Lemma _detect_circular_dependencies_sound b :
  match _detect_circular_dependencies b with
  | Ok _ b' | Raise _ b' =>
      exists new, b' = with_circular_deps b (circular_deps b ++ new)
                  /\ Forall (path_slice (adjacency_of (graph b))) new
  | OutOfFuel => False
  end.
Proof.
  unfold _detect_circular_dependencies.
  pose proof (CycleFacts.detect_sound (adjacency_of (graph b)) (circular_deps b)) as Hs.
  destruct (detect _ _) as [? st|e st|]; [| |done];
    destruct Hs as (new & -> & Hnew); by exists new.
Qed.

Section WithRuntime.
Context `{PyRuntime}.

(** [build_graph] always comes back: with a result or with an exception. *)
Lemma build_graph_ended upload_dir upload_id b :
  build_graph upload_dir upload_id b <> OutOfFuel.
Proof.
  unfold build_graph.
  pose proof (_detect_circular_dependencies_ended
                (_build_relationships (scan_imports (PyPath.glob_py upload_dir) b))).
  by destruct (_detect_circular_dependencies _).
Qed.

End WithRuntime.
End BuilderFacts.

Module ReachFacts.
Import DependencyGraph GraphSpec BuilderSpec.

Lemma fs_entry_nested_ind (P : fs_entry -> Prop) :
  (forall f, P (File f)) ->
  (forall es, Forall (fun ne => P (snd ne)) es -> P (Dir es)) ->
  forall e, P e.
Proof.
  intros HF HD. fix IH 1. intros [f|es]; [apply HF|].
  apply HD. induction es as [|[n x] es IHes]; constructor; [apply IH | apply IHes].
Qed.

Lemma child_nonempty parent name :
  name <> EmptyString -> PyPath.child parent name <> EmptyString.
Proof. intros Hname. destruct parent; [exact Hname | done]. Qed.

Lemma glob_py_from_nonempty path e p x :
  (p, x) ∈ PyPath.glob_py_from path e -> p <> EmptyString.
Proof.
  revert path. induction e as [f|es IH] using fs_entry_nested_ind; intros path.
  - simpl. intros Hin. by apply elem_of_nil in Hin.
  - cbn [PyPath.glob_py_from]. rewrite elem_of_app. intros [Hin|Hin].
    + apply list_elem_of_In, in_map_iff in Hin as ([n y] & [= <- _] & Hn).
      apply filter_In in Hn as [_ Hm]. cbn [fst] in *.
      apply child_nonempty. intros ->. by vm_compute in Hm.
    + induction es as [|[n y] es IHes]; [by apply elem_of_nil in Hin|].
      apply elem_of_app in Hin as [Hin|Hin].
      * apply Forall_inv in IH. by apply (IH (PyPath.child path n)).
      * apply IHes; [by apply Forall_inv_tail in IH | done].
Qed.

Lemma glob_py_nonempty upload_dir p x :
  (p, x) ∈ PyPath.glob_py upload_dir -> p <> EmptyString.
Proof. apply glob_py_from_nonempty. Qed.

Lemma module_mapping_value b key f :
  _build_module_mapping b !! key = Some f -> f ∈ PyDict.keys (files_data b).
Proof.
  unfold _build_module_mapping. rewrite ResolverFacts.build_mapping_registered.
  apply ResolverFacts.registered_elem_of.
Qed.

Lemma relate_recorded module_map file_path b import_name :
  (forall key f, module_map !! key = Some f -> f ∈ PyDict.keys (files_data b)) ->
  file_path ∈ PyDict.keys (files_data b) ->
  recorded_in_files b ->
  recorded_in_files (relate module_map file_path b import_name).
Proof.
  intros Hmap Hfile Hrec k.
  destruct (GraphFacts.relate_cases module_map file_path b import_name)
    as (-> & _ & [(target & Hres & _ & -> & -> & _) | (_ & -> & -> & _)]); [|apply Hrec].
  apply ResolverFacts._resolve_import_value in Hres as [key Hkey].
  rewrite !GraphFacts.keys_dd_add. intros [[->|Hk]|[->|Hk]]; eauto.
Qed.

Lemma relate_file_recorded module_map b item :
  (forall key f, module_map !! key = Some f -> f ∈ PyDict.keys (files_data b)) ->
  fst item ∈ PyDict.keys (files_data b) ->
  recorded_in_files b ->
  recorded_in_files (relate_file module_map b item).
Proof.
  intros Hmap Hfile Hrec. unfold relate_file.
  apply (GraphFacts.foldl_invariant
           (fun b' => files_data b' = files_data b /\ recorded_in_files b')); [done|].
  intros a t _ [Hfd Ha]. split.
  - rewrite <- Hfd. apply GraphFacts.relate_cases.
  - apply relate_recorded; rewrite ?Hfd; done.
Qed.

Lemma _build_relationships_recorded b :
  recorded_in_files b -> recorded_in_files (_build_relationships b).
Proof.
  intros Hrec. unfold _build_relationships.
  apply (GraphFacts.foldl_invariant
           (fun b' => files_data b' = files_data b /\ recorded_in_files b')); [done|].
  intros a item Hitem [Hfd Ha]. split.
  - by rewrite GraphFacts.relate_file_files_data.
  - apply relate_file_recorded; rewrite ?Hfd; [| |done].
    + apply module_mapping_value.
    + unfold PyDict.keys, PyDict.items in *. by apply list_elem_of_fmap_2.
Qed.

Lemma with_circular_deps_recorded b found :
  recorded_in_files b -> recorded_in_files (with_circular_deps b found).
Proof. done. Qed.

Section WithRuntime.
Context `{PyRuntime}.

Lemma scan_imports_keys python_files b k :
  k ∈ PyDict.keys (files_data (scan_imports python_files b))
  <-> k ∈ PyDict.keys (files_data b) \/ k ∈ python_files.*1.
Proof.
  unfold scan_imports. revert b.
  induction python_files as [|[p x] l IH]; intros b.
  - simpl. rewrite elem_of_nil. tauto.
  - cbn [foldl]. rewrite IH. rewrite fmap_cons, elem_of_cons. cbn [files_data with_files_data fst snd].
    rewrite PyDictFacts.elem_of_keys_set. tauto.
Qed.

Lemma scan_imports_recorded python_files b :
  recorded_in_files b -> recorded_in_files (scan_imports python_files b).
Proof.
  intros Hrec k.
  destruct (GraphFacts.scan_imports_graphs python_files b) as (-> & -> & _).
  intros Hk. apply scan_imports_keys. left. by apply Hrec.
Qed.

Lemma scan_imports_nonempty upload_dir b :
  paths_nonempty b -> paths_nonempty (scan_imports (PyPath.glob_py upload_dir) b).
Proof.
  intros Hne k [Hk|Hk]%scan_imports_keys; [by apply Hne|].
  apply list_elem_of_fmap in Hk as ([p x] & -> & Hin). by apply glob_py_nonempty in Hin.
Qed.

(** The two invariants hold between the steps of [build_graph] and in the
    state it leaves, with a result or with an exception. *)
Lemma build_graph_invariants upload_dir upload_id b :
  recorded_in_files b -> paths_nonempty b ->
  recorded_in_files (state_after (build_graph upload_dir upload_id b) b)
  /\ paths_nonempty (state_after (build_graph upload_dir upload_id b) b).
Proof.
  intros Hrec Hne.
  pose proof (GraphFacts.build_graph_state upload_dir upload_id b) as Hst. simpl in Hst.
  assert (recorded_in_files
            (_build_relationships (scan_imports (PyPath.glob_py upload_dir) b))) as Hrec'
    by by apply _build_relationships_recorded, scan_imports_recorded.
  assert (paths_nonempty
            (_build_relationships (scan_imports (PyPath.glob_py upload_dir) b))) as Hne'.
  { unfold paths_nonempty. rewrite GraphFacts._build_relationships_files_data.
    by apply scan_imports_nonempty. }
  destruct (build_graph upload_dir upload_id b) as [data b'|e b'|]; simpl; [| |done].
  - destruct Hst as [[found ->] _]. done.
  - destruct Hst as [found ->]. done.
Qed.

Lemma reachable_state_after upload_dir upload_id b :
  reachable b -> reachable (state_after (build_graph upload_dir upload_id b) b).
Proof.
  intros Hb. destruct (build_graph upload_dir upload_id b) as [data b'|e b'|] eqn:Hrun;
    simpl; [by eapply reach_ok | by eapply reach_raise | done].
Qed.

Lemma reachable_invariants b :
  reachable b -> recorded_in_files b /\ paths_nonempty b.
Proof.
  induction 1 as [|tree id b data b' _ [IH1 IH2] Hrun|tree id b e b' _ [IH1 IH2] Hrun].
  - split; intros k; simpl; [intros [Hk|Hk] | intros Hk]; by apply elem_of_nil in Hk.
  - pose proof (build_graph_invariants tree id b IH1 IH2) as Hinv.
    by rewrite Hrun in Hinv.
  - pose proof (build_graph_invariants tree id b IH1 IH2) as Hinv.
    by rewrite Hrun in Hinv.
Qed.

End WithRuntime.
End ReachFacts.

Module ExampleFacts.
Import DependencyGraph GraphSpec CycleSpec BuilderSpec.

(** The state of a fresh builder after the first loop of [build_graph]. *)
Lemma scan_imports_fresh `{PyRuntime} python_files :
  scan_imports python_files new_builder
  = {| files_data := files_data (scan_imports python_files new_builder);
       graph := []; reverse_graph := []; circular_deps := []; missing_imports := [] |}.
Proof.
  destruct (GraphFacts.scan_imports_graphs python_files new_builder) as (Hg & Hr & Hc & Hm).
  destruct (scan_imports python_files new_builder); simpl in *. by subst.
Qed.

(** The rest of [build_graph] on the three-file cycle, for every order in
    which the files can have been scanned. *)
Lemma cycle_found (tokens : pydict (list string)) :
  tokens ≡ₚ Example.cycle_tokens ->
  let b := {| files_data := tokens; graph := []; reverse_graph := [];
              circular_deps := []; missing_imports := [] |} in
  exists b' cycle,
    _detect_circular_dependencies (_build_relationships b) = Ok tt b'
    /\ circular_deps b' = [cycle]
    /\ list_to_set cycle = ({[ "a.py"; "b.py"; "c.py" ]} : gset string).
Proof.
  intros Hperm. symmetry in Hperm. apply permutations_Permutation in Hperm.
  vm_compute permutations in Hperm.
  repeat (apply elem_of_cons in Hperm as [->|Hperm]);
    [..|by apply elem_of_nil in Hperm];
    (eexists _, _; split; [vm_compute; reflexivity|]; split; [reflexivity|];
     by vm_compute).
Qed.

(** The forward adjacency of the chain has no cycle. *)
Lemma chain_acyclic n : ~ tc (imports_from Example.chain_related) n n.
Proof.
  pose (rank := fun f : string =>
                  if decide (f = "a.py") then 2%nat
                  else if decide (f = "b.py") then 1%nat else 0%nat).
  assert (forall u v, imports_from Example.chain_related u v -> (rank v < rank u)%nat)
    as Hstep.
  { intros u v. unfold imports_from, dd_get.
    replace (graph Example.chain_related)
      with [("a.py", ({[ "b.py" ]} : gset string)); ("b.py", {[ "c.py" ]})]
      by by vm_compute.
    simpl. unfold rank.
    destruct (decide (u = "a.py")) as [->|?]; simpl.
    - intros ->%elem_of_singleton. by vm_compute.
    - destruct (decide (u = "b.py")) as [->|?]; simpl.
      + intros ->%elem_of_singleton. by vm_compute.
      + intros Hv. by apply elem_of_empty in Hv. }
  assert (forall u v, tc (imports_from Example.chain_related) u v -> (rank v < rank u)%nat)
    as Hpath.
  { induction 1 as [u v Huv|u w v Huw _ IH]; [by apply Hstep|].
    apply Hstep in Huw. lia. }
  intros Hn%Hpath. lia.
Qed.

Lemma with_circular_deps_same b : with_circular_deps b (circular_deps b) = b.
Proof. by destruct b. Qed.

(** The recursion stack is not unwound when a cycle is reported: a later
    root that imports a file left on it makes [path.index] raise, and
    [build_graph] ends with that exception after the first cycle. *)
Lemma tangled_raises :
  exists b',
    build_graph (H := Example.runtime) Example.tangled_tree "tangled" new_builder
      = Raise ValueError b'
    /\ circular_deps b' = [["a.py"; "b.py"; "a.py"]].
Proof. eexists. split; [vm_compute; reflexivity | reflexivity]. Qed.

(** The dotted name is made by textual replacement: every [.py] goes, not
    only the extension. *)
Lemma module_name_of_replaces_all :
  module_name_of "app/pytools/x.py" = "apptools.x".
Proof. reflexivity. Qed.

End ExampleFacts.

(* ===================================================================== *)
(** * Floats *)
(* ===================================================================== *)

Module FloatFacts.
Import PyFloat.
Local Open Scope Q_scope.

(** [round_half_even] is within one half of its argument. *)
Lemma round_half_even_near (q : Q) :
  Qabs (inject_Z (round_half_even q) - q) <= 1 # 2.
Proof.
  destruct q as [a b]. unfold round_half_even. cbn [Qnum Qden].
  pose proof (Z.div_mod a (Z.pos b) ltac:(lia)) as Hdm.
  pose proof (Z.mod_pos_bound a (Z.pos b) ltac:(lia)) as Hr.
  set (f := (a / Z.pos b)%Z) in *. set (r := (a mod Z.pos b)%Z) in *.
  assert (forall m : Z, (2 * Z.abs (m * Z.pos b - a) <= Z.pos b)%Z ->
                        Qabs (inject_Z m - (a # b)) <= 1 # 2) as Hconv.
  { intros m Hm. apply Qabs_Qle_condition.
    unfold Qle, Qminus, Qplus, Qopp, inject_Z. cbn. split; lia. }
  clearbody f r.
  assert (f * Z.pos b - a = - r)%Z as Hdown by (rewrite Hdm at 1; ring).
  assert ((f + 1) * Z.pos b - a = Z.pos b - r)%Z as Hup by (rewrite Hdm at 1; ring).
  destruct (2 * r ?= Z.pos b)%Z eqn:Hcmp.
  - apply Z.compare_eq in Hcmp.
    destruct (Z.even f).
    + apply Hconv. rewrite Hdown. clear -Hr Hcmp. lia.
    + apply Hconv. rewrite Hup. clear -Hr Hcmp. lia.
  - rewrite Z.compare_lt_iff in Hcmp. apply Hconv. rewrite Hdown. clear -Hr Hcmp. lia.
  - rewrite Z.compare_gt_iff in Hcmp. apply Hconv. rewrite Hup. clear -Hr Hcmp. lia.
Qed.

Lemma round_binary64_proper (p q : Q) : p == q -> round_binary64 p = round_binary64 q.
Proof. intros Heq. unfold round_binary64. by rewrite (Qred_complete p q Heq). Qed.


Lemma pow2_nonneg_inv (e : Z) :
  (0 <= e)%Z -> pow2 e * pow2 (- e) == 1 /\ 0 < pow2 (- e) /\ pow2 (- e) <= 1 # Z.to_pos (2 ^ e).
Proof.
  intros He. unfold pow2.
  assert (0 < 2 ^ e)%Z as Hpos by (apply Z.pow_pos_nonneg; lia).
  rewrite (proj2 (Z.leb_le 0 e)) by done.
  destruct (decide (e = 0%Z)) as [->|Hne].
  - cbn. split; [reflexivity|]. split; [reflexivity|]. apply Qle_refl.
  - rewrite (proj2 (Z.leb_gt 0 (- e))) by lia. rewrite Z.opp_involutive.
    split; [|split].
    + unfold Qeq, Qmult, inject_Z. cbn [Qnum Qden]. rewrite Pos.mul_1_l, Z2Pos.id by done. lia.
    + reflexivity.
    + apply Qle_refl.
Qed.


Lemma pow2_sub (x y : Z) :
  (0 <= x)%Z -> (0 <= y)%Z -> pow2 (x - y) == 2 ^ x # Z.to_pos (2 ^ y).
Proof.
  intros Hx Hy. unfold pow2.
  assert (0 < 2 ^ y)%Z as Hpos by (apply Z.pow_pos_nonneg; lia).
  destruct (Z.leb_spec 0 (x - y)) as [Hge|Hlt].
  - unfold Qeq, inject_Z. cbn [Qnum Qden]. rewrite Z2Pos.id by done.
    rewrite Z.mul_1_r, <- Z.pow_add_r by lia. f_equal. lia.
  - assert (0 < 2 ^ (- (x - y)))%Z as Hpos' by (apply Z.pow_pos_nonneg; lia).
    unfold Qeq. cbn [Qnum Qden]. rewrite !Z2Pos.id by done.
    rewrite Z.mul_1_l, <- Z.pow_add_r by lia. f_equal. lia.
Qed.

(** [floor_log2] is the binary exponent of a positive rational. *)
Lemma floor_log2_spec (q : Q) :
  0 < q -> pow2 (floor_log2 q) <= q /\ q < pow2 (floor_log2 q + 1).
Proof.
  intros Hpos. destruct q as [a b]. unfold floor_log2. cbn [Qnum Qden].
  assert (0 < a)%Z as Ha by (unfold Qlt in Hpos; simpl in Hpos; lia).
  pose proof (Z.log2_spec a Ha) as Hla. pose proof (Z.log2_spec (Z.pos b) ltac:(lia)) as Hlb.
  pose proof (Z.log2_nonneg a) as Hla0. pose proof (Z.log2_nonneg (Z.pos b)) as Hlb0.
  set (la := Z.log2 a) in *. set (lb := Z.log2 (Z.pos b)) in *. clearbody la lb.
  rewrite !Z.pow_succ_r in Hla, Hlb by done.
  assert (0 < 2 ^ la)%Z as HA by (apply Z.pow_pos_nonneg; lia).
  assert (0 < 2 ^ lb)%Z as HB by (apply Z.pow_pos_nonneg; lia).
  destruct (Qle_bool (pow2 (la - lb)) (a # b)) eqn:Hcmp.
  - split; [by apply Qle_bool_iff|].
    replace (la - lb + 1)%Z with (Z.succ la - lb)%Z by lia.
    rewrite pow2_sub by lia. rewrite Z.pow_succ_r by done.
    unfold Qlt. cbn [Qnum Qden]. rewrite Z2Pos.id by done. nia.
  - split.
    + replace (la - lb - 1)%Z with (la - Z.succ lb)%Z by lia.
      rewrite pow2_sub by lia. rewrite Z.pow_succ_r by done.
      unfold Qle. cbn [Qnum Qden]. rewrite Z2Pos.id by lia. nia.
    + replace (la - lb - 1 + 1)%Z with (la - lb)%Z by lia.
      apply Qnot_le_lt. intros Hle. apply Qle_bool_iff in Hle. congruence.
Qed.

(** The binary64 value nearest to a rational of (0, 1] is within [2^-53]
    of it. *)
Lemma round_binary64_near (q : Q) :
  0 < q -> q <= 1 -> Qabs (round_binary64 q - q) <= 1 # 2 ^ 53.
Proof.
  intros Hpos Hle. unfold round_binary64.
  pose proof (Qred_correct q) as Hred. set (q' := Qred q) in *. clearbody q'.
  assert (0 < Qnum q')%Z as Hnum.
  { rewrite <- Hred in Hpos. unfold Qlt in Hpos. simpl in Hpos. lia. }
  rewrite (proj2 (Z.leb_gt (Qnum q') 0)) by done.
  assert (floor_log2 q' <= 0)%Z as Hlog.
  { unfold floor_log2.
    assert (Qnum q' <= Z.pos (Qden q'))%Z as Hfrac.
    { rewrite <- Hred in Hle. unfold Qle in Hle. simpl in Hle. lia. }
    pose proof (Z.log2_le_mono _ _ Hfrac).
    destruct (Qle_bool _ q'); lia. }
  set (e := (52 - floor_log2 q')%Z). assert (52 <= e)%Z as He by (unfold e; lia).
  clearbody e.
  destruct (pow2_nonneg_inv e ltac:(lia)) as (Hinv & Hspos & Hsle).
  pose proof (round_half_even_near (q' * pow2 e)) as Hm.
  set (M := inject_Z (round_half_even (q' * pow2 e))) in *. clearbody M.
  rewrite Qred_correct, <- Hred.
  assert (pow2 (- e) <= 1 # 2 ^ 52) as Hs.
  { eapply Qle_trans; [exact Hsle|]. unfold Qle. cbn [Qnum Qden].
    rewrite Z2Pos.id by (apply Z.pow_pos_nonneg; lia).
    pose proof (Z.pow_le_mono_r 2 52 e ltac:(lia) He). lia. }
  set (s := pow2 (- e)) in *. set (p := pow2 e) in *. clearbody s p.
  assert (M * s - q' == (M - q' * p) * s) as ->.
  { transitivity (M * s - q' * (p * s)); [rewrite Hinv; ring | ring]. }
  rewrite Qabs_Qmult, (Qabs_pos s) by lra.
  apply Qle_trans with ((1 # 2) * s).
  - apply Qmult_le_compat_r; [exact Hm | lra].
  - change (1 # 2 ^ 53) with (1 # 9007199254740992).
    change (1 # 2 ^ 52) with (1 # 4503599627370496) in Hs. lra.
Qed.

Lemma round_binary64_canonical (q : Q) : round_binary64 q == 0 -> round_binary64 q = 0.
Proof.
  unfold round_binary64. destruct (Qnum (Qred q) <=? 0)%Z; [done|].
  intros Hz. rewrite Qred_correct in Hz. by rewrite (Qred_complete _ _ Hz).
Qed.

Lemma truediv_nonneg (k n : Z) :
  (0 <= k)%Z -> truediv k n = {| negative := false; magnitude := round_binary64 (k # Z.to_pos n) |}.
Proof.
  intros Hk. unfold truediv, of_Q. cbn [Qnum]. f_equal.
  - apply Z.ltb_ge. done.
  - unfold Qabs. by rewrite Z.abs_eq.
Qed.

Lemma of_thousandths_nonneg (m : Z) :
  (0 <= m)%Z ->
  of_thousandths m = {| negative := false; magnitude := round_binary64 (m # 1000) |}.
Proof.
  intros Hm. unfold of_thousandths, of_Q. cbn [Qnum]. f_equal.
  - apply Z.ltb_ge. done.
  - unfold Qabs. by rewrite Z.abs_eq.
Qed.

(** [round(k / n, 3)] for two counts: the float of a nearest thousandth. *)
Lemma round_ratio (k n : Z) :
  (0 <= k <= n)%Z -> (0 < n < 2 ^ 42)%Z ->
  exists m : Z,
    round_ndigits (truediv k n) 3 = of_thousandths m
    /\ (0 <= m <= 1000)%Z
    /\ (2 * Z.abs (m * n - 1000 * k) <= n)%Z.
Proof.
  intros Hk Hn. rewrite truediv_nonneg by lia.
  set (q := k # Z.to_pos n).
  destruct (decide (k = 0%Z)) as [->|Hk0].
  { exists 0%Z. split; [by vm_compute|]. lia. }
  assert (0 < q) as Hqpos by (unfold Qlt, q; simpl; lia).
  assert (q <= 1) as Hqle.
  { unfold Qle, q. cbn [Qnum Qden]. rewrite Z2Pos.id by lia. lia. }
  pose proof (round_binary64_near q Hqpos Hqle) as Hnear.
  assert (forall m : Z,
             Qabs (inject_Z m - round_binary64 q * inject_Z 1000) <= 1 # 2 ->
             (0 <= m <= 1000)%Z /\ (2 * Z.abs (m * n - 1000 * k) <= n)%Z) as Hfinal.
  { intros m Hm.
    assert (Qabs (inject_Z m - inject_Z 1000 * q) <= (1 # 2) + 1000 * (1 # 2 ^ 53)) as Hsum.
    { apply Qabs_Qle_condition in Hm, Hnear. apply Qabs_Qle_condition.
      set (x := round_binary64 q) in *. clearbody x.
      set (mq := inject_Z m) in *. clearbody mq.
      change (inject_Z 1000) with (1000 # 1) in *.
      change (1 # 2 ^ 53) with (1 # 9007199254740992) in *. lra. }
    assert (2 * Z.abs (m * n - 1000 * k) <= n)%Z as Hgoal.
    { apply Qabs_Qle_condition in Hsum. destruct Hsum as [Hlo Hhi].
      unfold Qle, Qminus, Qplus, Qmult, Qopp, inject_Z, q in Hlo, Hhi.
      cbn [Qnum Qden] in Hlo, Hhi.
      rewrite ?Pos2Z.inj_mul, ?Z2Pos.id in Hlo, Hhi by lia.
      change (Z.pos (2 ^ 53)) with 9007199254740992%Z in Hlo, Hhi.
      change (2 ^ 42)%Z with 4398046511104%Z in Hn. lia. }
    split; [nia | done]. }
  unfold round_ndigits. cbn [magnitude negative].
  change (inject_Z (10 ^ Z.of_nat 3)) with (inject_Z 1000).
  destruct (Qeq_bool (round_binary64 q) 0) eqn:Hzero.
  - apply Qeq_bool_eq in Hzero.
    exists 0%Z. split.
    + rewrite (round_binary64_canonical q Hzero). by vm_compute.
    + apply Qabs_Qle_condition in Hnear. rewrite Hzero in Hnear.
      destruct Hnear as [Hlo _].
      unfold Qle, Qminus, Qplus, Qopp, q in Hlo. cbn [Qnum Qden] in Hlo.
      rewrite ?Pos2Z.inj_mul, ?Z2Pos.id in Hlo by lia.
      change (Z.pos (2 ^ 53)) with 9007199254740992%Z in Hlo.
      change (2 ^ 42)%Z with 4398046511104%Z in Hn. lia.
  - set (m := round_half_even (round_binary64 q * inject_Z 1000)).
    destruct (Hfinal m (round_half_even_near _)) as [Hm Hgoal].
    exists m. split; [|done]. rewrite of_thousandths_nonneg by lia. f_equal.
    apply round_binary64_proper. unfold Qdiv, Qeq, Qmult, Qinv, inject_Z. cbn. lia.
Qed.

Lemma truediv_same (n : Z) : (0 < n)%Z -> truediv n n = of_Z 1.
Proof.
  intros Hn. rewrite truediv_nonneg by lia.
  rewrite (round_binary64_proper (n # Z.to_pos n) 1); [by vm_compute|].
  unfold Qeq. cbn. rewrite Z2Pos.id by done. lia.
Qed.

End FloatFacts.

(* ===================================================================== *)
(** * The comparator *)
(* ===================================================================== *)

Module ComparatorFacts.
Import Models Comparator.

Lemma dom_by_path (fs : list FileMetadataStandard) :
  dom (by_path fs) = (list_to_set (relative_path <$> fs) : gset string).
Proof.
  unfold by_path.
  assert (forall acc : gmap string FileMetadataStandard,
             dom (foldl (fun acc f => <[ relative_path f := f ]> acc) acc fs)
             = dom acc ∪ (list_to_set (relative_path <$> fs) : gset string)) as Hgen.
  { induction fs as [|f fs IH]; intros acc; simpl.
    - set_solver.
    - rewrite IH, dom_insert_L. set_solver. }
  rewrite Hgen, dom_empty_L. set_solver.
Qed.

Lemma path_set_empty (m : CodebaseMetadata) : path_set m = ∅ <-> files m = [].
Proof.
  unfold path_set. destruct (files m) as [|f fs]; simpl; [done|].
  split; [|done]. intros Hempty. exfalso.
  assert (relative_path f ∈ (∅ : gset string)) as Hin by (rewrite <- Hempty; set_solver).
  by apply elem_of_empty in Hin.
Qed.

Lemma filter_none {A} (p : A -> bool) (l : list A) :
  (forall x, p x = false) -> List.filter p l = [].
Proof. intros Hp. induction l as [|x l IH]; simpl; [done|]. by rewrite Hp. Qed.

Lemma is_modified_same (f : FileMetadataStandard) : is_modified f f = false.
Proof.
  unfold is_modified. destruct (_ && _).
  - by rewrite bool_decide_eq_true_2.
  - by rewrite Z.eqb_refl.
Qed.

Lemma path_modified_same files path : path_modified files files path = false.
Proof. unfold path_modified. destruct (files !! path); [apply is_modified_same | done]. Qed.

(** [compare(s, s)]: no file is added, removed or modified. *)
Lemma _compare_file_structures_same (s : CodebaseMetadata) :
  fc_added (_compare_file_structures s s) = []
  /\ fc_removed (_compare_file_structures s s) = []
  /\ fc_modified (_compare_file_structures s s) = [].
Proof.
  unfold _compare_file_structures. cbn [fc_added fc_removed fc_modified].
  rewrite difference_diag_L, elements_empty.
  rewrite (filter_none _ _ (path_modified_same _)). done.
Qed.

Lemma _compare_metrics_same (s : CodebaseMetadata) :
  mc_size_change (_compare_metrics s s) = 0%Z
  /\ mc_lines_change (_compare_metrics s s) = 0%Z.
Proof. unfold _compare_metrics. simpl. lia. Qed.

Lemma _compare_dependencies_same (s : CodebaseMetadata) :
  _compare_dependencies s s
  = {| dc_added := []; dc_removed := []; dc_new_circular := [];
       dc_resolved_circular := [] |}.
Proof.
  unfold _compare_dependencies. destruct (dependencies s); [|done].
  by rewrite !difference_diag_L, !elements_empty.
Qed.

(** Without a file change, a size change above 1 KiB, a line change or a
    dependency change the summary is the sentinel. *)
Lemma _generate_summary_sentinel file_changes metric_changes dep_changes :
  fc_added file_changes = [] -> fc_removed file_changes = [] ->
  fc_modified file_changes = [] ->
  (Z.abs (mc_size_change metric_changes) <= 1024)%Z ->
  mc_lines_change metric_changes = 0%Z ->
  dc_added dep_changes = [] -> dc_new_circular dep_changes = [] ->
  dc_resolved_circular dep_changes = [] ->
  _generate_summary file_changes metric_changes dep_changes = NO_CHANGES.
Proof.
  intros Ha Hr Hm Hs Hl Hd Hn Hc. unfold _generate_summary.
  rewrite Ha, Hr, Hm, Hl, Hd, Hn, Hc.
  rewrite (proj2 (Z.ltb_ge 1024 _)) by done. done.
Qed.

Lemma _calculate_similarity_same (s : CodebaseMetadata) :
  _calculate_similarity s s = PyFloat.of_Z 1.
Proof.
  unfold _calculate_similarity.
  destruct (bool_decide (length (files s) = 0%nat)); simpl; [done|].
  rewrite union_idemp_L, intersection_idemp_L.
  destruct (bool_decide (size (path_set s) = 0%nat)) eqn:Hsize; [done|].
  apply bool_decide_eq_false in Hsize.
  rewrite FloatFacts.truediv_same by lia. by vm_compute.
Qed.

Lemma length_files_zero (m : CodebaseMetadata) :
  bool_decide (length (files m) = 0%nat) = bool_decide (path_set m = ∅).
Proof.
  apply bool_decide_ext. rewrite path_set_empty. apply length_zero_iff_nil.
Qed.

(** The score by the cases of the specification. *)
Lemma _calculate_similarity_cases (base candidate : CodebaseMetadata) :
  let A := path_set base in
  let B := path_set candidate in
  (A = ∅ -> B = ∅ -> _calculate_similarity base candidate = PyFloat.of_Z 1)
  /\ (A = ∅ -> B <> ∅ -> _calculate_similarity base candidate = PyFloat.of_Z 0)
  /\ (A <> ∅ -> B = ∅ -> _calculate_similarity base candidate = PyFloat.of_Z 0)
  /\ (A <> ∅ -> B <> ∅ ->
      _calculate_similarity base candidate
      = PyFloat.round_ndigits
          (PyFloat.truediv (Z.of_nat (size (A ∩ B))) (Z.of_nat (size (A ∪ B)))) 3
      /\ (0 < size (A ∪ B))%nat).
Proof.
  intros A B. unfold _calculate_similarity. rewrite !length_files_zero. fold A B.
  split; [|split; [|split]].
  - intros HA HB. rewrite (bool_decide_eq_true_2 _ HA), (bool_decide_eq_true_2 _ HB). done.
  - intros HA HB. rewrite (bool_decide_eq_true_2 _ HA), (bool_decide_eq_false_2 _ HB). done.
  - intros HA HB. rewrite (bool_decide_eq_false_2 _ HA), (bool_decide_eq_true_2 _ HB). done.
  - intros HA HB. rewrite (bool_decide_eq_false_2 _ HA), (bool_decide_eq_false_2 _ HB).
    simpl.
    assert (size (A ∪ B) <> 0%nat) as Hsize.
    { intros Hz. apply size_empty_inv in Hz. apply HA. apply leibniz_equiv. set_solver. }
    rewrite (bool_decide_eq_false_2 _ Hsize). split; [done | lia].
Qed.

End ComparatorFacts.

(* ===================================================================== *)
(** * The metadata builder *)
(* ===================================================================== *)

Module ScanFacts.
Import MetadataBuilder ScanSpec.

Lemma startswith_dot_contains imp :
  PyStr.startswith imp "." = true -> PyStr.contains_char "." imp = true.
Proof.
  unfold PyStr.startswith. destruct imp as [|c imp]; [done|].
  cbn [String.prefix PyStr.contains_char].
  destruct (Ascii.ascii_dec "."%char c) as [<-|Hne]; [|done].
  intros _. by rewrite decide_True.
Qed.

(** The first test of the loop is implied by the second. *)
Lemma is_package_token_no_dot imp :
  is_package_token imp = true <-> PyStr.contains_char "." imp = false.
Proof.
  unfold is_package_token. rewrite andb_true_iff, !negb_true_iff. split; [by intros [_ ?]|].
  intros Hno. split; [|done].
  destruct (PyStr.startswith imp ".") eqn:Hs; [|done].
  apply startswith_dot_contains in Hs. congruence.
Qed.

Lemma elem_of_track_external imports packages imp :
  imp ∈ track_external imports packages
  <-> imp ∈ packages \/ (imp ∈ imports /\ PyStr.contains_char "." imp = false).
Proof.
  unfold track_external. revert packages.
  induction imports as [|x imports IH]; intros packages; simpl.
  - rewrite elem_of_nil. tauto.
  - rewrite IH, elem_of_cons. destruct (is_package_token x) eqn:Hx.
    + apply is_package_token_no_dot in Hx. rewrite elem_of_union, elem_of_singleton.
      naive_solver.
    + assert (PyStr.contains_char "." x <> false) as Hdot
        by (intros Hno; apply is_package_token_no_dot in Hno; congruence).
      naive_solver.
Qed.

Section WithRuntime.
Context `{PyRuntime}.

Lemma record_file_packages parts folder_name filename f ext s :
  packages_of_files s ->
  packages_of_files (record_file parts folder_name filename f ext s).
Proof.
  intros Hs imp. unfold record_file. cbn [external_packages files_metadata].
  rewrite elem_of_track_external, (Hs imp). setoid_rewrite elem_of_app.
  setoid_rewrite list_elem_of_singleton. split.
  - intros [(fm & Hfm & Himp)|[Himp Hdot]]; [by eauto|].
    eexists. split; [right; reflexivity|]. done.
  - intros (fm & [Hfm| ->] & Himp & Hdot); [left; by eauto|]. right. done.
Qed.

Lemma scan_file_packages parts folder_name s nf :
  packages_of_files s -> packages_of_files (scan_file parts folder_name s nf).
Proof.
  intros Hs. unfold scan_file. destruct (bool_decide _); [|done].
  by apply record_file_packages.
Qed.

Lemma scan_visit_packages s v : packages_of_files s -> packages_of_files (scan_visit s v).
Proof.
  intros Hs. unfold scan_visit.
  apply (GraphFacts.foldl_invariant packages_of_files); [done|].
  intros a nf _. apply scan_file_packages.
Qed.

Lemma _scan_directory_packages upload_dir s :
  packages_of_files s -> packages_of_files (_scan_directory upload_dir s).
Proof.
  intros Hs. unfold _scan_directory.
  apply (GraphFacts.foldl_invariant packages_of_files); [done|].
  intros a v _. apply scan_visit_packages.
Qed.

Lemma reset_packages : packages_of_files reset.
Proof.
  intros imp. cbn. split; [by intros ?%elem_of_empty|].
  intros (fm & Hfm & _). by apply elem_of_nil in Hfm.
Qed.











End WithRuntime.
End ScanFacts.

Module SortedFacts.

Lemma elem_of_insert x y l : x ∈ PySorted.insert y l <-> x = y \/ x ∈ l.
Proof.
  induction l as [|z l IH]; simpl.
  - rewrite list_elem_of_singleton, elem_of_nil. tauto.
  - destruct (String.ltb z y); rewrite !elem_of_cons, ?IH; tauto.
Qed.

(** [sorted] keeps the elements. *)
Lemma elem_of_sorted x l : x ∈ PySorted.sorted l <-> x ∈ l.
Proof.
  unfold PySorted.sorted. induction l as [|y l IH]; simpl; [done|].
  by rewrite elem_of_insert, elem_of_cons, IH.
Qed.

End SortedFacts.

Module DataFacts.
Import DependencyGraph GraphSpec BuilderSpec DataSpec.

Lemma NoDup_keys_set {V} (d : pydict V) k v :
  NoDup (PyDict.keys d) -> NoDup (PyDict.keys (PyDict.set k v d)).
Proof.
  intros Hd. rewrite PyDictFacts.keys_set.
  destruct (decide (k ∈ PyDict.keys d)) as [Hin|Hin]; [done|].
  apply NoDup_app. split; [done|]. split; [|apply NoDup_singleton].
  intros x Hx Hx'. apply list_elem_of_singleton in Hx'. by subst.
Qed.

Lemma NoDup_keys_dd_add k x dd :
  NoDup (PyDict.keys dd) -> NoDup (PyDict.keys (dd_add k x dd)).
Proof. apply NoDup_keys_set. Qed.

Lemma relate_keys_unique module_map file_path b import_name :
  keys_unique b -> keys_unique (relate module_map file_path b import_name).
Proof.
  intros (Hf & Hg & Hr).
  destruct (GraphFacts.relate_cases module_map file_path b import_name)
    as (Hfd & _ & [(t & _ & _ & Hg' & Hr' & _)|(_ & Hg' & Hr' & _)]);
    unfold keys_unique; rewrite Hfd, Hg', Hr'; auto using NoDup_keys_dd_add.
Qed.

Lemma relate_file_keys_unique module_map b item :
  keys_unique b -> keys_unique (relate_file module_map b item).
Proof.
  intros Hb. unfold relate_file.
  apply (GraphFacts.foldl_invariant keys_unique); [done|].
  intros; by apply relate_keys_unique.
Qed.

Lemma _build_relationships_keys_unique b :
  keys_unique b -> keys_unique (_build_relationships b).
Proof.
  intros Hb. unfold _build_relationships.
  apply (GraphFacts.foldl_invariant keys_unique); [done|].
  intros; by apply relate_file_keys_unique.
Qed.

Lemma with_circular_deps_keys_unique b found :
  keys_unique b -> keys_unique (with_circular_deps b found).
Proof. done. Qed.

Section WithRuntime.
Context `{PyRuntime}.

Lemma scan_imports_keys_unique python_files b :
  keys_unique b -> keys_unique (scan_imports python_files b).
Proof.
  intros Hb. unfold scan_imports.
  apply (GraphFacts.foldl_invariant keys_unique); [done|].
  intros a pf _ (Hf & Hg & Hr). split; [|done]. by apply NoDup_keys_set.
Qed.

Lemma build_graph_keys_unique upload_dir upload_id b :
  keys_unique b -> keys_unique (state_after (build_graph upload_dir upload_id b) b).
Proof.
  intros Hb.
  pose proof (GraphFacts.build_graph_state upload_dir upload_id b) as Hs.
  assert (keys_unique (_build_relationships (scan_imports (PyPath.glob_py upload_dir) b)))
    as H1 by by apply _build_relationships_keys_unique, scan_imports_keys_unique.
  destruct (build_graph upload_dir upload_id b) as [data b'|e b'|]; simpl in *; [| |done].
  - destruct Hs as ((found & ->) & _). by apply with_circular_deps_keys_unique.
  - destruct Hs as (found & ->). by apply with_circular_deps_keys_unique.
Qed.

Lemma reachable_keys_unique b : reachable b -> keys_unique b.
Proof.
  induction 1 as [|tree id b data b' _ IH Hb|tree id b e b' _ IH Hb].
  - repeat split; apply NoDup_nil_2.
  - pose proof (build_graph_keys_unique tree id b IH) as Hk. by rewrite Hb in Hk.
  - pose proof (build_graph_keys_unique tree id b IH) as Hk. by rewrite Hb in Hk.
Qed.

End WithRuntime.

(** ** Items and lookups *)

Lemma get_Some_elem_of {V} (d : pydict V) k v :
  PyDict.get k d = Some v -> (k, v) ∈ d.
Proof.
  induction d as [|[k' v'] d IH]; simpl; [done|].
  destruct (decide (k = k')) as [->|Hne].
  - intros [= ->]. apply list_elem_of_here.
  - intros Hg. apply list_elem_of_further. auto.
Qed.

Lemma elem_of_get_Some {V} (d : pydict V) k v :
  NoDup (PyDict.keys d) -> (k, v) ∈ d -> PyDict.get k d = Some v.
Proof.
  unfold PyDict.keys. induction d as [|[k' v'] d IH]; csimpl; intros Hd Hin.
  - by apply elem_of_nil in Hin.
  - apply NoDup_cons in Hd as [Hk' Hd]. destruct (decide (k = k')) as [->|Hne].
    + apply elem_of_cons in Hin as [[= ->]|Hin]; [done|].
      exfalso. apply Hk'. apply list_elem_of_fmap. by exists (k', v).
    + apply elem_of_cons in Hin as [[= -> ->]|Hin]; [done|]. auto.
Qed.

Lemma elem_of_dd_get (dd : pydict (gset string)) k x :
  NoDup (PyDict.keys dd) ->
  x ∈ dd_get k dd <-> exists s, (k, s) ∈ dd /\ x ∈ s.
Proof.
  intros Hd. unfold dd_get. split.
  - destruct (PyDict.get k dd) as [s|] eqn:Hg; simpl; [|set_solver].
    intros Hx. exists s. split; [|done]. by apply get_Some_elem_of.
  - intros (s & Hin & Hx). by rewrite (elem_of_get_Some _ _ _ Hd Hin).
Qed.

(** ** The edge list *)

Lemma elem_of_edge_pairs (dd : pydict (gset string)) s t :
  (s, t) ∈ edge_pairs dd <-> exists targets, (s, targets) ∈ dd /\ t ∈ targets.
Proof.
  unfold edge_pairs. rewrite list_elem_of_In, in_flat_map. split.
  - intros ([k targets] & Hin & Hp). apply in_map_iff in Hp as (t' & [= <- <-] & Ht).
    exists targets. split; [by apply list_elem_of_In|].
    apply elem_of_elements. by apply list_elem_of_In.
  - intros (targets & Hin & Ht). exists (s, targets). split; [by apply list_elem_of_In|].
    apply in_map_iff. exists t. split; [done|].
    apply list_elem_of_In. by apply elem_of_elements.
Qed.

Lemma elem_of_edge_pairs_get (dd : pydict (gset string)) s t :
  NoDup (PyDict.keys dd) -> (s, t) ∈ edge_pairs dd <-> t ∈ dd_get s dd.
Proof. intros Hd. by rewrite elem_of_edge_pairs, elem_of_dd_get. Qed.

Lemma NoDup_edge_pairs (dd : pydict (gset string)) :
  NoDup (PyDict.keys dd) -> NoDup (edge_pairs dd).
Proof.
  unfold PyDict.keys, edge_pairs. induction dd as [|[k targets] dd IH]; csimpl; intros Hd.
  - apply NoDup_nil_2.
  - apply NoDup_cons in Hd as [Hk Hd]. apply NoDup_app. split; [|split; [|auto]].
    + assert (Inj eq eq (fun target : string => (k, target))) by (by intros ?? [=]).
      apply (NoDup_fmap_2 (fun target : string => (k, target))), NoDup_elements.
    + intros [s t] Hin Hin'.
      apply list_elem_of_In, in_map_iff in Hin as (t' & [= <- <-] & _).
      apply (elem_of_edge_pairs dd) in Hin' as (targets' & Hin' & _).
      apply Hk. apply list_elem_of_fmap. by exists (k, targets').
Qed.

Lemma length_edge_pairs (dd : pydict (gset string)) :
  len (edge_pairs dd) = total (set_len <$> dd.*2).
Proof.
  unfold len, edge_pairs, total. induction dd as [|[k targets] dd IH]; csimpl; [done|].
  rewrite length_app, length_map, Nat2Z.inj_add, IH. done.
Qed.

Lemma fmap_endpoints_make_edges (dd : pydict (gset string)) :
  endpoints <$> make_edges dd = edge_pairs dd.
Proof.
  unfold make_edges. generalize (edge_pairs dd) as l.
  intros l. rewrite fmap_imap. unfold endpoints, compose; simpl.
  induction l as [|[s t] l IH] using rev_ind; [done|].
  rewrite imap_app, IH. simpl. done.
Qed.

Lemma fmap_edge_id_make_edges (dd : pydict (gset string)) :
  edge_id <$> make_edges dd = Z.of_nat <$> seq 0 (length (make_edges dd)).
Proof.
  unfold make_edges. rewrite length_imap. generalize (edge_pairs dd) as l.
  intros l. rewrite fmap_imap. unfold compose; simpl.
  induction l as [|st l IH] using rev_ind; [done|].
  rewrite imap_app, IH, length_app, seq_app, fmap_app. simpl. by rewrite Nat.add_0_r.
Qed.

End DataFacts.

Module DetectorFacts.
Import DependencyGraph CycleSpec DetectorSpec.

Section Detector.
Variable adjacency : pydict (list string).
Local Abbreviation edge := (edge adjacency).

(** *** How many cycles a traversal appends *)

Lemma dfs_neighbors_tally call path todo st :
  (forall n s, tally s (call n path s)) ->
  tally st (dfs_neighbors call path todo st).
Proof.
  intros Hcall. revert st. induction todo as [|n todo IH]; intros st; [done|].
  cbn [dfs_neighbors].
  destruct (decide (n ∈ visited st)) as [Hv|Hv].
  - destruct (decide (n ∈ rec_stack st)) as [Hr|Hr]; [|apply IH].
    destruct (index_of n path); simpl; [by eexists | done].
  - pose proof (Hcall n st) as Hn.
    destruct (call n path st) as [[] s'|e s'|]; simpl in *; try done.
    pose proof (IH s') as Hrest.
    destruct (dfs_neighbors call path todo s') as [[] s''|e s''|]; simpl in *;
      try done; by rewrite <- Hn.
Qed.

Lemma dfs_tally fuel node path st : tally st (dfs adjacency fuel node path st).
Proof.
  revert node path st. induction fuel as [|fuel IH]; intros node path st; [done|].
  cbn [dfs].
  pose proof (dfs_neighbors_tally (dfs adjacency fuel) (path ++ [node])
                (neighbors adjacency node) (enter node st)
                (fun n s => IH n (path ++ [node]) s)) as Hn.
  by destruct (dfs_neighbors _ _ _ _) as [[] s'|e s'|].
Qed.

Lemma dfs_roots_bounded fuel roots st :
  bounded roots st (dfs_roots adjacency fuel roots st).
Proof.
  revert st. induction roots as [|k roots IH]; intros st.
  - simpl. exists []. by rewrite app_nil_r.
  - cbn [dfs_roots]. destruct (decide (k ∈ visited st)) as [Hv|Hv].
    + pose proof (IH st) as Hrest.
      destruct (dfs_roots adjacency fuel roots st) as [? s|e s|]; simpl in *; try done;
        destruct Hrest as (new & ? & ?); exists new; (split; [done | lia]).
    + pose proof (dfs_tally fuel k [] st) as Hk.
      destruct (dfs adjacency fuel k [] st) as [v s'|e s'|]; simpl in *; [| |done].
      * assert (exists new, cycles s' = cycles st ++ new /\ (length new <= 1)%nat)
          as (new1 & Hnew1 & Hlen1).
        { destruct v.
          - destruct Hk as (c & ->). exists [c]. split; [done | simpl; lia].
          - exists []. rewrite app_nil_r. split; [done | simpl; lia]. }
        pose proof (IH s') as Hrest.
        destruct (dfs_roots adjacency fuel roots s') as [? s''|e s''|]; simpl in *;
          try done; destruct Hrest as (new & -> & ?); exists (new1 ++ new);
          rewrite Hnew1, <- (assoc_L (++)), length_app; (split; [done | lia]).
      * exists []. rewrite app_nil_r. split; [done | simpl; lia].
Qed.

Lemma detect_bounded found :
  bounded (PyDict.keys adjacency)
    {| visited := ∅; rec_stack := ∅; cycles := found |} (detect adjacency found).
Proof. apply dfs_roots_bounded. Qed.

(** *** A traversal that found nothing has seen an acyclic graph *)

Lemma settled_enter node st :
  settled adjacency st -> node ∉ visited st ->
  settled adjacency (enter node st) /\ finished (enter node st) = finished st.
Proof.
  intros (Hsub & Hclosed & Hacyclic) Hnode.
  assert (finished (enter node st) = finished st) as Heq.
  { unfold finished. simpl. set_solver. }
  split; [|done]. split; [simpl; set_solver|]. rewrite Heq. done.
Qed.

Lemma finished_closed_rtc st u v :
  settled adjacency st -> u ∈ finished st -> rtc edge u v -> v ∈ finished st.
Proof.
  intros (_ & Hclosed & _) Hu Huv. induction Huv as [|x y z Hxy _ IH]; [done|].
  apply IH. by apply (Hclosed x).
Qed.

Lemma dfs_neighbors_returned_false call path todo st :
  (forall n s, settled adjacency s -> n ∉ visited s ->
               returned_false adjacency n s (call n path s)) ->
  settled adjacency st ->
  match dfs_neighbors call path todo st with
  | Ok false st' =>
      settled adjacency st' /\ rec_stack st' = rec_stack st
      /\ (forall n, n ∈ todo -> n ∈ finished st')
      /\ finished st ⊆ finished st' /\ visited st ⊆ visited st'
  | _ => True
  end.
Proof.
  intros Hcall. revert st. induction todo as [|n todo IH]; intros st Hst.
  - simpl. split; [done|]. split; [done|]. split; [|done].
    intros n Hn. by apply elem_of_nil in Hn.
  - cbn [dfs_neighbors].
    destruct (decide (n ∈ visited st)) as [Hv|Hv].
    + destruct (decide (n ∈ rec_stack st)) as [Hr|Hr].
      { by destruct (index_of n path). }
      pose proof (IH st Hst) as Hrest.
      destruct (dfs_neighbors call path todo st) as [[] s'|e s'|]; try done.
      destruct Hrest as (Hs' & Hrec & Htodo & Hfin & Hvis).
      split; [done|]. split; [done|]. split; [|done].
      intros m [->|Hm]%elem_of_cons; [|by apply Htodo].
      apply Hfin. unfold finished. set_solver.
    + pose proof (Hcall n st Hst Hv) as Hn.
      destruct (call n path st) as [[] s'|e s'|]; try done.
      destruct Hn as (Hs' & Hrec' & Hn & Hfin' & Hvis').
      pose proof (IH s' Hs') as Hrest.
      destruct (dfs_neighbors call path todo s') as [[] s''|e s''|]; try done.
      destruct Hrest as (Hs'' & Hrec'' & Htodo & Hfin'' & Hvis'').
      split; [done|]. split; [congruence|]. split; [|split; set_solver].
      intros m [->|Hm]%elem_of_cons; [by apply Hfin'' | by apply Htodo].
Qed.

Lemma dfs_returned_false fuel node path st :
  settled adjacency st -> node ∉ visited st ->
  returned_false adjacency node st (dfs adjacency fuel node path st).
Proof.
  revert node path st. induction fuel as [|fuel IH]; intros node path st Hst Hnode; [done|].
  cbn [dfs].
  destruct (settled_enter node st Hst Hnode) as (Henter & Hfin).
  pose proof (dfs_neighbors_returned_false (dfs adjacency fuel) (path ++ [node])
                (neighbors adjacency node) (enter node st)
                (fun n s => IH n (path ++ [node]) s) Henter) as Hloop.
  destruct (dfs_neighbors _ _ _ _) as [[] s'|e s'|]; try done.
  destruct Hloop as (Hs' & Hrec & Htodo & Hfin' & Hvis).
  destruct Hst as (Hsub & _ & _). destruct Hs' as (Hsub' & Hclosed' & Hacyclic').
  simpl in Hrec, Hvis.
  assert (node ∉ rec_stack st) as Hnot by set_solver.
  assert (rec_stack (leave node s') = rec_stack st) as Hleave.
  { simpl. rewrite Hrec. set_solver. }
  assert (forall u, u ∈ finished (leave node s') <-> u ∈ finished s' \/ u = node) as Hfinished.
  { intros u. unfold finished. rewrite Hleave. simpl. rewrite !elem_of_difference, Hrec.
    split.
    - intros (Hu & Hu'). destruct (decide (u = node)) as [->|Hne]; [by right|].
      left. set_solver.
    - intros [(Hu & Hu')| ->]; [set_solver|]. split; [set_solver | done]. }
  unfold returned_false.
  split; [|split; [done|split; [|split]]].
  - split; [rewrite Hleave; simpl; set_solver|]. split.
    + intros u v [Hu| ->]%Hfinished Huv; apply Hfinished; left.
      * by apply (Hclosed' u).
      * by apply Htodo.
    + intros u [Hu| ->]%Hfinished Hcycle; [by apply (Hacyclic' u)|].
      assert (exists v, edge node v /\ rtc edge v node) as (v & Hnv & Hvn).
      { inversion Hcycle as [? ? Hnv|? v ? Hnv Hvn]; subst.
        - by exists node.
        - exists v. split; [done | by apply tc_rtc]. }
      assert (node ∈ finished s') as Hbad.
      { apply (finished_closed_rtc s' v); [done | by apply Htodo | done]. }
      unfold finished in Hbad. set_solver.
  - apply Hfinished. by right.
  - rewrite <- Hfin. intros u Hu. apply Hfinished. left. by apply Hfin'.
  - simpl. set_solver.
Qed.

Lemma dfs_roots_nothing_found fuel roots st st' :
  settled adjacency st -> rec_stack st = ∅ ->
  dfs_roots adjacency fuel roots st = Ok tt st' -> cycles st' = cycles st ->
  settled adjacency st' /\ rec_stack st' = ∅
  /\ (forall k, k ∈ roots -> k ∈ visited st') /\ visited st ⊆ visited st'.
Proof.
  revert st. induction roots as [|k roots IH]; intros st Hst Hempty Hrun Hcycles.
  - simpl in Hrun. injection Hrun as <-. split; [done|]. split; [done|]. split; [|done].
    intros k Hk. by apply elem_of_nil in Hk.
  - cbn [dfs_roots] in Hrun. destruct (decide (k ∈ visited st)) as [Hv|Hv].
    + destruct (IH st Hst Hempty Hrun Hcycles) as (Hs' & He' & Hroots & Hvis).
      split; [done|]. split; [done|]. split; [|done].
      intros m [->|Hm]%elem_of_cons; [by apply Hvis | by apply Hroots].
    + pose proof (dfs_tally fuel k [] st) as Htally.
      pose proof (dfs_returned_false fuel k [] st Hst Hv) as Hfalse.
      destruct (dfs adjacency fuel k [] st) as [v s1|e s1|]; [|done|done].
      pose proof (dfs_roots_bounded fuel roots s1) as Hrest. rewrite Hrun in Hrest.
      destruct Hrest as (new & Hnew & _).
      destruct v; simpl in Htally, Hfalse.
      { destruct Htally as (c & Hc). exfalso.
        rewrite Hnew, Hc in Hcycles. apply (f_equal length) in Hcycles.
        rewrite !length_app in Hcycles. simpl in Hcycles. lia. }
      destruct Hfalse as (Hs1 & Hrec1 & Hk & _ & Hvis1).
      destruct (IH s1 Hs1) as (Hs' & He' & Hroots & Hvis); [congruence | done | congruence |].
      split; [done|]. split; [done|]. split; [|set_solver].
      intros m [->|Hm]%elem_of_cons; [|by apply Hroots].
      apply Hvis. unfold finished in Hk. set_solver.
Qed.

(** When [detect] ends normally and has appended nothing, no file of the
    adjacency reaches itself. *)
Lemma detect_nothing_found found st :
  detect adjacency found = Ok tt st -> cycles st = found -> acyclic adjacency.
Proof.
  intros Hrun Hcycles.
  destruct (dfs_roots_nothing_found (enough_fuel adjacency) (PyDict.keys adjacency)
              {| visited := ∅; rec_stack := ∅; cycles := found |} st)
    as (Hst & Hempty & Hroots & _); [|done|done|done|].
  { split; [done|]. unfold finished. simpl. split; intros u; set_solver. }
  intros n Hn.
  assert (exists v, edge n v) as (v & Hnv).
  { inversion Hn as [? v Hnv|? v ? Hnv _]; subst; eexists; eassumption. }
  assert (n ∈ PyDict.keys adjacency) as Hkey.
  { unfold CycleSpec.edge, neighbors in Hnv.
    destruct (PyDict.get n adjacency) as [l|] eqn:Hget; simpl in Hnv.
    - by apply PyDictFacts.get_Some_keys in Hget.
    - by apply elem_of_nil in Hnv. }
  destruct Hst as (_ & _ & Hacyclic). apply (Hacyclic n); [|done].
  unfold finished. rewrite Hempty. specialize (Hroots n Hkey). set_solver.
Qed.

(** *** An exception comes after a cycle *)

Lemma index_of_on_path x path : x ∈ on_path path -> is_Some (index_of x path).
Proof.
  unfold on_path. rewrite elem_of_list_to_set. intros Hx.
  destruct (index_of x path) eqn:Hi; [done|].
  by apply CycleFacts.index_of_None in Hi.
Qed.

Lemma dfs_neighbors_no_raise call path todo st :
  (forall n s, settled adjacency s -> n ∉ visited s -> rec_stack s ⊆ on_path path ->
               returned_false adjacency n s (call n path s) /\ no_raise (call n path s)) ->
  settled adjacency st -> rec_stack st ⊆ on_path path ->
  no_raise (dfs_neighbors call path todo st).
Proof.
  intros Hcall. revert st. induction todo as [|n todo IH]; intros st Hst Hpath; [done|].
  cbn [dfs_neighbors].
  destruct (decide (n ∈ visited st)) as [Hv|Hv].
  - destruct (decide (n ∈ rec_stack st)) as [Hr|Hr]; [|by apply IH].
    destruct (index_of_on_path n path) as [i ->]; [set_solver | done].
  - destruct (Hcall n st Hst Hv Hpath) as [Hfalse Hraise].
    destruct (call n path st) as [[] s'|e s'|]; try done.
    destruct Hfalse as (Hs' & Hrec & _). apply IH; [done|]. by rewrite Hrec.
Qed.

Lemma dfs_no_raise fuel node path st :
  settled adjacency st -> node ∉ visited st -> rec_stack st ⊆ on_path path ->
  no_raise (dfs adjacency fuel node path st).
Proof.
  revert node path st. induction fuel as [|fuel IH]; intros node path st Hst Hnode Hpath;
    [done|].
  cbn [dfs].
  destruct (settled_enter node st Hst Hnode) as (Henter & _).
  pose proof (dfs_neighbors_no_raise (dfs adjacency fuel) (path ++ [node])
                (neighbors adjacency node) (enter node st)) as Hloop.
  destruct (dfs_neighbors _ _ _ _) as [[] s'|e s'|]; try done.
  apply Hloop; [|done|].
  - intros n s Hs Hn Hs'. split; [by apply dfs_returned_false | by apply IH].
  - unfold on_path in *. simpl. rewrite list_to_set_app_L. set_solver.
Qed.

Lemma dfs_roots_raise_after_cycle fuel roots st e st' :
  settled adjacency st -> rec_stack st = ∅ ->
  dfs_roots adjacency fuel roots st = Raise e st' ->
  (length (cycles st) < length (cycles st'))%nat.
Proof.
  revert st. induction roots as [|k roots IH]; intros st Hst Hempty Hrun; [done|].
  cbn [dfs_roots] in Hrun. destruct (decide (k ∈ visited st)) as [Hv|Hv]; [by apply IH|].
  pose proof (dfs_tally fuel k [] st) as Htally.
  pose proof (dfs_returned_false fuel k [] st Hst Hv) as Hfalse.
  pose proof (dfs_no_raise fuel k [] st Hst Hv) as Hraise.
  destruct (dfs adjacency fuel k [] st) as [v s1|e1 s1|]; [| |done].
  - destruct v; simpl in Htally, Hfalse.
    + destruct Htally as (c & Hc).
      pose proof (dfs_roots_bounded fuel roots s1) as Hrest. rewrite Hrun in Hrest.
      destruct Hrest as (new & -> & _). rewrite Hc, !length_app. simpl. lia.
    + destruct Hfalse as (Hs1 & Hrec1 & _). rewrite <- Htally.
      apply IH; [done | congruence | done].
  - exfalso. apply Hraise. rewrite Hempty. set_solver.
Qed.

Lemma detect_raise_after_cycle found e st :
  detect adjacency found = Raise e st -> (length found < length (cycles st))%nat.
Proof.
  intros Hrun.
  apply (dfs_roots_raise_after_cycle (enough_fuel adjacency) (PyDict.keys adjacency)
           {| visited := ∅; rec_stack := ∅; cycles := found |} e st); [|done|done].
  split; [done|]. unfold finished. simpl. split; intros u; set_solver.
Qed.

End Detector.

(** ** The detector of a builder *)

Lemma imports_from_acyclic b :
  acyclic (adjacency_of (graph b)) -> forall n, ~ tc (imports_from b) n n.
Proof.
  intros Hacyclic n Hn. apply (Hacyclic n).
  apply (tc_congruence id (CycleSpec.edge (adjacency_of (graph b))) n n) in Hn; [done|].
  intros u v. apply BuilderFacts.edge_adjacency_of.
Qed.

Lemma keys_adjacency_of (dd : pydict (gset string)) :
  PyDict.keys (adjacency_of dd) = PyDict.keys dd.
Proof.
  unfold adjacency_of, PyDict.keys. induction dd as [|[k s] dd IH]; csimpl; [done|].
  by f_equal.
Qed.

Lemma _detect_circular_dependencies_nothing_found b b' :
  _detect_circular_dependencies b = Ok tt b' -> circular_deps b' = circular_deps b ->
  forall n, ~ tc (imports_from b) n n.
Proof.
  unfold _detect_circular_dependencies. intros Hrun Hcycles.
  destruct (detect (adjacency_of (graph b)) (circular_deps b)) as [[] st|e st|] eqn:Hd;
    [|done|done].
  injection Hrun as <-. simpl in Hcycles.
  apply imports_from_acyclic. by eapply detect_nothing_found.
Qed.

Lemma _detect_circular_dependencies_bounded b :
  match _detect_circular_dependencies b with
  | Ok _ b' | Raise _ b' =>
      exists new, circular_deps b' = circular_deps b ++ new
                  /\ (length new <= length (PyDict.keys (graph b)))%nat
  | OutOfFuel => False
  end.
Proof.
  pose proof (BuilderFacts._detect_circular_dependencies_ended b) as Hended.
  unfold _detect_circular_dependencies in *.
  pose proof (detect_bounded (adjacency_of (graph b)) (circular_deps b)) as Hb.
  rewrite keys_adjacency_of in Hb.
  destruct (detect _ _) as [[] st|e st|]; done.
Qed.

Lemma _detect_circular_dependencies_raise b e b' :
  _detect_circular_dependencies b = Raise e b' ->
  (length (circular_deps b) < length (circular_deps b'))%nat.
Proof.
  unfold _detect_circular_dependencies. intros Hrun.
  destruct (detect (adjacency_of (graph b)) (circular_deps b)) as [[] st|e' st|] eqn:Hd;
    [done| |done].
  simplify_eq. simpl. by eapply detect_raise_after_cycle.
Qed.

End DetectorFacts.

Module CountFacts.
Import DependencyGraph GraphSpec BuilderSpec DataSpec.

Lemma total_app l1 l2 : total (l1 ++ l2) = total l1 + total l2.
Proof. unfold total. induction l1 as [|x l1 IH]; simpl; lia. Qed.

Lemma total_Permutation l1 l2 : l1 ≡ₚ l2 -> total l1 = total l2.
Proof. unfold total. induction 1; simpl; lia. Qed.

Lemma total_zero {A} (f : A -> Z) (l : list A) :
  (forall x, x ∈ l -> f x = 0) -> total (f <$> l) = 0.
Proof.
  unfold total. induction l as [|x l IH]; csimpl; intros Hl; [done|].
  rewrite Hl, IH; [done| |apply list_elem_of_here].
  intros; by apply Hl, list_elem_of_further.
Qed.

(** Looking up the keys of a dictionary gives its values. *)
Lemma fmap_dd_get_keys (dd : pydict (gset string)) :
  NoDup (PyDict.keys dd) ->
  (fun k => set_len (dd_get k dd)) <$> PyDict.keys dd = set_len <$> dd.*2.
Proof.
  unfold PyDict.keys. induction dd as [|[k s] dd IH]; csimpl; intros Hd; [done|].
  apply NoDup_cons in Hd as [Hk Hd]. f_equal.
  - unfold dd_get. simpl. by rewrite decide_True.
  - rewrite <- IH by done. apply list_fmap_ext. intros i k' Hk'.
    unfold dd_get. simpl. rewrite decide_False; [done|].
    intros ->. apply Hk. by eapply list_elem_of_lookup_2.
Qed.

(** Summing the sizes of the sets of [dd] over a duplicate-free list that
    holds every key of [dd] gives the number of pairs in [dd]. *)
Lemma total_over_files (dd : pydict (gset string)) (all_files : list string) :
  NoDup all_files -> NoDup (PyDict.keys dd) ->
  (forall k, k ∈ PyDict.keys dd -> k ∈ all_files) ->
  total ((fun k => set_len (dd_get k dd)) <$> all_files) = len (edge_pairs dd).
Proof.
  intros Hfiles Hkeys Hsub.
  destruct (submseteq_Permutation (PyDict.keys dd) all_files) as (others & Hperm).
  { by apply NoDup_submseteq. }
  rewrite (total_Permutation _ ((fun k => set_len (dd_get k dd))
                                  <$> (PyDict.keys dd ++ others)))
    by by apply fmap_Permutation.
  rewrite fmap_app, total_app, fmap_dd_get_keys, DataFacts.length_edge_pairs by done.
  rewrite (total_zero (fun k => set_len (dd_get k dd)) others); [lia|].
  intros k Hk. rewrite GraphFacts.dd_get_not_key; [done|].
  rewrite Hperm in Hfiles. apply NoDup_app in Hfiles as (_ & Hdisj & _).
  intros Hk'. by apply (Hdisj k).
Qed.

(** A forward adjacency and its transpose have the same number of pairs. *)
Lemma length_edge_pairs_transposed forward reverse :
  NoDup (PyDict.keys forward) -> NoDup (PyDict.keys reverse) ->
  transposed forward reverse ->
  len (edge_pairs forward) = len (edge_pairs reverse).
Proof.
  intros Hf Hr Ht. unfold len. f_equal.
  rewrite <- (length_fmap prod_swap (edge_pairs reverse)).
  apply Permutation_length, NoDup_Permutation.
  - by apply DataFacts.NoDup_edge_pairs.
  - apply (NoDup_fmap_2 prod_swap). by apply DataFacts.NoDup_edge_pairs.
  - intros [s t]. rewrite DataFacts.elem_of_edge_pairs_get by done.
    rewrite list_elem_of_fmap. split.
    + intros Hst. exists (t, s). split; [done|].
      apply DataFacts.elem_of_edge_pairs_get; [done|]. by apply Ht.
    + intros ([t' s'] & [= -> ->] & Hin).
      apply DataFacts.elem_of_edge_pairs_get in Hin; [|done]. by apply Ht.
Qed.

(** ** The ranking *)

Lemma insert_by_count_Permutation x l : insert_by_count x l ≡ₚ x :: l.
Proof.
  induction l as [|y l IH]; simpl; [done|].
  destruct (fc_count x <? fc_count y); [|done].
  rewrite IH. apply Permutation_swap.
Qed.

Lemma sort_by_count_desc_Permutation l : sort_by_count_desc l ≡ₚ l.
Proof.
  unfold sort_by_count_desc. induction l as [|x l IH]; simpl; [done|].
  by rewrite insert_by_count_Permutation, IH.
Qed.

Lemma insert_by_count_sorted x l :
  StronglySorted ranks_before l -> StronglySorted ranks_before (insert_by_count x l).
Proof.
  induction 1 as [|y l Hl IH Hy]; simpl.
  - repeat constructor.
  - destruct (fc_count x <? fc_count y) eqn:Hxy.
    + apply Z.ltb_lt in Hxy. constructor; [done|].
      apply Forall_forall. intros z Hz.
      rewrite insert_by_count_Permutation in Hz.
      apply elem_of_cons in Hz as [->|Hz]; [unfold ranks_before; lia|].
      by eapply Forall_forall in Hy.
    + apply Z.ltb_ge in Hxy. constructor; [by constructor|].
      constructor; [done|]. unfold ranks_before in *.
      eapply Forall_impl; [done|]. simpl. intros z Hz. lia.
Qed.

Lemma sort_by_count_desc_sorted l : StronglySorted ranks_before (sort_by_count_desc l).
Proof.
  unfold sort_by_count_desc. induction l as [|x l IH]; simpl; [constructor|].
  by apply insert_by_count_sorted.
Qed.

(** The sort is stable: the entries of one count keep their order. *)
Lemma insert_by_count_stable x l (c : Z) :
  StronglySorted ranks_before l ->
  filter (fun z => fc_count z = c) (insert_by_count x l)
  = filter (fun z => fc_count z = c) (x :: l).
Proof.
  induction 1 as [|y l Hl IH Hy]; simpl; [done|].
  destruct (fc_count x <? fc_count y) eqn:Hxy; [|done].
  apply Z.ltb_lt in Hxy.
  rewrite !filter_cons. rewrite filter_cons in IH.
  rewrite IH. repeat case_decide; simpl in *; try done; lia.
Qed.

Lemma sort_by_count_desc_stable l (c : Z) :
  filter (fun z => fc_count z = c) (sort_by_count_desc l)
  = filter (fun z => fc_count z = c) l.
Proof.
  unfold sort_by_count_desc. induction l as [|x l IH]; simpl; [done|].
  rewrite insert_by_count_stable by apply sort_by_count_desc_sorted.
  by rewrite !filter_cons, IH.
Qed.

Lemma ranking_spec (dd : pydict (gset string)) (limit : nat) :
  let ranking := take limit (sort_by_count_desc (file_counts dd)) in
  length ranking = Nat.min limit (length dd)
  /\ exists others,
       ranking ++ others ≡ₚ file_counts dd
       /\ StronglySorted ranks_before (ranking ++ others)
       /\ forall c : Z,
            filter (fun z => fc_count z = c) (ranking ++ others)
            = filter (fun z => fc_count z = c) (file_counts dd).
Proof.
  simpl. split.
  - rewrite length_take, sort_by_count_desc_Permutation. unfold file_counts.
    by rewrite length_map.
  - exists (drop limit (sort_by_count_desc (file_counts dd))).
    rewrite take_drop. split; [apply sort_by_count_desc_Permutation|].
    split; [apply sort_by_count_desc_sorted | apply sort_by_count_desc_stable].
Qed.

End CountFacts.

Module EdgeFacts.
Import DependencyGraph GraphSpec BuilderSpec DataSpec.

Lemma relate_graph module_map file_path b import_name source target :
  target ∈ dd_get source (graph (relate module_map file_path b import_name))
  <-> target ∈ dd_get source (graph b)
      \/ (source = file_path
          /\ _resolve_import import_name file_path module_map = Some target
          /\ PyStr.truthy target = true).
Proof.
  destruct (GraphFacts.relate_cases module_map file_path b import_name)
    as (_ & _ & [(t & Hres & Htruthy & -> & _ & _)|(Hun & -> & _ & _)]).
  - rewrite GraphFacts.elem_of_dd_get_add. split.
    + intros [?|[-> ->]]; [by left | by right].
    + intros [?|(-> & Hres' & _)]; [by left|]. right. split; congruence.
  - split; [by left|]. intros [?|(_ & Hres & Htruthy)]; [done|].
    unfold unresolved in Hun. rewrite Hres, Htruthy in Hun. done.
Qed.

Lemma relate_tokens_graph module_map file_path tokens b source target :
  target ∈ dd_get source (graph (foldl (relate module_map file_path) b tokens))
  <-> target ∈ dd_get source (graph b)
      \/ (source = file_path
          /\ exists token, token ∈ tokens
               /\ _resolve_import token file_path module_map = Some target
               /\ PyStr.truthy target = true).
Proof.
  revert b. induction tokens as [|token tokens IH]; intros b; simpl.
  - split; [by left|]. intros [?|(_ & token & Hin & _)]; [done|].
    by apply elem_of_nil in Hin.
  - rewrite IH, relate_graph. split.
    + intros [[?|(-> & Hres & Ht)]|(-> & token' & Hin & Hres & Ht)].
      * by left.
      * right. split; [done|]. exists token. split; [apply list_elem_of_here | done].
      * right. split; [done|]. exists token'. split; [by apply list_elem_of_further | done].
    + intros [?|(-> & token' & Hin & Hres & Ht)]; [by left; left|].
      apply elem_of_cons in Hin as [->|Hin].
      * left. right. done.
      * right. split; [done|]. by exists token'.
Qed.

Lemma relate_files_graph module_map items b source target :
  target ∈ dd_get source (graph (foldl (relate_file module_map) b items))
  <-> target ∈ dd_get source (graph b) \/ resolved_edge module_map items source target.
Proof.
  revert b. induction items as [|[file_path tokens] items IH]; intros b; simpl.
  - split; [by left|]. intros [?|(tokens & token & Hin & _)]; [done|].
    by apply elem_of_nil in Hin.
  - rewrite IH. unfold relate_file. simpl. rewrite relate_tokens_graph. split.
    + intros [[?|(-> & token & Hin & Hres & Ht)]|(tokens' & token & Hin & Hrest)].
      * by left.
      * right. exists tokens, token. split; [apply list_elem_of_here | done].
      * right. exists tokens', token. split; [by apply list_elem_of_further | done].
    + intros [?|(tokens' & token & Hin & Htoken & Hres & Ht)]; [by left; left|].
      apply elem_of_cons in Hin as [[= -> ->]|Hin].
      * left. right. split; [done|]. by exists token.
      * right. by exists tokens', token.
Qed.

(** The forward adjacency after [_build_relationships]: what was there, and
    an edge for every token that resolves. *)
Lemma _build_relationships_graph b source target :
  target ∈ dd_get source (graph (_build_relationships b))
  <-> target ∈ dd_get source (graph b)
      \/ resolved_edge (_build_module_mapping b) (PyDict.items (files_data b))
           source target.
Proof. apply relate_files_graph. Qed.

(** The file a token resolves to is a scanned file. *)
Lemma _resolve_import_scanned b import_name source_file target :
  _resolve_import import_name source_file (_build_module_mapping b) = Some target ->
  target ∈ PyDict.keys (files_data b).
Proof.
  intros (key & Hkey)%ResolverFacts._resolve_import_value.
  by eapply ReachFacts.module_mapping_value.
Qed.

Lemma truthy_nonempty s : s <> EmptyString -> PyStr.truthy s = true.
Proof. by destruct s. Qed.

Section WithRuntime.
Context `{PyRuntime}.

(** The forward adjacency after [build_graph]. *)
Lemma build_graph_graph upload_dir upload_id b source target :
  paths_nonempty b -> NoDup (PyDict.keys (files_data b)) ->
  let b' := state_after (build_graph upload_dir upload_id b) b in
  target ∈ dd_get source (graph b')
  <-> target ∈ dd_get source (graph b)
      \/ exists tokens token,
           PyDict.get source (files_data b') = Some tokens /\ token ∈ tokens
           /\ _resolve_import token source (_build_module_mapping b') = Some target.
Proof.
  intros Hne Hunique.
  pose proof (GraphFacts.build_graph_state upload_dir upload_id b) as Hs.
  pose proof (BuilderFacts.build_graph_ended upload_dir upload_id b) as Hended.
  destruct (GraphFacts.scan_imports_graphs (PyPath.glob_py upload_dir) b) as (Hg & _).
  assert (paths_nonempty (scan_imports (PyPath.glob_py upload_dir) b)) as Hne'
    by by apply ReachFacts.scan_imports_nonempty.
  assert (NoDup (PyDict.keys (files_data (scan_imports (PyPath.glob_py upload_dir) b))))
    as Hunique'.
  { unfold scan_imports. 
    apply (GraphFacts.foldl_invariant (fun b => NoDup (PyDict.keys (files_data b))));
      [done|].
    intros a pf _ Ha. by apply DataFacts.NoDup_keys_set. }
  revert Hs Hne' Hunique' Hg.
  generalize (scan_imports (PyPath.glob_py upload_dir) b) as scanned.
  intros scanned Hs Hne' Hunique' Hg.
  assert (exists found,
             state_after (build_graph upload_dir upload_id b) b
             = with_circular_deps (_build_relationships scanned) found) as (found & ->).
  { destruct (build_graph upload_dir upload_id b) as [data b'|e b'|]; simpl in *;
      [by destruct Hs | done | done]. }
  simpl. unfold _build_module_mapping. simpl.
  rewrite !GraphFacts._build_relationships_files_data.
  rewrite _build_relationships_graph, Hg.
  apply or_iff_compat_l. unfold resolved_edge, PyDict.items. split.
  - intros (tokens & token & Hin & Htoken & Hres & _).
    exists tokens, token. split; [|done]. by apply DataFacts.elem_of_get_Some.
  - intros (tokens & token & Hget & Htoken & Hres).
    exists tokens, token. split; [by apply DataFacts.get_Some_elem_of|].
    split; [done|]. split; [done|]. apply truthy_nonempty, Hne'.
    by eapply _resolve_import_scanned.
Qed.

End WithRuntime.

End EdgeFacts.

Module GraphDataFacts.
Import DependencyGraph GraphSpec BuilderSpec DataSpec.

Lemma node_ids b :
  node_id <$> gd_nodes (_generate_graph_data b)
  = elements (list_to_set (PyDict.keys (files_data b)) : gset string).
Proof.
  simpl. change (List.map ?f ?l) with (f <$> l). rewrite <- list_fmap_compose.
  apply list_fmap_id.
Qed.

Lemma elem_of_node_ids b f :
  f ∈ node_id <$> gd_nodes (_generate_graph_data b) <-> f ∈ PyDict.keys (files_data b).
Proof. rewrite node_ids. set_solver. Qed.

Lemma node_imports_counts b :
  node_imports_count <$> gd_nodes (_generate_graph_data b)
  = (fun k => set_len (dd_get k (graph b)))
      <$> elements (list_to_set (PyDict.keys (files_data b)) : gset string).
Proof. simpl. change (List.map ?f ?l) with (f <$> l). by rewrite <- list_fmap_compose. Qed.

Lemma node_imported_by_counts b :
  node_imported_by_count <$> gd_nodes (_generate_graph_data b)
  = (fun k => set_len (dd_get k (reverse_graph b)))
      <$> elements (list_to_set (PyDict.keys (files_data b)) : gset string).
Proof. simpl. change (List.map ?f ?l) with (f <$> l). by rewrite <- list_fmap_compose. Qed.

Lemma len_make_edges dd : len (make_edges dd) = len (edge_pairs dd).
Proof. unfold len, make_edges. by rewrite length_imap. Qed.

(** The degrees of the nodes add up to the number of edges. *)
Lemma degree_sums b :
  keys_unique b -> recorded_in_files b -> transposed (graph b) (reverse_graph b) ->
  let data := _generate_graph_data b in
  stat_total_dependencies (gd_statistics data) = total (node_imports_count <$> gd_nodes data)
  /\ stat_total_dependencies (gd_statistics data)
     = total (node_imported_by_count <$> gd_nodes data).
Proof.
  intros (_ & Hg & Hr) Hrec Ht data. subst data.
  rewrite node_imports_counts, node_imported_by_counts.
  change (stat_total_dependencies (gd_statistics (_generate_graph_data b)))
    with (len (make_edges (graph b))).
  rewrite len_make_edges. split.
  - symmetry. apply CountFacts.total_over_files; [apply NoDup_elements | done |].
    intros k Hk. apply elem_of_elements, elem_of_list_to_set, Hrec. by left.
  - rewrite (CountFacts.length_edge_pairs_transposed _ (reverse_graph b)) by done.
    symmetry. apply CountFacts.total_over_files; [apply NoDup_elements | done |].
    intros k Hk. apply elem_of_elements, elem_of_list_to_set, Hrec. by right.
Qed.

Lemma dd_get_nonempty_key (dd : pydict (gset string)) k x :
  x ∈ dd_get k dd -> k ∈ PyDict.keys dd.
Proof.
  intros Hx. destruct (decide (k ∈ PyDict.keys dd)) as [|Hk]; [done|].
  rewrite GraphFacts.dd_get_not_key in Hx by done. set_solver.
Qed.

(** The edge list is the forward adjacency, each pair once, numbered from
    zero, and it joins nodes. *)
Lemma edges_spec b :
  keys_unique b -> recorded_in_files b -> transposed (graph b) (reverse_graph b) ->
  let data := _generate_graph_data b in
  (forall source target,
      (source, target) ∈ endpoints <$> gd_edges data
      <-> target ∈ dd_get source (graph b))
  /\ NoDup (endpoints <$> gd_edges data)
  /\ edge_id <$> gd_edges data = Z.of_nat <$> seq 0 (length (gd_edges data))
  /\ (forall e, e ∈ gd_edges data ->
        edge_from e ∈ node_id <$> gd_nodes data
        /\ edge_to e ∈ node_id <$> gd_nodes data).
Proof.
  intros (_ & Hg & Hr) Hrec Ht data.
  assert (forall source target,
             (source, target) ∈ endpoints <$> gd_edges data
             <-> target ∈ dd_get source (graph b)) as Hedges.
  { intros source target. subst data. cbn [gd_edges _generate_graph_data].
    rewrite DataFacts.fmap_endpoints_make_edges.
    by apply DataFacts.elem_of_edge_pairs_get. }
  split; [done|]. split; [|split].
  - subst data. cbn [gd_edges _generate_graph_data].
    rewrite DataFacts.fmap_endpoints_make_edges. by apply DataFacts.NoDup_edge_pairs.
  - apply DataFacts.fmap_edge_id_make_edges.
  - intros e He.
    assert (edge_to e ∈ dd_get (edge_from e) (graph b)) as Hin.
    { apply Hedges. apply list_elem_of_fmap. by exists e. }
    split; apply elem_of_node_ids, Hrec.
    + left. by eapply dd_get_nonempty_key.
    + right. apply Ht in Hin. by eapply dd_get_nonempty_key.
Qed.

Lemma set_len_zero (s : gset string) : set_len s = 0 <-> s = ∅.
Proof.
  unfold set_len. split.
  - intros Hs. apply leibniz_equiv, size_empty_inv. lia.
  - intros ->. by rewrite size_empty.
Qed.

Lemma nodes_spec b :
  let data := _generate_graph_data b in
  NoDup (node_id <$> gd_nodes data)
  /\ (forall f, f ∈ node_id <$> gd_nodes data <-> f ∈ PyDict.keys (files_data b))
  /\ stat_total_files (gd_statistics data) = len (gd_nodes data)
  /\ stat_isolated_files (gd_statistics data)
     = len (filter (fun n => node_imports_count n = 0 /\ node_imported_by_count n = 0)
              (gd_nodes data))
  /\ (forall n, n ∈ gd_nodes data ->
        node_full_path n = node_id n
        /\ node_imports_count n = set_len (dd_get (node_id n) (graph b))
        /\ node_imported_by_count n = set_len (dd_get (node_id n) (reverse_graph b))
        /\ node_size n = Z.max 10 (5 * node_imported_by_count n)).
Proof.
  intros data. subst data. split; [|split; [|split; [|split]]].
  - rewrite node_ids. apply NoDup_elements.
  - apply elem_of_node_ids.
  - simpl. unfold len, set_len. by rewrite length_map.
  - cbn [gd_nodes gd_statistics stat_isolated_files _generate_graph_data].
    unfold len. f_equal.
    generalize (elements (list_to_set (PyDict.keys (files_data b)) : gset string)) as l.
    induction l as [|f l IH]; [done|]. cbn [List.filter List.map].
    rewrite filter_cons. unfold is_isolated at 1.
    destruct (decide (node_imports_count (make_node b f) = 0
                      /\ node_imported_by_count (make_node b f) = 0)) as [[H1 H2]|Hno].
    + simpl in H1, H2. apply set_len_zero in H1, H2.
      rewrite !bool_decide_eq_true_2 by done. simpl. by rewrite IH.
    + simpl in Hno. rewrite !set_len_zero in Hno.
      destruct (bool_decide (dd_get f (graph b) = ∅)) eqn:H1;
        destruct (bool_decide (dd_get f (reverse_graph b) = ∅)) eqn:H2; simpl; try done.
      apply bool_decide_eq_true in H1, H2. by destruct Hno.
  - intros n Hn. simpl in Hn.
    apply list_elem_of_In, in_map_iff in Hn as (f & <- & _). simpl.
    repeat split; lia.
Qed.

End GraphDataFacts.

Module NameFacts.
Import DependencyGraph ResolverSpec.

Lemma split_nonempty sep s : PyStr.split sep s <> [].
Proof.
  destruct s as [|c s]; simpl; [done|].
  destruct (decide (c = sep)); [done|]. by destruct (PyStr.split sep s).
Qed.

(** Joining what [split] returned gives the string back. *)
Lemma join_split (sep : ascii) (s : string) :
  PyStr.join (String sep EmptyString) (PyStr.split sep s) = s.
Proof.
  unfold PyStr.join. induction s as [|c s IH]; simpl; [done|].
  destruct (decide (c = sep)) as [->|Hne].
  - pose proof (split_nonempty sep s) as Hs.
    destruct (PyStr.split sep s) as [|h t]; [done|]. simpl in *. by rewrite IH.
  - pose proof (split_nonempty sep s) as Hs.
    destruct (PyStr.split sep s) as [|h t]; [done|].
    destruct t as [|h' t]; simpl in *; by rewrite <- IH.
Qed.

Lemma components_positive import_name : (1 <= components import_name)%nat.
Proof.
  unfold components. pose proof (split_nonempty "." import_name).
  destruct (PyStr.split "." import_name); [done | simpl; lia].
Qed.

Lemma token_prefix_all import_name :
  token_prefix import_name (components import_name) = import_name.
Proof. unfold token_prefix, components. rewrite firstn_all. apply join_split. Qed.

Lemma suffix_names_head module_name : module_name ∈ suffix_names module_name.
Proof.
  unfold suffix_names. apply list_elem_of_fmap. exists O. split.
  - simpl. symmetry. apply (join_split "."). 
  - pose proof (split_nonempty "." module_name).
    destruct (PyStr.split "." module_name); [done | apply list_elem_of_here].
Qed.

Lemma registered_name scanned key f :
  registered scanned key = Some f ->
  f ∈ scanned /\ key ∈ suffix_names (module_name_of f).
Proof.
  unfold registered.
  destruct (last (filter (fun f => module_name_of f = key) scanned)) as [g|] eqn:Hlast.
  - intros [= ->]. apply last_Some_elem_of, list_elem_of_filter in Hlast as [<- Hin].
    split; [done | apply suffix_names_head].
  - intros Hhead. apply head_Some_elem_of, list_elem_of_filter in Hhead as [Hkey Hin].
    done.
Qed.

(** A file is found under its own dotted name, unless a file scanned later
    has the same dotted name. *)
Lemma registered_own_name scanned f :
  f ∈ scanned ->
  exists g, registered scanned (module_name_of f) = Some g
            /\ g ∈ scanned /\ module_name_of g = module_name_of f.
Proof.
  intros Hin. unfold registered.
  destruct (last (filter (fun g => module_name_of g = module_name_of f) scanned))
    as [g|] eqn:Hlast.
  - exists g. apply last_Some_elem_of, list_elem_of_filter in Hlast as [Hname Hg]. done.
  - apply last_None in Hlast.
    assert (f ∈ filter (fun g => module_name_of g = module_name_of f) scanned) as Hf
      by by apply list_elem_of_filter.
    rewrite Hlast in Hf. by apply elem_of_nil in Hf.
Qed.

Lemma _resolve_import_own_name b source_file f :
  f ∈ PyDict.keys (files_data b) ->
  exists g,
    _resolve_import (module_name_of f) source_file (_build_module_mapping b) = Some g
    /\ g ∈ PyDict.keys (files_data b) /\ module_name_of g = module_name_of f.
Proof.
  intros Hin. destruct (registered_own_name _ f Hin) as (g & Hreg & Hg & Hname).
  exists g. split; [|done]. unfold _resolve_import, _build_module_mapping.
  by rewrite ResolverFacts.build_mapping_registered, Hreg.
Qed.

(** Whatever a token resolves to is a scanned file that answers to the
    token or to the token cut after one of its components. *)
Lemma _resolve_import_sound b import_name source_file target :
  _resolve_import import_name source_file (_build_module_mapping b) = Some target ->
  target ∈ PyDict.keys (files_data b)
  /\ exists i, (1 <= i <= components import_name)%nat
       /\ token_prefix import_name i ∈ suffix_names (module_name_of target).
Proof.
  unfold _resolve_import, _build_module_mapping.
  rewrite ResolverFacts.build_mapping_registered.
  destruct (registered (PyDict.keys (files_data b)) import_name) as [g|] eqn:Hdirect.
  - intros [= ->]. apply registered_name in Hdirect as [Hin Hname].
    split; [done|]. exists (components import_name).
    rewrite token_prefix_all. split; [|done].
    pose proof (components_positive import_name). lia.
  - intros (i & Hi & Hkey & _)%ResolverFacts.resolve_prefixes_Some.
    rewrite ResolverFacts.build_mapping_registered in Hkey.
    apply registered_name in Hkey as [Hin Hname].
    split; [done|]. by exists i.
Qed.

End NameFacts.

Module SnapshotFacts.
Import MetadataBuilder SnapshotSpec.

(** ** Histograms *)

Lemma get_dd_incr k k' (dd : pydict Z) :
  default 0 (PyDict.get k' (dd_incr k dd))
  = default 0 (PyDict.get k' dd) + (if decide (k = k') then 1 else 0).
Proof.
  unfold dd_incr. rewrite PyDictFacts.get_set.
  destruct (decide (k = k')) as [->|Hne]; simpl; lia.
Qed.

Lemma total_set k v (dd : pydict Z) :
  DataSpec.total (PyDict.set k v dd).*2
  = DataSpec.total dd.*2 + v - default 0 (PyDict.get k dd).
Proof.
  unfold DataSpec.total. induction dd as [|[k' v'] dd IH]; csimpl; [lia|].
  destruct (decide (k = k')) as [->|Hne]; csimpl; lia.
Qed.

Lemma total_dd_incr k (dd : pydict Z) :
  DataSpec.total (dd_incr k dd).*2 = DataSpec.total dd.*2 + 1.
Proof. unfold dd_incr. rewrite total_set. lia. Qed.

Section WithRuntime.
Context `{PyRuntime}.

(** ** The records of a scan *)

Lemma record_file_files parts folder_name folder_name' filename f ext s :
  files_metadata (record_file parts folder_name filename f ext s)
  = files_metadata s
    ++ files_metadata (record_file parts folder_name' filename f ext reset).
Proof. done. Qed.

Lemma scan_file_files parts folder_name s nf :
  files_metadata (scan_file parts folder_name s nf)
  = files_metadata s ++ records_of parts nf.
Proof.
  unfold records_of, scan_file.
  destruct (bool_decide _); [apply record_file_files | by rewrite app_nil_r].
Qed.

Lemma scan_files_files parts folder_name s l :
  files_metadata (foldl (scan_file parts folder_name) s l)
  = files_metadata s ++ List.flat_map (records_of parts) l.
Proof.
  revert s. induction l as [|nf l IH]; intros s; simpl; [by rewrite app_nil_r|].
  by rewrite IH, scan_file_files, <- (assoc_L (++)).
Qed.

Lemma scan_visit_files s v :
  files_metadata (scan_visit s v) = files_metadata s ++ visit_records v.
Proof. apply scan_files_files. Qed.

Lemma scan_visits_files s visits :
  files_metadata (foldl scan_visit s visits)
  = files_metadata s ++ List.flat_map visit_records visits.
Proof.
  revert s. induction visits as [|v visits IH]; intros s; simpl; [by rewrite app_nil_r|].
  by rewrite IH, scan_visit_files, <- (assoc_L (++)).
Qed.

Lemma _scan_directory_files upload_dir :
  files_metadata (_scan_directory upload_dir reset)
  = List.flat_map visit_records (walk [] (Dir upload_dir)).
Proof. unfold _scan_directory. by rewrite scan_visits_files. Qed.

(** What the record of a file holds. *)
Lemma records_of_spec parts nf :
  let ext := PyStr.lower (PyPath.suffix (fst nf)) in
  (ext ∉ SUPPORTED_EXTENSIONS -> records_of parts nf = [])
  /\ (ext ∈ SUPPORTED_EXTENSIONS ->
      exists fm,
        records_of parts nf = [fm]
        /\ Models.filename fm = fst nf
        /\ Models.extension fm = ext
        /\ Models.size_bytes fm = st_size (snd nf)
        /\ Models.relative_path fm
           = PyStr.replace (PyStr.join "/" (parts ++ [fst nf])) PyStr.backslash "/"
        /\ (ext <> ".py" ->
            Models.lines_count fm = None /\ Models.classes_count fm = Some 0
            /\ Models.functions_count fm = Some 0 /\ Models.imports fm = []
            /\ Models.content_hash fm = Some EmptyString)
        /\ (ext = ".py" ->
            Models.lines_count fm = Some (m_lines (_extract_python_metrics (snd nf)))
            /\ Models.classes_count fm = Some (m_classes (_extract_python_metrics (snd nf)))
            /\ Models.functions_count fm
               = Some (m_functions (_extract_python_metrics (snd nf)))
            /\ Models.imports fm = m_imports (_extract_python_metrics (snd nf))
            /\ Models.content_hash fm = Some (compute_file_hash (snd nf)))).
Proof.
  intros ext. unfold records_of, scan_file. fold ext. split.
  - intros Hext. by rewrite bool_decide_eq_false_2.
  - intros Hext. rewrite bool_decide_eq_true_2 by done.
    eexists. split; [reflexivity|]. simpl.
    split; [done|]. split; [done|]. split; [done|]. split; [done|]. split.
    + intros Hpy. apply String.eqb_neq in Hpy. by rewrite Hpy.
    + intros Hpy. apply String.eqb_eq in Hpy. by rewrite Hpy.
Qed.

(** ** The counters *)

Lemma consistent_reset : consistent reset.
Proof. by repeat split. Qed.

Lemma count_extension_snoc ext fs fm :
  count_extension ext (fs ++ [fm])
  = count_extension ext fs + (if decide (Models.extension fm = ext) then 1 else 0).
Proof.
  unfold count_extension. rewrite filter_app, length_app, filter_cons, filter_nil.
  destruct (decide (Models.extension fm = ext)); simpl; lia.
Qed.

Lemma total_snoc l x : DataSpec.total (l ++ [x]) = DataSpec.total l + x.
Proof. unfold DataSpec.total. induction l as [|y l IH]; simpl; lia. Qed.

Lemma record_file_consistent parts folder_name filename f ext s :
  consistent s -> consistent (record_file parts folder_name filename f ext s).
Proof.
  intros (Hbytes & Hlines & Hclasses & Hfunctions & Htypes & Htypes' & Hfolders).
  unfold consistent, record_file. cbn [files_metadata file_types folder_structure
    total_bytes total_lines total_classes total_functions].
  rewrite !fmap_app, !list_fmap_singleton, !total_snoc, length_app, !total_dd_incr. simpl.
  rewrite Hbytes, Hlines, Hclasses, Hfunctions, Htypes', Hfolders.
  split; [done|]. split.
  { f_equal. by destruct (String.eqb ext ".py"). }
  split; [done|]. split; [done|]. split; [|lia].
  intros ext'. rewrite get_dd_incr, count_extension_snoc, Htypes. simpl.
  repeat case_decide; congruence.
Qed.

Lemma scan_file_consistent parts folder_name s nf :
  consistent s -> consistent (scan_file parts folder_name s nf).
Proof.
  intros Hs. unfold scan_file. destruct (bool_decide _); [|done].
  by apply record_file_consistent.
Qed.

Lemma _scan_directory_consistent upload_dir s :
  consistent s -> consistent (_scan_directory upload_dir s).
Proof.
  intros Hs. unfold _scan_directory.
  apply (GraphFacts.foldl_invariant consistent); [done|].
  intros a v _ Ha. unfold scan_visit.
  apply (GraphFacts.foldl_invariant consistent); [done|].
  intros; by apply scan_file_consistent.
Qed.

End WithRuntime.

(** ** The directories visited *)

Lemma walk_Dir parts es :
  walk parts (Dir es)
  = {| v_parts := parts; v_files := files_of es |}
    :: List.flat_map (fun dx => if bool_decide (fst dx ∈ EXCLUDE_DIRS) then []
                                else walk (parts ++ [fst dx]) (snd dx)) es.
Proof.
  cbn [walk]. f_equal. induction es as [|[d x] es IH]; [done|].
  cbn [List.flat_map fst snd]. by rewrite IH.
Qed.

Lemma walk_sound parts e v :
  v ∈ walk parts e ->
  exists more es,
    v = {| v_parts := parts ++ more; v_files := files_of es |}
    /\ subdir e more es /\ kept more.
Proof.
  revert parts. induction e as [f|es IH] using ReachFacts.fs_entry_nested_ind;
    intros parts; [by intros ?%elem_of_nil|].
  rewrite walk_Dir. intros [->|Hv]%elem_of_cons.
  { exists [], es. rewrite app_nil_r. split; [done|]. split; [constructor | by constructor]. }
  apply list_elem_of_In, in_flat_map in Hv as ([d x] & Hdx & Hv). cbn [fst snd] in Hv.
  destruct (bool_decide (d ∈ EXCLUDE_DIRS)) eqn:Hd; [done|].
  apply bool_decide_eq_false in Hd. apply list_elem_of_In in Hdx, Hv.
  rewrite Forall_forall in IH.
  destruct (IH (d, x) Hdx (parts ++ [d]) Hv) as (more & es' & -> & Hsub & Hkept).
  exists (d :: more), es'. rewrite <- (assoc_L (++)). split; [done|].
  split; [by econstructor | by constructor].
Qed.

Lemma walk_complete parts e more es :
  subdir e more es -> kept more ->
  {| v_parts := parts ++ more; v_files := files_of es |} ∈ walk parts e.
Proof.
  intros Hsub. revert parts. induction Hsub as [es|es d x more es' Hdx Hsub IH];
    intros parts Hkept; rewrite walk_Dir.
  - rewrite app_nil_r. apply list_elem_of_here.
  - apply list_elem_of_further, list_elem_of_In, in_flat_map.
    exists (d, x). split; [by apply list_elem_of_In|]. cbn [fst snd].
    apply Forall_cons in Hkept as [Hd Hkept].
    rewrite bool_decide_eq_false_2 by done. apply list_elem_of_In.
    specialize (IH (parts ++ [d]) Hkept). by rewrite <- (assoc_L (++)) in IH.
Qed.

(** The directories [_scan_directory] visits are those reached from the
    root along names that are not excluded. *)
Lemma elem_of_walk upload_dir v :
  v ∈ walk [] (Dir upload_dir)
  <-> exists es, subdir (Dir upload_dir) (v_parts v) es /\ kept (v_parts v)
                 /\ v_files v = files_of es.
Proof.
  split.
  - intros (more & es & -> & Hsub & Hkept)%walk_sound. by exists es.
  - intros (es & Hsub & Hkept & Hfiles).
    pose proof (walk_complete [] _ _ _ Hsub Hkept) as Hin.
    destruct v as [parts files]. simpl in *. by subst.
Qed.

Lemma elem_of_files_of es name f :
  (name, f) ∈ files_of es <-> (name, File f) ∈ es.
Proof.
  unfold files_of. rewrite list_elem_of_In, in_flat_map. split.
  - intros ([n [g|sub]] & Hin & Hnf); simpl in Hnf; [|done].
    destruct Hnf as [[= -> ->]|[]]. by apply list_elem_of_In.
  - intros Hin. exists (name, File f). split; [by apply list_elem_of_In | by left].
Qed.

Section Records.
Context `{PyRuntime}.

(** The records of a scan are those of the files with a supported
    extension in the directories visited. *)
Lemma elem_of_scanned_files upload_dir fm :
  fm ∈ files_metadata (_scan_directory upload_dir reset)
  <-> exists parts es name f,
        subdir (Dir upload_dir) parts es /\ kept parts
        /\ (name, File f) ∈ es /\ fm ∈ records_of parts (name, f).
Proof.
  rewrite _scan_directory_files, list_elem_of_In, in_flat_map. split.
  - intros (v & Hv & Hfm).
    apply list_elem_of_In, elem_of_walk in Hv as (es & Hsub & Hkept & Hfiles).
    unfold visit_records in Hfm. apply in_flat_map in Hfm as ([name f] & Hnf & Hfm).
    rewrite Hfiles in Hnf. apply list_elem_of_In, elem_of_files_of in Hnf.
    apply list_elem_of_In in Hfm. by exists (v_parts v), es, name, f.
  - intros (parts & es & name & f & Hsub & Hkept & Hin & Hfm).
    exists {| v_parts := parts; v_files := files_of es |}. split.
    + apply list_elem_of_In, elem_of_walk. by exists es.
    + unfold visit_records. apply in_flat_map. exists (name, f).
      split; apply list_elem_of_In; [by apply elem_of_files_of | done].
Qed.

Lemma elem_of_records_of parts nf fm :
  fm ∈ records_of parts nf ->
  records_of parts nf = [fm]
  /\ PyStr.lower (PyPath.suffix (fst nf)) ∈ SUPPORTED_EXTENSIONS.
Proof.
  intros Hfm. destruct (records_of_spec parts nf) as (Hno & Hyes).
  destruct (decide (PyStr.lower (PyPath.suffix (fst nf)) ∈ SUPPORTED_EXTENSIONS))
    as [Hext|Hext].
  - split; [|done]. destruct (Hyes Hext) as (fm' & Hrec & _).
    rewrite Hrec in Hfm. apply list_elem_of_singleton in Hfm. by subst.
  - rewrite (Hno Hext) in Hfm. by apply elem_of_nil in Hfm.
Qed.

End Records.

End SnapshotFacts.

Module OrderFacts.
Import OrderSpec.

Lemma ascii_compare_refl (a : ascii) : Ascii.compare a a = Eq.
Proof. unfold Ascii.compare. apply N.compare_refl. Qed.

Lemma ascii_compare_trans (a b c : ascii) (o : comparison) :
  Ascii.compare a b = o -> Ascii.compare b c = o -> Ascii.compare a c = o.
Proof.
  unfold Ascii.compare. destruct o; intros Hab Hbc.
  - apply N.compare_eq_iff in Hab, Hbc. apply N.compare_eq_iff. congruence.
  - rewrite N.compare_lt_iff in *. lia.
  - rewrite N.compare_gt_iff in *. lia.
Qed.

Lemma string_compare_lt_trans (a b c : string) :
  String.compare a b = Lt -> String.compare b c = Lt -> String.compare a c = Lt.
Proof.
  revert b c. induction a as [|x a IH]; intros [|y b] [|z c]; simpl; try done.
  destruct (Ascii.compare x y) eqn:Hxy; [|idtac|done];
    destruct (Ascii.compare y z) eqn:Hyz; try done.
  - apply Ascii.compare_eq_iff in Hxy, Hyz. subst. rewrite ascii_compare_refl. apply IH.
  - apply Ascii.compare_eq_iff in Hxy. subst. by rewrite Hyz.
  - apply Ascii.compare_eq_iff in Hyz. subst. by rewrite Hxy.
  - by rewrite (ascii_compare_trans x y z Lt).
Qed.

Lemma str_le_refl a : str_le a a.
Proof.
  unfold str_le, String.leb.
  assert (String.compare a a = Eq) as ->; [|done].
  induction a as [|x a IH]; simpl; [done|]. by rewrite ascii_compare_refl.
Qed.

Lemma ltb_str_le a b : String.ltb a b = true -> str_le a b.
Proof. unfold str_le, String.ltb, String.leb. by destruct (String.compare a b). Qed.

Lemma not_ltb_str_le a b : String.ltb a b = false -> str_le b a.
Proof.
  unfold str_le, String.ltb, String.leb. rewrite (String.compare_antisym a b).
  by destruct (String.compare b a).
Qed.

Lemma str_le_cases a b : str_le a b <-> a = b \/ String.compare a b = Lt.
Proof.
  unfold str_le, String.leb. split.
  - destruct (String.compare a b) eqn:Hab; try done.
    + left. by apply String.compare_eq_iff.
    + by right.
  - intros [->|Hlt]; [apply str_le_refl | by rewrite Hlt].
Qed.

Lemma str_le_trans a b c : str_le a b -> str_le b c -> str_le a c.
Proof.
  rewrite !str_le_cases. intros [->|Hab] [->|Hbc]; auto.
  right. by eapply string_compare_lt_trans.
Qed.

Lemma insert_Permutation x l : PySorted.insert x l ≡ₚ x :: l.
Proof.
  induction l as [|y l IH]; simpl; [done|].
  destruct (String.ltb y x); [|done]. rewrite IH. apply Permutation_swap.
Qed.

Lemma sorted_Permutation l : PySorted.sorted l ≡ₚ l.
Proof.
  unfold PySorted.sorted. induction l as [|x l IH]; simpl; [done|].
  by rewrite insert_Permutation, IH.
Qed.

Lemma insert_sorted x l :
  StronglySorted str_le l -> StronglySorted str_le (PySorted.insert x l).
Proof.
  induction 1 as [|y l Hl IH Hy]; simpl; [repeat constructor|].
  destruct (String.ltb y x) eqn:Hyx.
  - constructor; [done|]. apply Forall_forall. intros z Hz.
    rewrite insert_Permutation in Hz. apply elem_of_cons in Hz as [->|Hz].
    + by apply ltb_str_le.
    + by eapply Forall_forall in Hy.
  - apply not_ltb_str_le in Hyx. constructor; [by constructor|].
    constructor; [done|]. eapply Forall_impl; [done|].
    simpl. intros z Hz. by eapply str_le_trans.
Qed.

Lemma sorted_sorted l : StronglySorted str_le (PySorted.sorted l).
Proof.
  unfold PySorted.sorted. induction l as [|x l IH]; simpl; [constructor|].
  by apply insert_sorted.
Qed.

(** [sorted] of a list without repetition is ascending and has the same
    entries. *)
Lemma sorted_ascending l : NoDup l -> ascending (PySorted.sorted l).
Proof. intros Hl. split; [apply sorted_sorted | by rewrite sorted_Permutation]. Qed.

Lemma sorted_elements_ascending (X : gset string) :
  ascending (PySorted.sorted (elements X)).
Proof. apply sorted_ascending, NoDup_elements. Qed.

Lemma length_sorted l : length (PySorted.sorted l) = length l.
Proof. by rewrite sorted_Permutation. Qed.

(** An ascending list is determined by its entries. *)
Lemma ascending_unique l1 l2 :
  ascending l1 -> ascending l2 -> (forall x, x ∈ l1 <-> x ∈ l2) -> l1 = l2.
Proof.
  intros [Hs1 Hd1] [Hs2 Hd2] Hin.
  assert (l1 ≡ₚ l2) as Hperm by by apply NoDup_Permutation.
  assert (AntiSymm eq str_le) as Hanti.
  { intros a b Hab Hba. by apply String.leb_antisym. }
  assert (Reflexive str_le) as Hrefl by (intros a; apply str_le_refl).
  assert (Transitive str_le) as Htrans by (intros a b c; apply str_le_trans).
  by eapply (StronglySorted_unique str_le).
Qed.

End OrderFacts.

Module DiffFacts.
Import Models Comparator OrderSpec.

Lemma dom_by_path_set (m : CodebaseMetadata) : dom (by_path (files m)) = path_set m.
Proof. apply ComparatorFacts.dom_by_path. Qed.

Section Structures.
Variables base candidate : CodebaseMetadata.
Local Abbreviation changes := (_compare_file_structures base candidate).
Local Abbreviation modified_at :=
  (path_modified (by_path (files base)) (by_path (files candidate))).

Lemma elem_of_fc_added p :
  p ∈ fc_added changes <-> p ∈ path_set candidate /\ p ∉ path_set base.
Proof.
  cbn [fc_added _compare_file_structures].
  rewrite SortedFacts.elem_of_sorted, elem_of_elements, !dom_by_path_set. set_solver.
Qed.

Lemma elem_of_fc_removed p :
  p ∈ fc_removed changes <-> p ∈ path_set base /\ p ∉ path_set candidate.
Proof.
  cbn [fc_removed _compare_file_structures].
  rewrite SortedFacts.elem_of_sorted, elem_of_elements, !dom_by_path_set. set_solver.
Qed.

Lemma elem_of_fc_modified p :
  p ∈ fc_modified changes
  <-> p ∈ path_set base /\ p ∈ path_set candidate /\ modified_at p = true.
Proof.
  cbn [fc_modified _compare_file_structures].
  rewrite SortedFacts.elem_of_sorted, list_elem_of_In, filter_In, <- list_elem_of_In.
  rewrite elem_of_elements, !dom_by_path_set. set_solver.
Qed.

Lemma elem_of_fc_unchanged p :
  p ∈ fc_unchanged changes
  <-> p ∈ path_set base /\ p ∈ path_set candidate /\ modified_at p = false.
Proof.
  cbn [fc_unchanged _compare_file_structures].
  rewrite SortedFacts.elem_of_sorted, list_elem_of_In, filter_In, <- list_elem_of_In.
  rewrite elem_of_elements, !dom_by_path_set, negb_true_iff. set_solver.
Qed.

Lemma NoDup_stdlib_filter {A} (p : A -> bool) (l : list A) :
  NoDup l -> NoDup (List.filter p l).
Proof.
  induction 1 as [|x l Hx Hl IH]; simpl; [constructor|].
  destruct (p x); [|done]. constructor; [|done].
  rewrite list_elem_of_In, filter_In, <- list_elem_of_In. tauto.
Qed.

Lemma ascending_changes :
  ascending (fc_added changes) /\ ascending (fc_removed changes)
  /\ ascending (fc_modified changes) /\ ascending (fc_unchanged changes).
Proof.
  cbn [fc_added fc_removed fc_modified fc_unchanged _compare_file_structures].
  repeat split; try apply OrderFacts.sorted_sorted;
    rewrite OrderFacts.sorted_Permutation;
    try apply NoDup_stdlib_filter; apply NoDup_elements.
Qed.

Lemma length_filter_split {A} (p : A -> bool) (l : list A) :
  (length (List.filter p l) + length (List.filter (fun x => negb (p x)) l))%nat = length l.
Proof. induction l as [|x l IH]; simpl; [done|]. destruct (p x); simpl; lia. Qed.

Lemma length_changes :
  (length (fc_added changes) + length (fc_removed changes)
   + length (fc_modified changes) + length (fc_unchanged changes))%nat
  = size (path_set base ∪ path_set candidate).
Proof.
  cbn [fc_added fc_removed fc_modified fc_unchanged _compare_file_structures].
  rewrite !OrderFacts.length_sorted, <- Nat.add_assoc, length_filter_split.
  rewrite !dom_by_path_set.
  change (length (elements ?X)) with (size X).
  generalize (path_set base) (path_set candidate). intros A B.
  rewrite <- !size_union by set_solver. f_equal. apply set_eq. intros x.
  destruct (decide (x ∈ A)), (decide (x ∈ B)); set_solver.
Qed.

End Structures.

(** ** Exchanging the two snapshots *)

Lemma is_modified_sym f g : is_modified f g = is_modified g f.
Proof.
  unfold is_modified. rewrite (andb_comm (has_hash (content_hash g))).
  destruct (_ && _).
  - f_equal. apply bool_decide_ext. split; congruence.
  - f_equal. apply Z.eqb_sym.
Qed.

Lemma path_modified_sym files1 files2 p :
  path_modified files1 files2 p = path_modified files2 files1 p.
Proof.
  unfold path_modified. destruct (files1 !! p), (files2 !! p); try done.
  apply is_modified_sym.
Qed.

Lemma _compare_file_structures_swap base candidate :
  let forth := _compare_file_structures base candidate in
  let back := _compare_file_structures candidate base in
  fc_added back = fc_removed forth /\ fc_removed back = fc_added forth
  /\ fc_modified back = fc_modified forth /\ fc_unchanged back = fc_unchanged forth.
Proof.
  cbn [fc_added fc_removed fc_modified fc_unchanged _compare_file_structures].
  split; [done|]. split; [done|].
  rewrite (comm_L (∩) (dom (by_path (files candidate)))).
  split; f_equal; apply filter_ext; intros p; by rewrite path_modified_sym.
Qed.

Lemma _compare_metrics_swap base candidate :
  let forth := _compare_metrics base candidate in
  let back := _compare_metrics candidate base in
  mc_size_change back = - mc_size_change forth
  /\ mc_lines_change back = - mc_lines_change forth
  /\ mc_classes_change back = - mc_classes_change forth
  /\ mc_functions_change back = - mc_functions_change forth.
Proof. simpl. lia. Qed.

Lemma _compare_dependencies_swap base candidate :
  let forth := _compare_dependencies base candidate in
  let back := _compare_dependencies candidate base in
  dc_added back = dc_removed forth /\ dc_removed back = dc_added forth
  /\ dc_new_circular back = dc_resolved_circular forth
  /\ dc_resolved_circular back = dc_new_circular forth.
Proof. unfold _compare_dependencies. by destruct (dependencies base), (dependencies candidate). Qed.

Lemma _calculate_similarity_swap base candidate :
  _calculate_similarity candidate base = _calculate_similarity base candidate.
Proof.
  unfold _calculate_similarity.
  rewrite (andb_comm (bool_decide (length (files candidate) = 0%nat))).
  rewrite (orb_comm (bool_decide (length (files candidate) = 0%nat))).
  assert (path_set candidate ∩ path_set base = path_set base ∩ path_set candidate) as ->
    by set_solver.
  assert (path_set candidate ∪ path_set base = path_set base ∪ path_set candidate) as ->
    by set_solver.
  done.
Qed.

(** ** The score at its ends *)

Lemma _calculate_similarity_equal_paths base candidate :
  path_set base = path_set candidate ->
  _calculate_similarity base candidate = PyFloat.of_Z 1.
Proof.
  intros Heq.
  destruct (ComparatorFacts._calculate_similarity_cases base candidate)
    as (Hboth & _ & _ & Hratio).
  destruct (decide (path_set base = ∅)) as [Hempty|Hne].
  - apply Hboth; congruence.
  - destruct Hratio as (-> & Hsize); [done | congruence|].
    rewrite <- Heq in Hsize. rewrite <- Heq.
    rewrite union_idemp_L in Hsize.
    assert (path_set base ∪ path_set base = path_set base) as -> by set_solver.
    assert (path_set base ∩ path_set base = path_set base) as -> by set_solver.
    rewrite FloatFacts.truediv_same by lia. by vm_compute.
Qed.

Lemma truediv_zero (n : Z) : PyFloat.truediv 0 n = PyFloat.of_Z 0.
Proof. done. Qed.

Lemma _calculate_similarity_disjoint_paths base candidate :
  path_set base ## path_set candidate ->
  path_set base <> ∅ \/ path_set candidate <> ∅ ->
  _calculate_similarity base candidate = PyFloat.of_Z 0.
Proof.
  intros Hdisj Hsome.
  destruct (ComparatorFacts._calculate_similarity_cases base candidate)
    as (_ & Hleft & Hright & Hratio).
  destruct (decide (path_set base = ∅)) as [HA|HA];
    destruct (decide (path_set candidate = ∅)) as [HB|HB].
  - by destruct Hsome.
  - by apply Hleft.
  - by apply Hright.
  - destruct Hratio as (-> & _); [done | done|].
    assert (path_set base ∩ path_set candidate = ∅) as -> by set_solver.
    rewrite size_empty. simpl. by rewrite truediv_zero.
Qed.

(** ** Dependencies *)

Lemma _compare_dependencies_packages base candidate base_deps candidate_deps :
  dependencies base = Some base_deps -> dependencies candidate = Some candidate_deps ->
  let changes := _compare_dependencies base candidate in
  (forall x, x ∈ dc_added changes
             <-> x ∈ external_packages candidate_deps /\ x ∉ external_packages base_deps)
  /\ (forall x, x ∈ dc_removed changes
                <-> x ∈ external_packages base_deps /\ x ∉ external_packages candidate_deps)
  /\ (forall c, c ∈ dc_new_circular changes
                <-> c ∈ circular_dependencies candidate_deps
                    /\ c ∉ circular_dependencies base_deps)
  /\ (forall c, c ∈ dc_resolved_circular changes
                <-> c ∈ circular_dependencies base_deps
                    /\ c ∉ circular_dependencies candidate_deps)
  /\ ascending (dc_added changes) /\ ascending (dc_removed changes)
  /\ NoDup (dc_new_circular changes) /\ NoDup (dc_resolved_circular changes).
Proof.
  intros Hb Hc. unfold _compare_dependencies. rewrite Hb, Hc.
  cbn [dc_added dc_removed dc_new_circular dc_resolved_circular].
  split; [|split; [|split; [|split]]].
  - intros x. rewrite SortedFacts.elem_of_sorted, elem_of_elements. set_solver.
  - intros x. rewrite SortedFacts.elem_of_sorted, elem_of_elements. set_solver.
  - intros c. rewrite elem_of_elements. set_solver.
  - intros c. rewrite elem_of_elements. set_solver.
  - split; [apply OrderFacts.sorted_elements_ascending|].
    split; [apply OrderFacts.sorted_elements_ascending|].
    split; apply NoDup_elements.
Qed.

End DiffFacts.

Module SummaryFacts.
Import Models Comparator SummarySpec.








End SummaryFacts.

Module RouteFacts.
Import GraphRoutes.

Section WithRuntime.
Context `{PyRuntime}.

Lemma serve_lookup cache disk r upload_id :
  serve cache (disk, r) !! upload_id = cache !! upload_id
  \/ (r = ClearCache upload_id /\ serve cache (disk, r) !! upload_id = None)
  \/ (cache !! upload_id = None
      /\ (r = GetGraph upload_id \/ exists file_path, r = GetFile upload_id file_path)
      /\ exists upload_dir graph_data b,
           disk !! upload_id = Some upload_dir
           /\ DependencyGraph.build_graph upload_dir upload_id DependencyGraph.new_builder
              = DependencyGraph.Ok graph_data b
           /\ serve cache (disk, r) !! upload_id = Some graph_data).
Proof.
  destruct r as [id|id file_path|id]; unfold serve; cbn [fst snd].
  - unfold get_dependency_graph.
    destruct (cache !! id) as [cached|] eqn:Hcache; cbn [snd]; [by left|].
    destruct (disk !! id) as [upload_dir|] eqn:Hdisk; cbn [snd]; [|by left].
    destruct (DependencyGraph.build_graph upload_dir id DependencyGraph.new_builder)
      as [graph_data b| |] eqn:Hbuild; cbn [snd]; [|by left|by left].
    destruct (decide (id = upload_id)) as [->|Hne].
    + right. right. split; [done|]. split; [by left|].
      exists upload_dir, graph_data, b. split; [done|]. split; [done|].
      apply (lookup_insert_eq (M := gmap string)).
    + left. by apply (lookup_insert_ne (M := gmap string)).
  - unfold get_file_dependencies.
    destruct (disk !! id) as [upload_dir|] eqn:Hdisk; cbn [snd]; [|by left].
    destruct (DependencyGraph.build_graph upload_dir id DependencyGraph.new_builder)
      as [graph_data b| |] eqn:Hbuild; cbn [snd]; [|by left|by left].
    cbn [DependencyGraph.get_file_dependencies snd].
    destruct (cache !! id) as [cached|] eqn:Hcache; [by left|].
    destruct (decide (id = upload_id)) as [->|Hne].
    + right. right. split; [done|]. split; [right; by exists file_path|].
      exists upload_dir, graph_data, b. split; [done|]. split; [done|].
      apply (lookup_insert_eq (M := gmap string)).
    + left. by apply (lookup_insert_ne (M := gmap string)).
  - unfold clear_graph_cache.
    destruct (cache !! id) as [cached|] eqn:Hcache; cbn [snd]; [|by left].
    destruct (decide (id = upload_id)) as [->|Hne].
    + right. left. split; [done|]. apply (lookup_delete_eq (M := gmap string)).
    + left. by apply (lookup_delete_ne (M := gmap string)).
Qed.

(** Whatever the cache holds after a sequence of requests was there before
    or was built, on a new builder, from a tree one of the requests met. *)
Lemma serve_all_provenance cache steps upload_id graph_data :
  serve_all cache steps !! upload_id = Some graph_data ->
  cache !! upload_id = Some graph_data \/ built_from steps upload_id graph_data.
Proof.
  unfold serve_all. revert cache.
  induction steps as [|[disk r] steps IH] using rev_ind; intros cache; [by left|].
  rewrite foldl_app. cbn [foldl]. intros Hlookup.
  destruct (serve_lookup (foldl serve cache steps) disk r upload_id)
    as [Hsame|[(_ & Hnone)|(_ & _ & upload_dir & data & b & Hdisk & Hbuild & Hnew)]].
  - rewrite Hsame in Hlookup. destruct (IH cache Hlookup) as [?|Hbuilt]; [by left|].
    right. destruct Hbuilt as (disk' & r' & upload_dir & b & Hin & Hrest).
    exists disk', r', upload_dir, b. split; [|done]. apply elem_of_app. by left.
  - congruence.
  - right. exists disk, r, upload_dir, b.
    split; [apply elem_of_app; right; apply list_elem_of_here|].
    split; [done|]. congruence.
Qed.

(** An entry stays as it is until the cache of its upload is cleared. *)
Lemma serve_all_keeps cache steps upload_id graph_data :
  cache !! upload_id = Some graph_data ->
  (forall disk, (disk, ClearCache upload_id) ∉ steps) ->
  serve_all cache steps !! upload_id = Some graph_data.
Proof.
  unfold serve_all. revert cache.
  induction steps as [|[disk r] steps IH]; intros cache Hcached Hkept; [done|].
  cbn [foldl]. apply IH.
  - destruct (serve_lookup cache disk r upload_id)
      as [Hsame|[(-> & _)|(Hnone & _)]]; [congruence| |congruence].
    exfalso. apply (Hkept disk), list_elem_of_here.
  - intros disk' Hin. apply (Hkept disk'). by apply list_elem_of_further.
Qed.

End WithRuntime.
End RouteFacts.

Module GlobFacts.
Import DependencyGraph GlobSpec SnapshotSpec.

Lemma glob_py_from_Dir path es :
  PyPath.glob_py_from path (Dir es)
  = List.map (fun ne => (PyPath.child path (fst ne), snd ne))
             (List.filter (fun ne => PyPath.endswith (fst ne) ".py") es)
    ++ List.flat_map (fun nx => PyPath.glob_py_from (PyPath.child path (fst nx)) (snd nx)) es.
Proof.
  cbn [PyPath.glob_py_from]. f_equal. induction es as [|[n x] es IH]; [done|].
  cbn [List.flat_map fst snd]. by rewrite IH.
Qed.

Lemma glob_py_from_sound path e p x :
  (p, x) ∈ PyPath.glob_py_from path e -> python_entry e path p x.
Proof.
  revert path. induction e as [f|es IH] using ReachFacts.fs_entry_nested_ind;
    intros path; [by intros ?%elem_of_nil|].
  rewrite glob_py_from_Dir, elem_of_app. intros [Hin|Hin].
  - apply list_elem_of_In, in_map_iff in Hin as ([name y] & [= <- <-] & Hname).
    apply filter_In in Hname as [Hin Hpy]. cbn [fst snd] in *.
    exists [], es, name. split; [constructor|]. split; [by apply list_elem_of_In|]. done.
  - apply list_elem_of_In, in_flat_map in Hin as ([d y] & Hdy & Hin). cbn [fst snd] in Hin.
    apply list_elem_of_In in Hdy, Hin. rewrite Forall_forall in IH.
    destruct (IH (d, y) Hdy (PyPath.child path d) Hin)
      as (parts & es' & name & Hsub & Hname & Hpy & ->).
    exists (d :: parts), es', name. split; [by econstructor|]. done.
Qed.

Lemma glob_py_from_complete path e p x :
  python_entry e path p x -> (p, x) ∈ PyPath.glob_py_from path e.
Proof.
  intros (parts & es & name & Hsub & Hname & Hpy & ->). revert path.
  induction Hsub as [es|es d y parts es' Hdy Hsub IH]; intros path;
    rewrite glob_py_from_Dir, elem_of_app.
  - left. apply list_elem_of_In, in_map_iff. exists (name, x). split; [done|].
    apply filter_In. split; [by apply list_elem_of_In | done].
  - right. apply list_elem_of_In, in_flat_map. exists (d, y).
    split; [by apply list_elem_of_In|]. apply list_elem_of_In. by apply IH.
Qed.

(** [glob("**/*.py")] finds the entries named [*.py] of every directory
    of the tree. *)
Lemma elem_of_glob_py upload_dir p x :
  (p, x) ∈ PyPath.glob_py upload_dir <-> python_entry (Dir upload_dir) EmptyString p x.
Proof. split; [apply glob_py_from_sound | apply glob_py_from_complete]. Qed.

End GlobFacts.

Module PercentFacts.
Import Comparator.

Lemma percent_change_no_base change total :
  total <= 0 -> percent_change change total = PyFloat.of_Z 0.
Proof.
  intros Htotal. unfold percent_change.
  by rewrite (proj2 (Z.ltb_ge 0 total) Htotal).
Qed.

Lemma percent_change_none total : percent_change 0 total = PyFloat.of_Z 0.
Proof. unfold percent_change. by destruct (0 <? total). Qed.

Lemma percent_change_all total :
  0 < total -> percent_change total total = PyFloat.of_Z 100.
Proof.
  intros Htotal. unfold percent_change.
  rewrite (proj2 (Z.ltb_lt 0 total) Htotal), FloatFacts.truediv_same by done.
  by vm_compute.
Qed.

Lemma truediv_opposite total :
  0 < total -> PyFloat.truediv (- total) total = PyFloat.of_Z (-1).
Proof.
  intros Htotal. unfold PyFloat.truediv, PyFloat.of_Z, PyFloat.of_Q. f_equal.
  - simpl. apply Z.ltb_lt. lia.
  - apply FloatFacts.round_binary64_proper. unfold Qabs, Qeq. simpl.
    rewrite Z2Pos.id by done. lia.
Qed.

Lemma percent_change_nothing_left total :
  0 < total -> percent_change (- total) total = PyFloat.of_Z (-100).
Proof.
  intros Htotal. unfold percent_change.
  rewrite (proj2 (Z.ltb_lt 0 total) Htotal), truediv_opposite by done.
  by vm_compute.
Qed.

End PercentFacts.

Module MetadataRouteFacts.
Import MetadataRoutes.

Section WithRuntime.
Context `{PyRuntime}.

Lemma get_codebase_metadata_other disk id refresh cache upload_id :
  id <> upload_id ->
  snd (get_codebase_metadata disk id refresh cache) !! upload_id = cache !! upload_id.
Proof.
  intros Hne. unfold get_codebase_metadata.
  destruct refresh, (cache !! id), (disk !! id); cbn [snd]; try done;
    by apply (lookup_insert_ne (M := gmap string)).
Qed.

Lemma compare_codebases_other disk base_upload_id compare_upload_id now cache upload_id :
  base_upload_id <> upload_id -> compare_upload_id <> upload_id ->
  snd (compare_codebases disk base_upload_id compare_upload_id now cache) !! upload_id
  = cache !! upload_id.
Proof.
  intros Hbase Hcompare. unfold compare_codebases.
  pose proof (get_codebase_metadata_other disk base_upload_id true cache upload_id Hbase)
    as Hfirst.
  destruct (get_codebase_metadata disk base_upload_id true cache) as [[base_metadata| |] c1];
    cbn [snd] in *; [|done|done].
  pose proof (get_codebase_metadata_other disk compare_upload_id true c1 upload_id Hcompare)
    as Hsecond.
  destruct (get_codebase_metadata disk compare_upload_id true c1)
    as [[compare_metadata| |] c2]; cbn [snd] in *; congruence.
Qed.

Lemma entry_kept_by_request cache disk r upload_id metadata :
  cache !! upload_id = Some metadata -> ~ renews upload_id r ->
  serve cache (disk, r) !! upload_id = Some metadata.
Proof.
  intros Hcached Hr.
  destruct r as [id refresh|base_upload_id compare_upload_id now| |id];
    unfold serve; cbn [fst snd]; cbn [renews] in Hr.
  - destruct (decide (id = upload_id)) as [->|Hne].
    + destruct refresh; [by exfalso; apply Hr|].
      unfold get_codebase_metadata. by rewrite Hcached.
    + by rewrite get_codebase_metadata_other.
  - rewrite compare_codebases_other;
      [done | intros ->; apply Hr; by left | intros ->; apply Hr; by right].
  - done.
  - unfold clear_metadata_cache. destruct (cache !! id) eqn:Hid; cbn [snd]; [|done].
    etrans; [apply (lookup_delete_ne (M := gmap string)); congruence | done].
Qed.

Lemma entry_kept_by_requests cache steps upload_id metadata :
  cache !! upload_id = Some metadata -> untouched upload_id steps ->
  serve_all cache steps !! upload_id = Some metadata.
Proof.
  unfold serve_all, untouched. revert cache.
  induction steps as [|[disk r] steps IH]; intros cache Hcached Hsteps; [done|].
  apply Forall_cons in Hsteps as [Hr Hsteps]. cbn [foldl]. apply IH; [|done].
  by apply entry_kept_by_request.
Qed.

Lemma compare_codebases_found disk base_upload_id compare_upload_id now cache
    base_dir compare_dir :
  disk !! base_upload_id = Some base_dir -> disk !! compare_upload_id = Some compare_dir ->
  let base_metadata :=
    fst (MetadataBuilder.build_metadata (up_tree base_dir) (up_info base_dir)
           base_upload_id MetadataBuilder.reset) in
  let compare_metadata :=
    fst (MetadataBuilder.build_metadata (up_tree compare_dir) (up_info compare_dir)
           compare_upload_id MetadataBuilder.reset) in
  compare_codebases disk base_upload_id compare_upload_id now cache
  = (GraphRoutes.Http200
       (fst (Comparator.compare base_metadata compare_metadata now
               Comparator.new_comparator)),
     <[ compare_upload_id := compare_metadata ]>
       (<[ base_upload_id := base_metadata ]> cache)).
Proof.
  intros Hbase Hcompare. unfold compare_codebases, get_codebase_metadata.
  by rewrite Hbase, Hcompare.
Qed.

End WithRuntime.
End MetadataRouteFacts.

Module TriangleFacts.
Import DependencyGraph.

Section Detector.
Variable adjacency : pydict (list string).

Lemma dfs_unfold fuel node path st :
  dfs adjacency (S fuel) node path st
  = match dfs_neighbors (dfs adjacency fuel) (path ++ [node])
            (neighbors adjacency node) (enter node st) with
    | Ok false st' => Ok false (leave node st')
    | r => r
    end.
Proof. done. Qed.

Lemma dfs_neighbors_descend call path neighbor rest st :
  neighbor ∉ visited st ->
  dfs_neighbors call path (neighbor :: rest) st
  = match call neighbor path st with
    | Ok true st' => Ok true st'
    | Ok false st' => dfs_neighbors call path rest st'
    | Raise e st' => Raise e st'
    | OutOfFuel => OutOfFuel
    end.
Proof. intros Hv. cbn [dfs_neighbors]. by rewrite decide_False. Qed.

Lemma dfs_neighbors_met call path neighbor rest st i :
  neighbor ∈ visited st -> neighbor ∈ rec_stack st -> index_of neighbor path = Some i ->
  dfs_neighbors call path (neighbor :: rest) st
  = Ok true (record_cycle (drop i path ++ [neighbor]) st).
Proof.
  intros Hv Hr Hi. cbn [dfs_neighbors].
  rewrite decide_True by done. rewrite decide_True by done. by rewrite Hi.
Qed.

Lemma dfs_roots_visited fuel roots st :
  Forall (fun node => node ∈ visited st) roots ->
  dfs_roots adjacency fuel roots st = Ok tt st.
Proof.
  induction 1 as [|node roots Hnode _ IH]; [done|].
  cbn [dfs_roots]. by rewrite decide_True.
Qed.

(** The traversal of a triangle from one of its files: the third call meets
    the first file again. *)
Lemma triangle_dfs x y z fuel st :
  x <> y -> y <> z -> x <> z ->
  neighbors adjacency x = [y] -> neighbors adjacency y = [z] ->
  neighbors adjacency z = [x] ->
  visited st = ∅ ->
  dfs adjacency (S (S (S fuel))) x [] st
  = Ok true (record_cycle [x; y; z; x] (enter z (enter y (enter x st)))).
Proof.
  intros Hxy Hyz Hxz Hx Hy Hz Hfresh.
  assert (dfs adjacency (S fuel) z [x; y] (enter y (enter x st))
          = Ok true (record_cycle [x; y; z; x] (enter z (enter y (enter x st))))) as Hthird.
  { rewrite dfs_unfold, Hz. cbn [app].
    by rewrite (dfs_neighbors_met _ _ _ _ _ 0%nat)
      by (cbn; rewrite ?decide_True by done; (done || set_solver)). }
  assert (dfs adjacency (S (S fuel)) y [x] (enter x st)
          = Ok true (record_cycle [x; y; z; x] (enter z (enter y (enter x st))))) as Hsecond.
  { rewrite dfs_unfold, Hy. cbn [app].
    rewrite dfs_neighbors_descend by (cbn; rewrite Hfresh; set_solver).
    by rewrite Hthird. }
  rewrite dfs_unfold, Hx. cbn [app].
  rewrite dfs_neighbors_descend by (cbn; rewrite Hfresh; set_solver).
  by rewrite Hsecond.
Qed.

Lemma triangle_roots x y z fuel roots found :
  x <> y -> y <> z -> x <> z ->
  neighbors adjacency x = [y] -> neighbors adjacency y = [z] ->
  neighbors adjacency z = [x] ->
  Forall (fun node => node ∈ [x; y; z]) roots ->
  exists st,
    dfs_roots adjacency (S (S (S fuel))) (x :: roots)
              {| visited := ∅; rec_stack := ∅; cycles := found |} = Ok tt st
    /\ cycles st = found ++ [[x; y; z; x]].
Proof.
  intros Hxy Hyz Hxz Hx Hy Hz Hroots.
  set (st := {| visited := ∅; rec_stack := ∅; cycles := found |}).
  exists (record_cycle [x; y; z; x] (enter z (enter y (enter x st)))).
  split; [|done]. cbn [dfs_roots]. rewrite decide_False by (cbn; set_solver).
  rewrite (triangle_dfs x y z) by done.
  apply dfs_roots_visited. eapply Forall_impl; [exact Hroots|].
  intros node Hnode. cbn. set_solver.
Qed.

End Detector.

Section Triangle.
Variables A B C : string.
Hypothesis HAB : A <> B.
Hypothesis HBC : B <> C.
Hypothesis HAC : A <> C.

Lemma triangle_neighbors (adjacency : pydict (list string)) :
  adjacency ≡ₚ [(A, [B]); (B, [C]); (C, [A])] ->
  PyDict.keys adjacency ≡ₚ [A; B; C]
  /\ neighbors adjacency A = [B] /\ neighbors adjacency B = [C]
  /\ neighbors adjacency C = [A].
Proof.
  intros Hperm.
  assert (PyDict.keys adjacency ≡ₚ [A; B; C]) as Hkeys.
  { unfold PyDict.keys. by rewrite Hperm. }
  assert (NoDup (PyDict.keys adjacency)) as Hnodup.
  { rewrite Hkeys. repeat (apply NoDup_cons; split; [set_solver|]). apply NoDup_nil_2. }
  split; [done|]. unfold neighbors.
  split; [|split];
    (erewrite DataFacts.elem_of_get_Some; [reflexivity | done | rewrite Hperm; set_solver]).
Qed.

Lemma triangle_fuel (adjacency : pydict (list string)) :
  PyDict.keys adjacency ≡ₚ [A; B; C] ->
  exists fuel, enough_fuel adjacency = S (S (S fuel)).
Proof.
  intros Hkeys. unfold enough_fuel.
  assert (size (list_to_set [A; B; C] : gset string) <= size (all_nodes adjacency))%nat
    as Hsize.
  { apply subseteq_size. intros x Hx. apply elem_of_list_to_set in Hx.
    unfold all_nodes. apply elem_of_list_to_set, elem_of_app. left. by rewrite Hkeys. }
  rewrite size_list_to_set in Hsize
    by (repeat (apply NoDup_cons; split; [set_solver|]); apply NoDup_nil_2).
  cbn in Hsize. destruct (size (all_nodes adjacency)) as [|[|n]]; [lia|lia|by exists n].
Qed.

(** The detector on a triangle, whatever the order of the keys: the cycle
    is written from the file whose key comes first. *)
Lemma detect_triangle (adjacency : pydict (list string)) found :
  adjacency ≡ₚ [(A, [B]); (B, [C]); (C, [A])] ->
  exists st cycle,
    detect adjacency found = Ok tt st
    /\ cycles st = found ++ [cycle]
    /\ cycle ∈ [[A; B; C; A]; [B; C; A; B]; [C; A; B; C]].
Proof.
  intros Hperm. destruct (triangle_neighbors adjacency Hperm) as (Hkeys & HA & HB & HC).
  destruct (triangle_fuel adjacency Hkeys) as [fuel Hfuel].
  unfold detect. rewrite Hfuel.
  destruct (PyDict.keys adjacency) as [|first roots] eqn:Hk.
  { symmetry in Hkeys. by apply Permutation_nil_r in Hkeys. }
  assert (first ∈ [A; B; C]) as Hfirst by (rewrite <- Hkeys; left).
  assert (forall x y z, [x; y; z] ≡ₚ [A; B; C] ->
                        Forall (fun node => node ∈ [x; y; z]) roots) as Hroots.
  { intros x y z Hxyz. apply Forall_forall. intros node Hnode.
    rewrite Hxyz, <- Hkeys. by right. }
  apply elem_of_cons in Hfirst as [->|Hfirst];
    [|apply elem_of_cons in Hfirst as [->|Hfirst];
      [|apply list_elem_of_singleton in Hfirst as ->]].
  - destruct (triangle_roots adjacency A B C fuel roots found) as (st & Hrun & Hst);
      try done; [by apply Hroots|].
    exists st, [A; B; C; A]. split; [done|]. split; [done|]. set_solver.
  - destruct (triangle_roots adjacency B C A fuel roots found) as (st & Hrun & Hst);
      try done; [apply Hroots, (Permutation_app_comm [B; C] [A])|].
    exists st, [B; C; A; B]. split; [done|]. split; [done|]. set_solver.
  - destruct (triangle_roots adjacency C A B fuel roots found) as (st & Hrun & Hst);
      try done; [apply Hroots, (Permutation_app_comm [C] [A; B])|].
    exists st, [C; A; B; C]. split; [done|]. split; [done|]. set_solver.
Qed.

Lemma triangle_members (cycle : list string) :
  cycle ∈ [[A; B; C; A]; [B; C; A; B]; [C; A; B; C]] ->
  list_to_set cycle = ({[ A; B; C ]} : gset string).
Proof.
  intros Hc. repeat (apply elem_of_cons in Hc as [->|Hc]); [..|by apply elem_of_nil in Hc];
    cbn; set_solver.
Qed.

Lemma adjacency_of_triangle (dd : pydict (gset string)) :
  dd ≡ₚ [(A, {[ B ]}); (B, {[ C ]}); (C, {[ A ]})] ->
  adjacency_of dd ≡ₚ [(A, [B]); (B, [C]); (C, [A])].
Proof.
  intros Hperm. unfold adjacency_of.
  etrans; [apply Permutation_map, Hperm|]. cbn [List.map fst snd].
  by rewrite !elements_singleton.
Qed.

Lemma _detect_circular_dependencies_triangle b :
  graph b ≡ₚ [(A, {[ B ]}); (B, {[ C ]}); (C, {[ A ]})] ->
  exists cycle,
    _detect_circular_dependencies b
      = Ok tt (with_circular_deps b (circular_deps b ++ [cycle]))
    /\ cycle ∈ [[A; B; C; A]; [B; C; A; B]; [C; A; B; C]].
Proof.
  intros Hperm%adjacency_of_triangle.
  destruct (detect_triangle _ (circular_deps b) Hperm) as (st & cycle & Hrun & Hst & Hc).
  exists cycle. split; [|done]. unfold _detect_circular_dependencies.
  by rewrite Hrun, Hst.
Qed.

End Triangle.
End TriangleFacts.


(* ===================================================================== *)
(** * The properties of the specification *)
(* ===================================================================== *)

Import DependencyGraph.

(** C1.  In every state [build_graph] can leave a builder in, whether the
    calls returned or raised, the reverse adjacency is the exact transpose of
    the forward adjacency: [target] is in [graph[source]] if and only if
    [source] is in [reverse_graph[target]]. *)
Theorem C1_reverse_is_transpose `{PyRuntime} (b : Builder) :
  GraphSpec.reachable b ->
  forall source target : string,
    target ∈ dd_get source (graph b) <-> source ∈ dd_get target (reverse_graph b).
Proof. intros Hb. by apply GraphFacts.reachable_transposed. Qed.

Lemma C1_witness :
  "b.py" ∈ dd_get "a.py" (graph Example.chain_builder)
  <-> "a.py" ∈ dd_get "b.py" (reverse_graph Example.chain_builder).
Proof.
  apply (C1_reverse_is_transpose (H := Example.runtime)).
  apply (ReachFacts.reachable_state_after (H := Example.runtime)).
  apply GraphSpec.reach_new.
Defined.

(** C4.  Registration maps the dotted name of a file to it and enters every
    right-aligned suffix of that name unless the suffix is already a key, so
    that after a scan a name stands for the last file whose dotted name it is
    and otherwise for the first file that has it as a suffix.  Resolution
    returns the direct match if there is one; otherwise it drops trailing
    components of the token and returns the entry of the longest prefix that
    is a key; otherwise the token is unresolved. *)
Theorem C4_registration_and_resolution :
  (* the dotted name and its right-aligned suffixes *)
  (module_name_of "app/services/parser.py" = "app.services.parser"
   /\ ResolverSpec.suffix_names "app.services.parser"
      = ["app.services.parser"; "services.parser"; "parser"])
  (* registering one file *)
  /\ (forall module_map file_path key,
        register_file module_map file_path !! key
        = if decide (key = module_name_of file_path) then Some file_path
          else match module_map !! key with
               | Some first_registered => Some first_registered
               | None =>
                   if decide (key ∈ ResolverSpec.suffix_names (module_name_of file_path))
                   then Some file_path else None
               end)
  (* the mapping of a whole scan *)
  /\ (forall b key,
        _build_module_mapping b !! key
        = ResolverSpec.registered (PyDict.keys (files_data b)) key)
  /\ (foldl register_file ∅ Example.collision !! "c" = Some "a/b/c.py"
      /\ foldl register_file ∅ (rev Example.collision) !! "c" = Some "x/c.py")
  (* resolution: the direct match *)
  /\ (forall import_name source_file module_map f,
        module_map !! import_name = Some f ->
        _resolve_import import_name source_file module_map = Some f)
  (* resolution: the longest prefix that is a key *)
  /\ (forall import_name source_file module_map f,
        module_map !! import_name = None ->
        (_resolve_import import_name source_file module_map = Some f
         <-> exists i, (1 <= i <= ResolverSpec.components import_name)%nat
               /\ module_map !! ResolverSpec.token_prefix import_name i = Some f
               /\ forall j, (i < j <= ResolverSpec.components import_name)%nat ->
                            module_map !! ResolverSpec.token_prefix import_name j = None))
  (* resolution: unresolved *)
  /\ (forall import_name source_file module_map,
        _resolve_import import_name source_file module_map = None
        <-> module_map !! import_name = None
            /\ forall i, (1 <= i <= ResolverSpec.components import_name)%nat ->
                         module_map !! ResolverSpec.token_prefix import_name i = None).
Proof.
  split; [by vm_compute|].
  split; [apply ResolverFacts.register_file_lookup|].
  split; [intros; apply ResolverFacts.build_mapping_registered|].
  split; [by vm_compute|].
  split; [|split].
  - intros import_name source_file module_map f Hhit. unfold _resolve_import. by rewrite Hhit.
  - intros import_name source_file module_map f Hmiss. unfold _resolve_import.
    rewrite Hmiss. apply ResolverFacts.resolve_prefixes_Some.
  - intros import_name source_file module_map. unfold _resolve_import.
    destruct (module_map !! import_name) as [g|] eqn:Hdirect.
    + split; [done | intros [? _]; done].
    + rewrite ResolverFacts.resolve_prefixes_None. unfold ResolverSpec.components,
        ResolverSpec.token_prefix. naive_solver.
Qed.

Lemma C4_witness :
  _resolve_import "c.util" "x/c.py" (foldl register_file ∅ Example.collision)
  = Some "a/b/c.py".
Proof.
  assert (foldl register_file ∅ Example.collision !! "c.util" = None) as Hmiss
    by by vm_compute.
  destruct C4_registration_and_resolution as (_ & _ & _ & _ & _ & Hprefix & _).
  apply (Hprefix "c.util" "x/c.py" _ "a/b/c.py" Hmiss).
  exists 1%nat. split; [vm_compute; lia|]. split; [by vm_compute|].
  intros j Hj. assert (j = 2%nat) as -> by (vm_compute in Hj; lia). by vm_compute.
Defined.

(** C7.  [_build_relationships] appends to [missing_imports], in scan order,
    one record [{file, import}] for every token of every file for which the
    resolution fails and whose first dotted component is one of the local
    patterns, and nothing else; a token that fails to resolve and is not
    local-looking leaves no record.  The test the code makes,
    [if target_file:], fails exactly when [_resolve_import] returns [None],
    because no file of a scanned tree has the empty path.  [numpy] is not
    local-looking, [app.nonexistent.module] is. *)
Theorem C7_missing_imports `{PyRuntime} :
  (forall b,
      missing_imports (_build_relationships b)
      = missing_imports b
          ++ GraphSpec.missing_of (_build_module_mapping b) (PyDict.items (files_data b)))
  /\ (forall module_map items file_path token,
        {| mi_file := file_path; mi_import := token |} ∈ GraphSpec.missing_of module_map items
        <-> exists tokens, (file_path, tokens) ∈ items /\ token ∈ tokens
              /\ GraphSpec.unresolved module_map file_path token = true
              /\ _is_local_import token = true)
  /\ (forall b upload_dir file_path token,
        GraphSpec.reachable b ->
        let scanned := scan_imports (PyPath.glob_py upload_dir) b in
        GraphSpec.unresolved (_build_module_mapping scanned) file_path token = true
        <-> _resolve_import token file_path (_build_module_mapping scanned) = None)
  /\ (forall token,
        _is_local_import token = true
        <-> List.hd EmptyString (PyStr.split "." token) ∈ local_patterns)
  /\ _is_local_import "numpy" = false
  /\ _is_local_import "app.nonexistent.module" = true.
Proof.
  split; [apply GraphFacts._build_relationships_missing|].
  split; [apply GraphFacts.elem_of_missing_of|].
  split; [|split; [|by vm_compute]].
  - intros b upload_dir file_path token Hb scanned. unfold GraphSpec.unresolved.
    destruct (_resolve_import token file_path (_build_module_mapping scanned))
      as [target|] eqn:Hres; [|done].
    apply ResolverFacts._resolve_import_value in Hres as [key Hkey].
    apply ReachFacts.module_mapping_value in Hkey.
    apply ReachFacts.reachable_invariants in Hb as [_ Hne].
    apply (ReachFacts.scan_imports_nonempty upload_dir) in Hne.
    apply Hne in Hkey. destruct target; [done|]. simpl. split; done.
  - intros token. unfold _is_local_import. apply bool_decide_eq_true.
Qed.

Lemma C7_witness :
  missing_imports Example.chain_builder
  = [ {| mi_file := "c.py"; mi_import := "app.nonexistent.module" |} ]
  /\ (GraphSpec.unresolved (_build_module_mapping Example.chain_builder) "c.py" "numpy" = true
      <-> _resolve_import "numpy" "c.py" (_build_module_mapping Example.chain_builder) = None).
Proof.
  split; [by vm_compute|].
  destruct (C7_missing_imports (H := Example.runtime)) as (_ & _ & Hfails & _).
  apply (Hfails new_builder Example.chain_tree "c.py" "numpy" GraphSpec.reach_new).
Defined.

(** C10.  [get_file_dependencies] returns for every path and every state,
    and hands the state back unchanged.  For a path without recorded edges
    both lists are empty and both counts are zero; after any calls of
    [build_graph] this is the case for every path that is not a file of the
    analysed trees. *)
Theorem C10_get_file_dependencies `{PyRuntime} (file_path : string) (b : Builder) :
  exists deps,
    get_file_dependencies file_path b = Ok deps b
    /\ fd_file deps = file_path
    /\ (dd_get file_path (graph b) = ∅ ->
        fd_imports_from deps = [] /\ fd_imports_count deps = 0)
    /\ (dd_get file_path (reverse_graph b) = ∅ ->
        fd_imported_by deps = [] /\ fd_imported_by_count deps = 0)
    /\ (GraphSpec.reachable b -> file_path ∉ PyDict.keys (files_data b) ->
        fd_imports_from deps = [] /\ fd_imported_by deps = []
        /\ fd_imports_count deps = 0 /\ fd_imported_by_count deps = 0).
Proof.
  eexists. split; [reflexivity|]. simpl. split; [done|].
  assert (forall dd : pydict (gset string),
             dd_get file_path dd = ∅ ->
             elements (dd_get file_path dd) = [] /\ set_len (dd_get file_path dd) = 0)
    as Hempty.
  { intros dd ->. unfold set_len. by rewrite elements_empty, size_empty. }
  split; [apply Hempty|]. split; [apply Hempty|].
  intros Hb Hfile. apply ReachFacts.reachable_invariants in Hb as [Hrec _].
  assert (dd_get file_path (graph b) = ∅) as Hg.
  { apply GraphFacts.dd_get_not_key. intros Hk. apply Hfile, Hrec. by left. }
  assert (dd_get file_path (reverse_graph b) = ∅) as Hr.
  { apply GraphFacts.dd_get_not_key. intros Hk. apply Hfile, Hrec. by right. }
  destruct (Hempty _ Hg), (Hempty _ Hr). done.
Qed.

Lemma C10_witness :
  exists deps,
    get_file_dependencies "nowhere.py" Example.chain_builder = Ok deps Example.chain_builder
    /\ fd_imports_from deps = [] /\ fd_imported_by deps = []
    /\ fd_imports_count deps = 0 /\ fd_imported_by_count deps = 0.
Proof.
  destruct (C10_get_file_dependencies (H := Example.runtime) "nowhere.py"
              Example.chain_builder) as (deps & Hrun & _ & _ & _ & Hout).
  exists deps. split; [exact Hrun|]. apply Hout.
  - apply (ReachFacts.reachable_state_after (H := Example.runtime)), GraphSpec.reach_new.
  - apply (bool_decide_unpack _). by vm_compute.
Defined.

(** C5.  For any three files A, B and C whose import graph is A importing
    B, B importing C and C importing A, in whatever order the keys of the
    graph come, the detector returns and appends one cycle, with the members
    A, B and C: the triangle written from the file whose key comes first.
    So [build_graph] on a new builder, for a tree with that import graph,
    reports exactly this cycle.  On a forward adjacency in which no file
    reaches itself the detector ends normally and appends nothing, so
    [build_graph] reports zero cycles.  Whatever the detector appends, also
    before an exception, is the slice of a path of the graph from the first
    occurrence of the file met again to the end of the path, closed by that
    file, and so a cycle of the graph.  The file met again ends the
    traversal: the remaining neighbours are not looked at, and every caller
    returns at once.

    The interpreter's limit on the depth of the recursion is not part of the
    model: [dfs] is run with the fuel [enough_fuel], which covers a
    recursion through every file.  What is said here of a graph, and of an
    acyclic graph in particular, is said of the runs in which the chain of
    calls of [dfs] stays within that limit; beyond it the interpreter raises
    [RecursionError] where the model returns. *)
Theorem C5_cycle_detection `{PyRuntime} :
  (* the three-file cycle, for any three files and any order of the keys *)
  (forall A B C : string,
      A <> B -> B <> C -> A <> C ->
      (forall b,
          graph b ≡ₚ [(A, {[ B ]}); (B, {[ C ]}); (C, {[ A ]})] ->
          exists cycle,
            _detect_circular_dependencies b
              = Ok tt (with_circular_deps b (circular_deps b ++ [cycle]))
            /\ cycle ∈ [[A; B; C; A]; [B; C; A; B]; [C; A; B; C]]
            /\ list_to_set cycle = ({[ A; B; C ]} : gset string))
      /\ (forall upload_dir upload_id,
            graph (_build_relationships
                     (scan_imports (PyPath.glob_py upload_dir) new_builder))
              ≡ₚ [(A, {[ B ]}); (B, {[ C ]}); (C, {[ A ]})] ->
            exists data b' cycle,
              build_graph upload_dir upload_id new_builder = Ok data b'
              /\ gd_circular_dependencies data = [cycle]
              /\ cycle ∈ [[A; B; C; A]; [B; C; A; B]; [C; A; B; C]]
              /\ list_to_set cycle = ({[ A; B; C ]} : gset string)
              /\ stat_circular_dependencies (gd_statistics data) = 1))
  (* acyclic graphs, whatever the order in which the target sets are iterated *)
  /\ (forall (adjacency : pydict (list string)) (found : list (list string)),
        CycleSpec.acyclic adjacency ->
        exists st, detect adjacency found = Ok tt st /\ cycles st = found)
  /\ (forall b,
        (forall n, ~ tc (CycleSpec.imports_from b) n n) ->
        _detect_circular_dependencies b = Ok tt b)
  /\ (forall upload_dir upload_id,
        let related :=
          _build_relationships (scan_imports (PyPath.glob_py upload_dir) new_builder) in
        (forall n, ~ tc (CycleSpec.imports_from related) n n) ->
        exists data b',
          build_graph upload_dir upload_id new_builder = Ok data b'
          /\ gd_circular_dependencies data = []
          /\ stat_circular_dependencies (gd_statistics data) = 0)
  (* what is reported *)
  /\ (forall b,
        match _detect_circular_dependencies b with
        | Ok _ b' | Raise _ b' =>
            exists new,
              circular_deps b' = circular_deps b ++ new
              /\ Forall (fun c => CycleSpec.path_slice (adjacency_of (graph b)) c
                                  /\ CycleSpec.is_cycle (adjacency_of (graph b)) c) new
        | OutOfFuel => False
        end)
  (* the traversal stops at the file met again *)
  /\ (forall call path neighbor rest st,
        neighbor ∈ visited st -> neighbor ∈ rec_stack st -> neighbor ∈ path ->
        exists i,
          path !! i = Some neighbor
          /\ (forall j, (j < i)%nat -> path !! j <> Some neighbor)
          /\ dfs_neighbors call path (neighbor :: rest) st
             = Ok true (record_cycle (drop i path ++ [neighbor]) st))
  /\ (forall call path neighbor rest st st',
        neighbor ∉ visited st -> call neighbor path st = Ok true st' ->
        dfs_neighbors call path (neighbor :: rest) st = Ok true st')
  /\ (forall adjacency fuel node path st st',
        dfs_neighbors (dfs adjacency fuel) (path ++ [node]) (neighbors adjacency node)
                      (enter node st) = Ok true st' ->
        dfs adjacency (S fuel) node path st = Ok true st').
Proof.
  split; [|split; [|split; [|split; [|split; [|split; [|split]]]]]].
  - intros A B C HAB HBC HAC. split.
    + intros b Hgraph.
      destruct (TriangleFacts._detect_circular_dependencies_triangle A B C HAB HBC HAC b
                  Hgraph) as (cycle & Hrun & Hcycle).
      exists cycle. split; [done|]. split; [done|].
      by apply TriangleFacts.triangle_members.
    + intros upload_dir upload_id Hgraph. unfold build_graph.
      set (related := _build_relationships
                        (scan_imports (PyPath.glob_py upload_dir) new_builder)) in *.
      destruct (TriangleFacts._detect_circular_dependencies_triangle A B C HAB HBC HAC
                  related Hgraph) as (cycle & -> & Hcycle).
      assert (circular_deps related = []) as ->.
      { unfold related. rewrite GraphFacts._build_relationships_circular_deps.
        by destruct (GraphFacts.scan_imports_graphs (PyPath.glob_py upload_dir) new_builder)
          as (_ & _ & -> & _). }
      eexists _, _, cycle. split; [reflexivity|]. split; [done|]. split; [done|].
      split; [by apply TriangleFacts.triangle_members | done].
  - intros adjacency found. apply CycleFacts.detect_acyclic.
  - intros b Hacyclic.
    rewrite BuilderFacts._detect_circular_dependencies_acyclic by done.
    by rewrite ExampleFacts.with_circular_deps_same.
  - intros upload_dir upload_id related Hacyclic. unfold build_graph. fold related.
    rewrite BuilderFacts._detect_circular_dependencies_acyclic by done.
    rewrite ExampleFacts.with_circular_deps_same.
    exists (_generate_graph_data related), related. simpl.
    assert (circular_deps related = []) as ->; [|done].
    unfold related. rewrite GraphFacts._build_relationships_circular_deps.
    by destruct (GraphFacts.scan_imports_graphs (PyPath.glob_py upload_dir) new_builder)
      as (_ & _ & -> & _).
  - intros b. pose proof (BuilderFacts._detect_circular_dependencies_sound b) as Hs.
    destruct (_detect_circular_dependencies b) as [? b'|e b'|]; [| |done];
      destruct Hs as (new & -> & Hnew); exists new; (split; [done|]);
      (eapply Forall_impl; [exact Hnew|]); intros c Hc;
      (split; [done | by apply CycleFacts.path_slice_is_cycle]).
  - intros call path neighbor rest st Hv Hr Hin.
    destruct (index_of neighbor path) as [i|] eqn:Hidx;
      [|by apply CycleFacts.index_of_None in Hidx].
    exists i. destruct (CycleFacts.index_of_Some _ _ _ Hidx) as [Hi Hfirst].
    split; [done|]. split; [done|]. cbn [dfs_neighbors].
    rewrite decide_True by done. rewrite decide_True by done. by rewrite Hidx.
  - intros call path neighbor rest st st' Hv Hcall. cbn [dfs_neighbors].
    rewrite decide_False by done. by rewrite Hcall.
  - intros adjacency fuel node path st st' Hloop. cbn [dfs]. by rewrite Hloop.
Qed.

Lemma C5_witness :
  (exists data b' cycle,
      build_graph (H := Example.runtime) Example.cycle_tree "cycle" new_builder = Ok data b'
      /\ gd_circular_dependencies data = [cycle]
      /\ list_to_set cycle = ({[ "a.py"; "b.py"; "c.py" ]} : gset string)
      /\ stat_circular_dependencies (gd_statistics data) = 1)
  /\ (exists data b' cycle,
        build_graph (H := Example.runtime) ExampleTriangle.ring_tree "ring" new_builder
          = Ok data b'
        /\ gd_circular_dependencies data = [cycle]
        /\ list_to_set cycle
           = ({[ "pkg/views.py"; "pkg/models.py"; "pkg/forms.py" ]} : gset string)
        /\ stat_circular_dependencies (gd_statistics data) = 1)
  /\ (exists data b',
        build_graph (H := Example.runtime) Example.chain_tree "chain" new_builder = Ok data b'
        /\ gd_circular_dependencies data = []
        /\ stat_circular_dependencies (gd_statistics data) = 0).
Proof.
  destruct (C5_cycle_detection (H := Example.runtime)) as (Htriangle & _ & _ & Hacyclic & _).
  split; [|split].
  - destruct (Htriangle "a.py" "b.py" "c.py") as [_ Hbuild]; [done|done|done|].
    destruct (Hbuild Example.cycle_tree "cycle") as (data & b' & cycle & Hrun & Hc & _ & Hset & Hn);
      [vm_compute; reflexivity|].
    exists data, b', cycle. exact (conj Hrun (conj Hc (conj Hset Hn))).
  - destruct (Htriangle "pkg/views.py" "pkg/models.py" "pkg/forms.py") as [_ Hbuild];
      [done|done|done|].
    destruct (Hbuild ExampleTriangle.ring_tree "ring")
      as (data & b' & cycle & Hrun & Hc & _ & Hset & Hn);
      [vm_compute; apply perm_skip, perm_swap|].
    exists data, b', cycle. exact (conj Hrun (conj Hc (conj Hset Hn))).
  - apply (Hacyclic Example.chain_tree "chain"). apply ExampleFacts.chain_acyclic.
Defined.

(** C2.  Comparing a snapshot with itself gives the similarity score 1.0, no
    added, removed or modified file, and the summary "No significant changes
    detected", whatever the snapshot, the clock and the state of the
    comparator. *)
Theorem C2_compare_with_itself
    (s : Models.CodebaseMetadata) (now : Z) (self : Comparator.State) :
  let result := fst (Comparator.compare s s now self) in
  Models.similarity_score result = PyFloat.of_Z 1
  /\ Models.files_added result = []
  /\ Models.files_removed result = []
  /\ Models.files_modified result = []
  /\ Models.comparison_summary result = "No significant changes detected".
Proof.
  cbn [fst Comparator.compare Models.similarity_score Models.files_added
         Models.files_removed Models.files_modified Models.comparison_summary].
  destruct (ComparatorFacts._compare_file_structures_same s) as (Ha & Hr & Hm).
  destruct (ComparatorFacts._compare_metrics_same s) as (Hsize & Hlines).
  split; [apply ComparatorFacts._calculate_similarity_same|].
  split; [done|]. split; [done|]. split; [done|].
  apply ComparatorFacts._generate_summary_sentinel; try done.
  - rewrite Hsize. done.
  - by rewrite ComparatorFacts._compare_dependencies_same.
  - by rewrite ComparatorFacts._compare_dependencies_same.
  - by rewrite ComparatorFacts._compare_dependencies_same.
Qed.

(** C3.  The similarity score of [compare(base, candidate)] is 1.0 when both
    sets of relative paths are empty and 0.0 when exactly one is; otherwise
    it is the float of a decimal with three places that is nearest to the
    Jaccard index of the two sets, intersection size over union size (for
    fewer than 2^42 paths, where the rounding of the quotient to binary64
    cannot move it across a rounding boundary).  With base paths {a, b} and
    candidate paths {b, c} the score is 0.333, [files_added] is [c] and
    [files_removed] is [a]. *)
Theorem C3_similarity_is_jaccard
    (base candidate : Models.CodebaseMetadata) (now : Z) (self : Comparator.State) :
  let result := fst (Comparator.compare base candidate now self) in
  let A := Comparator.path_set base in
  let B := Comparator.path_set candidate in
  (A = ∅ -> B = ∅ -> Models.similarity_score result = PyFloat.of_Z 1)
  /\ (A = ∅ -> B <> ∅ -> Models.similarity_score result = PyFloat.of_Z 0)
  /\ (A <> ∅ -> B = ∅ -> Models.similarity_score result = PyFloat.of_Z 0)
  /\ (A <> ∅ -> B <> ∅ -> (Z.of_nat (size (A ∪ B)) < 2 ^ 42) ->
      exists m : Z,
        Models.similarity_score result = PyFloat.of_thousandths m
        /\ 0 <= m <= 1000
        /\ SimilaritySpec.nearest_thousandth m (SimilaritySpec.jaccard A B))
  /\ (A = {[ "a"; "b" ]} -> B = {[ "b"; "c" ]} ->
      Models.similarity_score result = PyFloat.of_thousandths 333
      /\ Models.files_added result = ["c"]
      /\ Models.files_removed result = ["a"]).
Proof.
  intros result A B.
  cbn [result fst Comparator.compare Models.similarity_score Models.files_added
         Models.files_removed].
  destruct (ComparatorFacts._calculate_similarity_cases base candidate)
    as (Hboth & Hbase & Hcand & Hratio).
  fold A B in Hboth, Hbase, Hcand, Hratio.
  split; [done|]. split; [done|]. split; [done|]. split.
  - intros HA HB Hsmall. destruct (Hratio HA HB) as [-> Hpos].
    assert (size (A ∩ B) <= size (A ∪ B))%nat as Hsub
      by (apply subseteq_size; set_solver).
    destruct (FloatFacts.round_ratio (Z.of_nat (size (A ∩ B))) (Z.of_nat (size (A ∪ B))))
      as (m & Hm & Hrange & Hnear); [lia | lia |].
    exists m. split; [done|]. split; [done|].
    unfold SimilaritySpec.nearest_thousandth, SimilaritySpec.jaccard.
    apply Qabs_Qle_condition.
    assert (Z.pos (Pos.of_nat (size (A ∪ B))) = Z.of_nat (size (A ∪ B))) as Hden
      by (rewrite <- positive_nat_Z, Nat2Pos.id; lia).
    unfold Qle, Qminus, Qplus, Qopp. cbn [Qnum Qden].
    rewrite !Pos2Z.inj_mul, Hden. split; lia.
  - intros HA HB.
    assert (A <> ∅) as HAne by (rewrite HA; by vm_compute).
    assert (B <> ∅) as HBne by (rewrite HB; by vm_compute).
    destruct (Hratio HAne HBne) as [-> _].
    unfold Comparator._compare_file_structures.
    cbn [Comparator.fc_added Comparator.fc_removed].
    rewrite !ComparatorFacts.dom_by_path.
    fold (Comparator.path_set base) (Comparator.path_set candidate). fold A B.
    rewrite HA, HB. by vm_compute.
Qed.

Lemma C3_witness :
  (exists m : Z,
      Models.similarity_score
        (fst (Comparator.compare ExampleSnapshots.base_ab ExampleSnapshots.candidate_bc 0
                Comparator.new_comparator))
      = PyFloat.of_thousandths m
      /\ 0 <= m <= 1000
      /\ SimilaritySpec.nearest_thousandth m
           (SimilaritySpec.jaccard (Comparator.path_set ExampleSnapshots.base_ab)
                                   (Comparator.path_set ExampleSnapshots.candidate_bc)))
  /\ (Models.similarity_score
        (fst (Comparator.compare ExampleSnapshots.base_ab ExampleSnapshots.candidate_bc 0
                Comparator.new_comparator))
      = PyFloat.of_thousandths 333
      /\ Models.files_added
           (fst (Comparator.compare ExampleSnapshots.base_ab ExampleSnapshots.candidate_bc 0
                   Comparator.new_comparator)) = ["c"]
      /\ Models.files_removed
           (fst (Comparator.compare ExampleSnapshots.base_ab ExampleSnapshots.candidate_bc 0
                   Comparator.new_comparator)) = ["a"]).
Proof.
  destruct (C3_similarity_is_jaccard ExampleSnapshots.base_ab ExampleSnapshots.candidate_bc
              0 Comparator.new_comparator) as (_ & _ & _ & Hratio & Hexample).
  split; [apply Hratio | apply Hexample]; by vm_compute.
Defined.




(** C8, as the code has it.  The external packages of a snapshot are exactly
    the import tokens without a dot of the files it records (only Python
    files have tokens), each listed once; whether a token resolves to a file
    of the tree, or looks local, plays no part. *)
Theorem C8_external_packages `{PyRuntime}
    (upload_dir : fs_tree) (info : MetadataBuilder.UploadInfo) (upload_id : string)
    (s : MetadataBuilder.State) :
  let snapshot := fst (MetadataBuilder.build_metadata upload_dir info upload_id s) in
  (forall imp : string,
      imp ∈ ScanSpec.snapshot_packages snapshot
      <-> exists file_meta,
            file_meta ∈ Models.files snapshot /\ imp ∈ Models.imports file_meta
            /\ PyStr.contains_char "." imp = false)
  /\ (forall imp : string,
        MetadataBuilder.is_package_token imp = true
        <-> PyStr.contains_char "." imp = false).
Proof.
  intros snapshot. split; [|apply ScanFacts.is_package_token_no_dot].
  intros imp. unfold snapshot, MetadataBuilder.build_metadata, ScanSpec.snapshot_packages.
  cbn [fst Models.dependencies Models.files MetadataBuilder._build_dependency_metadata
         from_option Models.external_packages].
  rewrite SortedFacts.elem_of_sorted, elem_of_elements.
  apply (ScanFacts._scan_directory_packages upload_dir MetadataBuilder.reset),
    ScanFacts.reset_packages.
Qed.

(** C8, as the specification has it, does not hold: [utils] is listed among
    the external packages of a tree in which it is the module [utils.py]. *)
Lemma C8_counterexample :
  ~ forall name : string,
      name ∈ ScanSpec.snapshot_packages Example.local_snapshot ->
      _resolve_import name "main.py" Example.local_mapping = None
      /\ _is_local_import name = false.
Proof.
  intros Hall. destruct (Hall "utils") as [Hres _].
  - vm_compute. apply list_elem_of_here.
  - vm_compute in Hres. discriminate.
Qed.

(** C9 fails on a builder that is used twice: nothing is reset on entry, so
    the second call on the same tree returns the same nodes and edges but
    every missing import and every cycle a second time, and other counts. *)
Theorem C9_second_call_differs :
  (exists first b1 second b2,
      build_graph (H := Example.runtime) Example.chain_tree "chain" new_builder
        = Ok first b1
      /\ build_graph (H := Example.runtime) Example.chain_tree "chain" b1 = Ok second b2
      /\ gd_nodes second = gd_nodes first /\ gd_edges second = gd_edges first
      /\ gd_missing_imports second = gd_missing_imports first ++ gd_missing_imports first
      /\ stat_missing_imports (gd_statistics first) = 1
      /\ stat_missing_imports (gd_statistics second) = 2)
  /\ (exists first b1 second b2,
        build_graph (H := Example.runtime) Example.cycle_tree "cycle" new_builder
          = Ok first b1
        /\ build_graph (H := Example.runtime) Example.cycle_tree "cycle" b1 = Ok second b2
        /\ gd_nodes second = gd_nodes first /\ gd_edges second = gd_edges first
        /\ gd_circular_dependencies second
           = gd_circular_dependencies first ++ gd_circular_dependencies first
        /\ stat_circular_dependencies (gd_statistics first) = 1
        /\ stat_circular_dependencies (gd_statistics second) = 2).
Proof.
  split.
  - eexists _, _, _, _. split; [vm_compute; reflexivity|].
    split; [vm_compute; reflexivity|]. by vm_compute.
  - eexists _, _, _, _. split; [vm_compute; reflexivity|].
    split; [vm_compute; reflexivity|]. by vm_compute.
Qed.

(* ===================================================================== *)
(** * Further properties of the dependency graph *)
(* ===================================================================== *)

Import DependencyGraph.

(** X1.  When [build_graph] returns and has appended no cycle to
    [circular_deps], the import graph it leaves has no cycle: no file reaches
    itself along one or more import edges.  With the converse direction shown
    above, a call that returns reports zero new cycles exactly for the
    acyclic graphs. *)
Theorem X1_nothing_reported_acyclic `{PyRuntime}
    (upload_dir : fs_tree) (upload_id : string) (b : Builder)
    (data : GraphData) (b' : Builder) :
  build_graph upload_dir upload_id b = Ok data b' ->
  circular_deps b' = circular_deps b ->
  forall n, ~ tc (CycleSpec.imports_from b') n n.
Proof.
  unfold build_graph. intros Hrun Hsame.
  destruct (_detect_circular_dependencies _) as [[] b1|e b1|] eqn:Hdetect; [|done|done].
  injection Hrun as _ <-.
  pose proof (BuilderFacts._detect_circular_dependencies_sound
                (_build_relationships (scan_imports (PyPath.glob_py upload_dir) b)))
    as Hsound.
  rewrite Hdetect in Hsound. destruct Hsound as (new & Hb1 & _).
  assert (CycleSpec.imports_from b1
          = CycleSpec.imports_from
              (_build_relationships (scan_imports (PyPath.glob_py upload_dir) b))) as ->.
  { unfold CycleSpec.imports_from. by rewrite Hb1. }
  apply (DetectorFacts._detect_circular_dependencies_nothing_found _ b1 Hdetect).
  rewrite Hsame, GraphFacts._build_relationships_circular_deps.
  by destruct (GraphFacts.scan_imports_graphs (PyPath.glob_py upload_dir) b)
    as (_ & _ & -> & _).
Qed.

Lemma X1_witness :
  exists data b',
    build_graph (H := Example.runtime) Example.chain_tree "chain" new_builder = Ok data b'
    /\ circular_deps b' = []
    /\ ~ tc (CycleSpec.imports_from b') "a.py" "a.py".
Proof.
  eexists _, _. split; [vm_compute; reflexivity|]. split; [reflexivity|].
  eapply (X1_nothing_reported_acyclic (H := Example.runtime) Example.chain_tree "chain"
            new_builder); [vm_compute; reflexivity | reflexivity].
Defined.

(** X2.  [build_graph] always ends, normally or with the [ValueError] of
    [path.index] (the interpreter's limit on the depth of the recursion is not
    part of the model), and keeps the cycles it found until then.  One traversal
    from a key of the forward adjacency stops at the first file met again, so
    a call appends at most one cycle for each file that imports something:
    the list is not an enumeration of the cycles of the graph.  The exception
    is raised only after a cycle was appended in the same call. *)
Theorem X2_one_cycle_for_each_root `{PyRuntime}
    (upload_dir : fs_tree) (upload_id : string) (b : Builder) :
  match build_graph upload_dir upload_id b with
  | Ok _ b' =>
      exists new,
        circular_deps b' = circular_deps b ++ new
        /\ (length new <= length (PyDict.keys (graph b')))%nat
  | Raise _ b' =>
      exists new,
        circular_deps b' = circular_deps b ++ new
        /\ (1 <= length new <= length (PyDict.keys (graph b')))%nat
  | OutOfFuel => False
  end.
Proof.
  unfold build_graph.
  pose proof (DetectorFacts._detect_circular_dependencies_bounded
                (_build_relationships (scan_imports (PyPath.glob_py upload_dir) b)))
    as Hbound.
  pose proof (BuilderFacts._detect_circular_dependencies_sound
                (_build_relationships (scan_imports (PyPath.glob_py upload_dir) b)))
    as Hsound.
  pose proof (DetectorFacts._detect_circular_dependencies_raise
                (_build_relationships (scan_imports (PyPath.glob_py upload_dir) b)))
    as Hraise.
  rewrite GraphFacts._build_relationships_circular_deps in Hbound, Hraise.
  destruct (GraphFacts.scan_imports_graphs (PyPath.glob_py upload_dir) b)
    as (_ & _ & Hc & _).
  rewrite Hc in Hbound, Hraise.
  destruct (_detect_circular_dependencies _) as [[] b1|e b1|]; [| |done];
    destruct Hsound as (new' & -> & _); [exact Hbound|].
  destruct Hbound as (new & Hnew & Hlen). exists new. split; [done|]. split; [|done].
  specialize (Hraise e _ eq_refl). cbn [circular_deps with_circular_deps] in Hnew, Hraise.
  rewrite Hnew, length_app in Hraise. lia.
Qed.

(** X3.  The edge list of the graph data is the forward adjacency: there is
    an edge from [source] to [target] exactly when [target] is in
    [graph[source]], no pair occurs twice, the ids count up from zero in the
    order of the list, and both ends of every edge are among the nodes. *)
Theorem X3_edges_are_the_adjacency `{PyRuntime}
    (upload_dir : fs_tree) (upload_id : string) (b : Builder)
    (data : GraphData) (b' : Builder) :
  GraphSpec.reachable b ->
  build_graph upload_dir upload_id b = Ok data b' ->
  (forall source target,
      (source, target) ∈ DataSpec.endpoints <$> gd_edges data
      <-> target ∈ dd_get source (graph b'))
  /\ NoDup (DataSpec.endpoints <$> gd_edges data)
  /\ edge_id <$> gd_edges data = Z.of_nat <$> seq 0 (length (gd_edges data))
  /\ (forall e, e ∈ gd_edges data ->
        edge_from e ∈ node_id <$> gd_nodes data
        /\ edge_to e ∈ node_id <$> gd_nodes data).
Proof.
  intros Hb Hrun.
  assert (GraphSpec.reachable b') as Hb' by by eapply GraphSpec.reach_ok.
  pose proof (GraphFacts.build_graph_state upload_dir upload_id b) as Hs.
  rewrite Hrun in Hs. destruct Hs as (_ & ->).
  apply GraphDataFacts.edges_spec.
  - by apply DataFacts.reachable_keys_unique.
  - by apply ReachFacts.reachable_invariants.
  - by apply GraphFacts.reachable_transposed.
Qed.

Lemma X3_witness :
  exists data b',
    build_graph (H := Example.runtime) Example.chain_tree "chain" new_builder = Ok data b'
    /\ NoDup (DataSpec.endpoints <$> gd_edges data)
    /\ edge_id <$> gd_edges data = Z.of_nat <$> seq 0 (length (gd_edges data)).
Proof.
  assert (exists data b',
             build_graph (H := Example.runtime) Example.chain_tree "chain" new_builder
             = Ok data b') as (data & b' & Hrun)
    by (eexists _, _; vm_compute; reflexivity).
  exists data, b'. split; [exact Hrun|].
  destruct (X3_edges_are_the_adjacency (H := Example.runtime) Example.chain_tree "chain"
              new_builder data b' GraphSpec.reach_new Hrun) as (_ & Hpairs & Hids & _).
  by split.
Defined.

(** X4.  In the graph data the degrees add up: [total_dependencies], the
    number of edges, is the sum of [imports_count] over the nodes and also the
    sum of [imported_by_count] over the nodes. *)
Theorem X4_degrees_add_up `{PyRuntime}
    (upload_dir : fs_tree) (upload_id : string) (b : Builder)
    (data : GraphData) (b' : Builder) :
  GraphSpec.reachable b ->
  build_graph upload_dir upload_id b = Ok data b' ->
  stat_total_dependencies (gd_statistics data) = len (gd_edges data)
  /\ stat_total_dependencies (gd_statistics data)
     = DataSpec.total (node_imports_count <$> gd_nodes data)
  /\ stat_total_dependencies (gd_statistics data)
     = DataSpec.total (node_imported_by_count <$> gd_nodes data).
Proof.
  intros Hb Hrun.
  assert (GraphSpec.reachable b') as Hb' by by eapply GraphSpec.reach_ok.
  pose proof (GraphFacts.build_graph_state upload_dir upload_id b) as Hs.
  rewrite Hrun in Hs. destruct Hs as (_ & ->).
  split; [done|]. apply GraphDataFacts.degree_sums.
  - by apply DataFacts.reachable_keys_unique.
  - by apply ReachFacts.reachable_invariants.
  - by apply GraphFacts.reachable_transposed.
Qed.

Lemma X4_witness :
  exists data b',
    build_graph (H := Example.runtime) Example.chain_tree "chain" new_builder = Ok data b'
    /\ stat_total_dependencies (gd_statistics data)
       = DataSpec.total (node_imports_count <$> gd_nodes data)
    /\ stat_total_dependencies (gd_statistics data)
       = DataSpec.total (node_imported_by_count <$> gd_nodes data).
Proof.
  assert (exists data b',
             build_graph (H := Example.runtime) Example.chain_tree "chain" new_builder
             = Ok data b') as (data & b' & Hrun)
    by (eexists _, _; vm_compute; reflexivity).
  exists data, b'. split; [exact Hrun|].
  destruct (X4_degrees_add_up (H := Example.runtime) Example.chain_tree "chain"
              new_builder data b' GraphSpec.reach_new Hrun) as (_ & Hout & Hin).
  by split.
Defined.

(** X5.  The graph data has one node for each distinct file of
    [files_data]; [total_files] is the number of nodes and [isolated_files]
    the number of nodes without an edge in either direction.  A node carries
    the sizes of the two sets of its file, and its display size is
    [max(10, 5 * imported_by_count)]. *)
Theorem X5_nodes_are_the_files (b : Builder) :
  let data := _generate_graph_data b in
  NoDup (node_id <$> gd_nodes data)
  /\ (forall f, f ∈ node_id <$> gd_nodes data <-> f ∈ PyDict.keys (files_data b))
  /\ stat_total_files (gd_statistics data) = len (gd_nodes data)
  /\ stat_isolated_files (gd_statistics data)
     = len (filter (fun n => node_imports_count n = 0 /\ node_imported_by_count n = 0)
              (gd_nodes data))
  /\ (forall n, n ∈ gd_nodes data ->
        node_full_path n = node_id n
        /\ node_imports_count n = set_len (dd_get (node_id n) (graph b))
        /\ node_imported_by_count n = set_len (dd_get (node_id n) (reverse_graph b))
        /\ node_size n = Z.max 10 (5 * node_imported_by_count n)).
Proof. apply GraphDataFacts.nodes_spec. Qed.

(** X6.  [_get_most_imported] and [_get_most_imports] return the first
    [limit] entries of a ranking of all the files of the dictionary (fewer
    when the dictionary is smaller): the ranking is a rearrangement of the
    entries [{file, count}], the counts never increase along it, so no file
    left out has a higher count than a file listed, and files of equal count
    stay in the insertion order of the dictionary. *)
Theorem X6_rankings (b : Builder) (limit : nat) :
  (let ranking := _get_most_imported b limit in
   length ranking = Nat.min limit (length (reverse_graph b))
   /\ exists others,
        ranking ++ others ≡ₚ file_counts (reverse_graph b)
        /\ StronglySorted DataSpec.ranks_before (ranking ++ others)
        /\ forall c : Z,
             filter (fun z => fc_count z = c) (ranking ++ others)
             = filter (fun z => fc_count z = c) (file_counts (reverse_graph b)))
  /\ (let ranking := _get_most_imports b limit in
      length ranking = Nat.min limit (length (graph b))
      /\ exists others,
           ranking ++ others ≡ₚ file_counts (graph b)
           /\ StronglySorted DataSpec.ranks_before (ranking ++ others)
           /\ forall c : Z,
                filter (fun z => fc_count z = c) (ranking ++ others)
                = filter (fun z => fc_count z = c) (file_counts (graph b))).
Proof. split; apply CountFacts.ranking_spec. Qed.

(** X7.  After [build_graph], on a builder that was used any number of
    times, the forward adjacency holds the edges it held before and, for
    every file of [files_data] and every token of it that resolves, the edge
    from the file to the file the token resolves to; nothing else. *)
Theorem X7_edges_are_resolved_tokens `{PyRuntime}
    (upload_dir : fs_tree) (upload_id : string) (b : Builder)
    (source target : string) :
  GraphSpec.reachable b ->
  let b' := BuilderSpec.state_after (build_graph upload_dir upload_id b) b in
  target ∈ dd_get source (graph b')
  <-> target ∈ dd_get source (graph b)
      \/ exists tokens token,
           PyDict.get source (files_data b') = Some tokens /\ token ∈ tokens
           /\ _resolve_import token source (_build_module_mapping b') = Some target.
Proof.
  intros Hb. apply EdgeFacts.build_graph_graph.
  - by apply ReachFacts.reachable_invariants.
  - by apply DataFacts.reachable_keys_unique.
Qed.

Lemma X7_witness :
  "b.py" ∈ dd_get "a.py" (graph Example.chain_builder)
  <-> "b.py" ∈ dd_get "a.py" (graph new_builder)
      \/ exists tokens token,
           PyDict.get "a.py" (files_data Example.chain_builder) = Some tokens
           /\ token ∈ tokens
           /\ _resolve_import token "a.py" (_build_module_mapping Example.chain_builder)
              = Some "b.py".
Proof.
  apply (X7_edges_are_resolved_tokens (H := Example.runtime) Example.chain_tree "chain"
           new_builder "a.py" "b.py"), GraphSpec.reach_new.
Defined.

(** X8.  Resolution is a lookup of names.  Every scanned file is found
    under its own dotted name: the token resolves to a scanned file of that
    dotted name (to the file itself when no other file shares the name).  And
    whatever a token resolves to is a scanned file that answers to the token,
    or to the token cut after one of its components, as its dotted name or as
    a right-aligned suffix of it. *)
Theorem X8_resolution_by_name (b : Builder) (source_file : string) :
  (forall f,
      f ∈ PyDict.keys (files_data b) ->
      exists g,
        _resolve_import (module_name_of f) source_file (_build_module_mapping b) = Some g
        /\ g ∈ PyDict.keys (files_data b) /\ module_name_of g = module_name_of f)
  /\ (forall import_name target,
        _resolve_import import_name source_file (_build_module_mapping b) = Some target ->
        target ∈ PyDict.keys (files_data b)
        /\ exists i,
             (1 <= i <= ResolverSpec.components import_name)%nat
             /\ ResolverSpec.token_prefix import_name i
                ∈ ResolverSpec.suffix_names (module_name_of target)).
Proof.
  split.
  - intros f Hf. by apply NameFacts._resolve_import_own_name.
  - intros import_name target. apply NameFacts._resolve_import_sound.
Qed.

(** X9.  The nodes of the graph are the files the builder held before the
    call and the entries named [*.py] of every directory of the tree, at any
    depth, under their path from the root.  No directory is left out: unlike
    the snapshot, the graph has the Python files below [venv] or
    [node_modules]; and a file that was deleted from the tree stays a node of
    a builder that is used again. *)
Theorem X9_nodes_are_the_python_entries `{PyRuntime}
    (upload_dir : fs_tree) (upload_id : string) (b : Builder)
    (data : GraphData) (b' : Builder) :
  build_graph upload_dir upload_id b = Ok data b' ->
  forall f,
    f ∈ node_id <$> gd_nodes data
    <-> f ∈ PyDict.keys (files_data b)
        \/ exists x, GlobSpec.python_entry (Dir upload_dir) EmptyString f x.
Proof.
  intros Hrun f.
  pose proof (GraphFacts.build_graph_state upload_dir upload_id b) as Hs.
  rewrite Hrun in Hs. destruct Hs as ((found & ->) & ->).
  rewrite GraphDataFacts.elem_of_node_ids. cbn [files_data with_circular_deps].
  rewrite GraphFacts._build_relationships_files_data, ReachFacts.scan_imports_keys.
  apply or_iff_compat_l. rewrite list_elem_of_fmap. split.
  - intros ([p x] & -> & Hin). exists x. by apply GlobFacts.elem_of_glob_py.
  - intros (x & Hentry). exists (f, x). split; [done|]. by apply GlobFacts.elem_of_glob_py.
Qed.

Lemma X9_witness :
  exists data b',
    build_graph (H := Example.runtime) Example.chain_tree "chain" new_builder = Ok data b'
    /\ ("a.py" ∈ node_id <$> gd_nodes data
        <-> "a.py" ∈ PyDict.keys (files_data new_builder)
            \/ exists x, GlobSpec.python_entry (Dir Example.chain_tree) EmptyString "a.py" x).
Proof.
  assert (exists data b',
             build_graph (H := Example.runtime) Example.chain_tree "chain" new_builder
             = Ok data b') as (data & b' & Hrun)
    by (eexists _, _; vm_compute; reflexivity).
  exists data, b'. split; [exact Hrun|].
  exact (X9_nodes_are_the_python_entries (H := Example.runtime) Example.chain_tree "chain"
           new_builder data b' Hrun "a.py").
Defined.

(* ===================================================================== *)
(** * Further properties of the snapshot and of the comparison *)
(* ===================================================================== *)

(** X10.  The counters of a snapshot agree with its records: [total_files]
    is the number of records, [total_bytes], [total_lines], [total_classes]
    and [total_functions] are the sums over the records (a record without a
    line count adds no line), the extension histogram holds for every
    extension the number of records that have it, and the counts of each of
    the two histograms add up to the number of records. *)
Theorem X10_snapshot_counters `{PyRuntime}
    (upload_dir : fs_tree) (info : MetadataBuilder.UploadInfo) (upload_id : string)
    (s : MetadataBuilder.State) :
  let snapshot := fst (MetadataBuilder.build_metadata upload_dir info upload_id s) in
  let records := Models.files snapshot in
  Models.total_files snapshot = Z.of_nat (length records)
  /\ Models.total_bytes snapshot = DataSpec.total (Models.size_bytes <$> records)
  /\ Models.total_lines snapshot
     = DataSpec.total ((SnapshotSpec.or_zero ∘ Models.lines_count) <$> records)
  /\ Models.total_classes snapshot
     = DataSpec.total ((SnapshotSpec.or_zero ∘ Models.classes_count) <$> records)
  /\ Models.total_functions snapshot
     = DataSpec.total ((SnapshotSpec.or_zero ∘ Models.functions_count) <$> records)
  /\ (forall ext,
        default 0 (PyDict.get ext (Models.file_types snapshot))
        = SnapshotSpec.count_extension ext records)
  /\ DataSpec.total (Models.file_types snapshot).*2 = Models.total_files snapshot
  /\ DataSpec.total (Models.folder_structure snapshot).*2 = Models.total_files snapshot.
Proof.
  destruct (SnapshotFacts._scan_directory_consistent upload_dir MetadataBuilder.reset
              SnapshotFacts.consistent_reset)
    as (Hbytes & Hlines & Hclasses & Hfunctions & Htypes & Htypes' & Hfolders).
  simpl. done.
Qed.

(** X11.  A snapshot records exactly the files with a supported extension
    in the directories reached from the root along names that are not
    excluded, one record for each, in the order of the walk: nothing below
    [node_modules], [.git] and the like is recorded, and no file with another
    extension.  The extension of a record is the lower-cased suffix of its
    file name. *)
Theorem X11_what_a_scan_records `{PyRuntime}
    (upload_dir : fs_tree) (info : MetadataBuilder.UploadInfo) (upload_id : string)
    (s : MetadataBuilder.State) :
  let snapshot := fst (MetadataBuilder.build_metadata upload_dir info upload_id s) in
  Models.files snapshot
  = List.flat_map SnapshotSpec.visit_records (MetadataBuilder.walk [] (Dir upload_dir))
  /\ (forall file_meta,
        file_meta ∈ Models.files snapshot
        <-> exists parts es name f,
              SnapshotSpec.subdir (Dir upload_dir) parts es /\ SnapshotSpec.kept parts
              /\ (name, File f) ∈ es
              /\ SnapshotSpec.records_of parts (name, f) = [file_meta])
  /\ (forall parts name f,
        let ext := PyStr.lower (PyPath.suffix name) in
        (ext ∉ MetadataBuilder.SUPPORTED_EXTENSIONS ->
         SnapshotSpec.records_of parts (name, f) = [])
        /\ (ext ∈ MetadataBuilder.SUPPORTED_EXTENSIONS ->
            exists file_meta,
              SnapshotSpec.records_of parts (name, f) = [file_meta]
              /\ Models.filename file_meta = name
              /\ Models.extension file_meta = ext
              /\ Models.size_bytes file_meta = st_size f
              /\ Models.relative_path file_meta
                 = PyStr.replace (PyStr.join "/" (parts ++ [name])) PyStr.backslash "/")).
Proof.
  simpl. split; [apply SnapshotFacts._scan_directory_files|]. split.
  - intros file_meta. rewrite SnapshotFacts.elem_of_scanned_files. split.
    + intros (parts & es & name & f & Hsub & Hkept & Hin & Hfm).
      apply SnapshotFacts.elem_of_records_of in Hfm as [Hrec _].
      by exists parts, es, name, f.
    + intros (parts & es & name & f & Hsub & Hkept & Hin & Hrec).
      exists parts, es, name, f. rewrite Hrec.
      split; [done|]. split; [done|]. split; [done | apply list_elem_of_here].
  - intros parts name f.
    destruct (SnapshotFacts.records_of_spec parts (name, f)) as (Hno & Hyes).
    split; [exact Hno|]. intros Hext.
    destruct (Hyes Hext) as (fm & Hrec & Hname & Hext' & Hsize & Hpath & _).
    by exists fm.
Qed.

(** X12.  Only Python files are analysed.  A record with another extension
    has no line count, zero classes and functions, no imports and the empty
    hash; a record of a Python file has what [_extract_python_metrics] and
    [compute_file_hash] return for the file of that name in a directory of the
    scan.  As the empty hash counts as no
    hash, the comparator tells whether such a record was modified by its size
    alone: a file of another language that was edited without a change of
    size is listed as unchanged. *)
Theorem X12_only_python_is_analysed `{PyRuntime}
    (upload_dir : fs_tree) (info : MetadataBuilder.UploadInfo) (upload_id : string)
    (s : MetadataBuilder.State) :
  let snapshot := fst (MetadataBuilder.build_metadata upload_dir info upload_id s) in
  forall file_meta,
    file_meta ∈ Models.files snapshot ->
    Models.extension file_meta ∈ MetadataBuilder.SUPPORTED_EXTENSIONS
    /\ Models.extension file_meta = PyStr.lower (PyPath.suffix (Models.filename file_meta))
    /\ (Models.extension file_meta <> ".py" ->
        Models.lines_count file_meta = None
        /\ Models.classes_count file_meta = Some 0
        /\ Models.functions_count file_meta = Some 0
        /\ Models.imports file_meta = []
        /\ Models.content_hash file_meta = Some EmptyString
        /\ forall other,
             Comparator.is_modified file_meta other
             = negb (Models.size_bytes file_meta =? Models.size_bytes other)
             /\ Comparator.is_modified other file_meta
                = negb (Models.size_bytes other =? Models.size_bytes file_meta))
    /\ (Models.extension file_meta = ".py" ->
        exists parts es f,
          SnapshotSpec.subdir (Dir upload_dir) parts es /\ SnapshotSpec.kept parts
          /\ (Models.filename file_meta, File f) ∈ es
          /\ Models.size_bytes file_meta = st_size f
          /\ Models.lines_count file_meta
             = Some (MetadataBuilder.m_lines (MetadataBuilder._extract_python_metrics f))
          /\ Models.classes_count file_meta
             = Some (MetadataBuilder.m_classes (MetadataBuilder._extract_python_metrics f))
          /\ Models.functions_count file_meta
             = Some (MetadataBuilder.m_functions
                       (MetadataBuilder._extract_python_metrics f))
          /\ Models.imports file_meta
             = MetadataBuilder.m_imports (MetadataBuilder._extract_python_metrics f)
          /\ Models.content_hash file_meta = Some (MetadataBuilder.compute_file_hash f)).
Proof.
  simpl. intros file_meta Hin.
  apply SnapshotFacts.elem_of_scanned_files
    in Hin as (parts & es & name & f & Hsub & Hkept & Hentry & Hfm).
  apply SnapshotFacts.elem_of_records_of in Hfm as [Hrec Hext].
  destruct (SnapshotFacts.records_of_spec parts (name, f)) as (_ & Hyes).
  destruct (Hyes Hext) as (fm & Hrec' & Hname & Hext' & Hsize & _ & Hother & Hpy).
  rewrite Hrec in Hrec'. injection Hrec' as <-. simpl in *.
  rewrite Hext', Hname. split; [done|]. split; [done|]. split.
  - intros Hne. destruct (Hother Hne) as (Hl & Hc & Hf & Hi & Hh).
    repeat (split; [done|]). intros other. unfold Comparator.is_modified.
    rewrite Hh. simpl. by rewrite andb_false_r.
  - intros Heq. exists parts, es, f. by destruct (Hpy Heq) as (? & ? & ? & ? & ?).
Qed.

Lemma X12_witness :
  exists file_meta,
    file_meta ∈ Models.files Example.local_snapshot
    /\ Models.extension file_meta = ".py"
    /\ Models.extension file_meta ∈ MetadataBuilder.SUPPORTED_EXTENSIONS.
Proof.
  assert (exists file_meta rest, Models.files Example.local_snapshot = file_meta :: rest)
    as (file_meta & rest & Hfiles) by (eexists _, _; vm_compute; reflexivity).
  assert (file_meta ∈ Models.files Example.local_snapshot) as Hin
    by (rewrite Hfiles; apply list_elem_of_here).
  exists file_meta. split; [exact Hin|].
  destruct (X12_only_python_is_analysed (H := Example.runtime) Example.local_tree
              Example.upload "upload" MetadataBuilder.reset file_meta Hin)
    as (Hsupported & _).
  split; [|exact Hsupported].
  injection Hfiles as Hfirst _. vm_compute in Hfirst. by subst.
Defined.

(** X13.  The two extractors agree: for every file, the imports a snapshot
    lists are the tokens the graph builder collects.  No count of the metric
    extraction is negative, and a count of zero lines means that nothing else
    was found either. *)
Theorem X13_extractors_agree `{PyRuntime} (f : pyfile) :
  let metrics := MetadataBuilder._extract_python_metrics f in
  MetadataBuilder.m_imports metrics = DependencyGraph._extract_imports (File f)
  /\ 0 <= MetadataBuilder.m_lines metrics
  /\ 0 <= MetadataBuilder.m_classes metrics
  /\ 0 <= MetadataBuilder.m_functions metrics
  /\ (MetadataBuilder.m_lines metrics = 0 ->
      MetadataBuilder.m_classes metrics = 0 /\ MetadataBuilder.m_functions metrics = 0
      /\ MetadataBuilder.m_imports metrics = []).
Proof.
  assert (forall content, 0 <= PyStr.count_char "010" content) as Hcount.
  { induction content as [|c content IH]; simpl; [done|]. case_decide; lia. }
  unfold MetadataBuilder._extract_python_metrics, DependencyGraph._extract_imports.
  destruct (readable f); [|done].
  destruct (read_text (data f)) as [content|]; [|done].
  specialize (Hcount content).
  destruct (ast_parse content) as [nodes|lineno msg|]; simpl;
    unfold MetadataBuilder.count_nodes; repeat split; try done; lia.
Qed.


(** X14.  The four file lists of a comparison split the paths of the two
    snapshots: [files_added] holds the paths of the candidate alone,
    [files_removed] those of the base alone, and every common path is in
    exactly one of [files_modified] and [files_unchanged].  Each list is in
    ascending order without repetition, and together they have as many
    entries as there are distinct paths. *)
Theorem X14_file_lists_split_the_paths
    (base candidate : Models.CodebaseMetadata) (now : Z) (self : Comparator.State) :
  let result := fst (Comparator.compare base candidate now self) in
  let A := Comparator.path_set base in
  let B := Comparator.path_set candidate in
  (forall p, p ∈ Models.files_added result <-> p ∈ B /\ p ∉ A)
  /\ (forall p, p ∈ Models.files_removed result <-> p ∈ A /\ p ∉ B)
  /\ (forall p, p ∈ Models.files_modified result \/ p ∈ Models.files_unchanged result
                <-> p ∈ A /\ p ∈ B)
  /\ (forall p, ~ (p ∈ Models.files_modified result /\ p ∈ Models.files_unchanged result))
  /\ OrderSpec.ascending (Models.files_added result)
  /\ OrderSpec.ascending (Models.files_removed result)
  /\ OrderSpec.ascending (Models.files_modified result)
  /\ OrderSpec.ascending (Models.files_unchanged result)
  /\ (length (Models.files_added result) + length (Models.files_removed result)
      + length (Models.files_modified result) + length (Models.files_unchanged result))%nat
     = size (A ∪ B).
Proof.
  cbn [fst Comparator.compare Models.files_added Models.files_removed
         Models.files_modified Models.files_unchanged].
  split; [apply DiffFacts.elem_of_fc_added|].
  split; [apply DiffFacts.elem_of_fc_removed|].
  split; [|split].
  - intros p. rewrite DiffFacts.elem_of_fc_modified, DiffFacts.elem_of_fc_unchanged.
    destruct (Comparator.path_modified _ _ p); naive_solver.
  - intros p. rewrite DiffFacts.elem_of_fc_modified, DiffFacts.elem_of_fc_unchanged.
    intros [(_ & _ & Hm) (_ & _ & Hu)]. congruence.
  - destruct (DiffFacts.ascending_changes base candidate) as (? & ? & ? & ?).
    repeat (split; [done|]). apply DiffFacts.length_changes.
Qed.

(** X15.  Exchanging the two snapshots exchanges [files_added] with
    [files_removed], the added with the removed dependencies and the new
    with the resolved cycles, negates the four differences of the totals, and
    leaves [files_modified], [files_unchanged] and the similarity score as
    they are. *)
Theorem X15_exchanging_the_snapshots
    (base candidate : Models.CodebaseMetadata) (now now' : Z)
    (self self' : Comparator.State) :
  let forth := fst (Comparator.compare base candidate now self) in
  let back := fst (Comparator.compare candidate base now' self') in
  Models.files_added back = Models.files_removed forth
  /\ Models.files_removed back = Models.files_added forth
  /\ Models.files_modified back = Models.files_modified forth
  /\ Models.files_unchanged back = Models.files_unchanged forth
  /\ Models.size_change_bytes back = - Models.size_change_bytes forth
  /\ Models.lines_change back = - Models.lines_change forth
  /\ Models.classes_change back = - Models.classes_change forth
  /\ Models.functions_change back = - Models.functions_change forth
  /\ Models.dependencies_added back = Models.dependencies_removed forth
  /\ Models.dependencies_removed back = Models.dependencies_added forth
  /\ Models.new_circular_dependencies back = Models.resolved_circular_dependencies forth
  /\ Models.resolved_circular_dependencies back = Models.new_circular_dependencies forth
  /\ Models.similarity_score back = Models.similarity_score forth.
Proof.
  cbn [fst Comparator.compare Models.files_added Models.files_removed
         Models.files_modified Models.files_unchanged Models.size_change_bytes
         Models.lines_change Models.classes_change Models.functions_change
         Models.dependencies_added Models.dependencies_removed
         Models.new_circular_dependencies Models.resolved_circular_dependencies
         Models.similarity_score].
  destruct (DiffFacts._compare_file_structures_swap base candidate) as (-> & -> & -> & ->).
  destruct (DiffFacts._compare_metrics_swap base candidate) as (-> & -> & -> & ->).
  destruct (DiffFacts._compare_dependencies_swap base candidate) as (-> & -> & -> & ->).
  rewrite DiffFacts._calculate_similarity_swap. done.
Qed.

(** X16.  The similarity score looks at the paths only, not at the
    contents: two snapshots with the same paths score 1.0 even when every
    file was modified, and two snapshots without a common path score 0.0. *)
Theorem X16_score_of_the_paths
    (base candidate : Models.CodebaseMetadata) (now : Z) (self : Comparator.State) :
  let result := fst (Comparator.compare base candidate now self) in
  (Comparator.path_set base = Comparator.path_set candidate ->
   Models.similarity_score result = PyFloat.of_Z 1)
  /\ (Comparator.path_set base ## Comparator.path_set candidate ->
      Comparator.path_set base <> ∅ \/ Comparator.path_set candidate <> ∅ ->
      Models.similarity_score result = PyFloat.of_Z 0).
Proof.
  cbn [fst Comparator.compare Models.similarity_score]. split.
  - apply DiffFacts._calculate_similarity_equal_paths.
  - apply DiffFacts._calculate_similarity_disjoint_paths.
Qed.

Lemma X16_witness :
  (Models.similarity_score
     (fst (Comparator.compare ExampleSnapshots.base_ab ExampleEdits.edited_ab 0
             Comparator.new_comparator)) = PyFloat.of_Z 1
   /\ Models.files_modified
        (fst (Comparator.compare ExampleSnapshots.base_ab ExampleEdits.edited_ab 0
                Comparator.new_comparator)) = ["a"; "b"])
  /\ Models.similarity_score
       (fst (Comparator.compare ExampleSnapshots.base_ab ExampleEdits.other_cd 0
               Comparator.new_comparator)) = PyFloat.of_Z 0.
Proof.
  split; [split|].
  - apply (X16_score_of_the_paths ExampleSnapshots.base_ab ExampleEdits.edited_ab 0
             Comparator.new_comparator). by vm_compute.
  - by vm_compute.
  - apply (X16_score_of_the_paths ExampleSnapshots.base_ab ExampleEdits.other_cd 0
             Comparator.new_comparator).
    + apply (bool_decide_unpack _). by vm_compute.
    + left. apply (bool_decide_unpack _). by vm_compute.
Defined.


(** X18.  Between two snapshots that [build_metadata] produced, the
    comparison never reports a new or a resolved circular dependency: the
    builder leaves the cycles of a snapshot empty.  The added dependencies are
    the external packages of the candidate that the base does not list, the
    removed ones those of the base that the candidate does not list, both in
    ascending order. *)
Theorem X18_dependency_changes_of_snapshots `{PyRuntime}
    (base_dir candidate_dir : fs_tree) (base_info candidate_info : MetadataBuilder.UploadInfo)
    (base_id candidate_id : string) (s s' : MetadataBuilder.State)
    (now : Z) (self : Comparator.State) :
  let base := fst (MetadataBuilder.build_metadata base_dir base_info base_id s) in
  let candidate :=
    fst (MetadataBuilder.build_metadata candidate_dir candidate_info candidate_id s') in
  let result := fst (Comparator.compare base candidate now self) in
  Models.new_circular_dependencies result = []
  /\ Models.resolved_circular_dependencies result = []
  /\ (forall x, x ∈ Models.dependencies_added result
                <-> x ∈ ScanSpec.snapshot_packages candidate
                    /\ x ∉ ScanSpec.snapshot_packages base)
  /\ (forall x, x ∈ Models.dependencies_removed result
                <-> x ∈ ScanSpec.snapshot_packages base
                    /\ x ∉ ScanSpec.snapshot_packages candidate)
  /\ OrderSpec.ascending (Models.dependencies_added result)
  /\ OrderSpec.ascending (Models.dependencies_removed result)
  /\ OrderSpec.ascending (ScanSpec.snapshot_packages base).
Proof.
  intros base candidate result.
  destruct (DiffFacts._compare_dependencies_packages base candidate _ _ eq_refl eq_refl)
    as (Hadded & Hremoved & Hnew & Hresolved & Hasc & Hasc' & _ & _).
  split; [done|]. split; [done|]. split; [exact Hadded|]. split; [exact Hremoved|].
  split; [exact Hasc|]. split; [exact Hasc'|].
  apply OrderFacts.sorted_elements_ascending.
Qed.

(** X19.  The two percentages of a comparison, of the size and of the line
    count, at their ends.  Each is 0.0 when its base total is not positive,
    whatever the change (no division takes place), and 0.0 when its total
    did not change; each is 100.0 when its total doubled and -100.0 when
    nothing is left of a positive base total. *)
Theorem X19_percentages
    (base candidate : Models.CodebaseMetadata) (now : Z) (self : Comparator.State) :
  let result := fst (Comparator.compare base candidate now self) in
  (Models.total_bytes base <= 0 -> Models.size_change_percent result = PyFloat.of_Z 0)
  /\ (Models.total_lines base <= 0 -> Models.lines_change_percent result = PyFloat.of_Z 0)
  /\ (Models.total_bytes candidate = Models.total_bytes base ->
      Models.size_change_percent result = PyFloat.of_Z 0)
  /\ (0 < Models.total_bytes base ->
      Models.total_bytes candidate = 2 * Models.total_bytes base ->
      Models.size_change_percent result = PyFloat.of_Z 100)
  /\ (0 < Models.total_bytes base -> Models.total_bytes candidate = 0 ->
      Models.size_change_percent result = PyFloat.of_Z (-100))
  /\ (Models.total_lines candidate = Models.total_lines base ->
      Models.lines_change_percent result = PyFloat.of_Z 0)
  /\ (0 < Models.total_lines base ->
      Models.total_lines candidate = 2 * Models.total_lines base ->
      Models.lines_change_percent result = PyFloat.of_Z 100)
  /\ (0 < Models.total_lines base -> Models.total_lines candidate = 0 ->
      Models.lines_change_percent result = PyFloat.of_Z (-100)).
Proof.
  cbn [fst Comparator.compare Models.size_change_percent Models.lines_change_percent
         Comparator._compare_metrics Comparator.mc_size_change_percent
         Comparator.mc_lines_change_percent].
  split; [apply PercentFacts.percent_change_no_base|].
  split; [apply PercentFacts.percent_change_no_base|].
  split; [|split; [|split; [|split; [|split]]]].
  - intros ->. rewrite Z.sub_diag. apply PercentFacts.percent_change_none.
  - intros Hbase ->.
    replace (2 * Models.total_bytes base - Models.total_bytes base)
      with (Models.total_bytes base) by lia.
    by apply PercentFacts.percent_change_all.
  - intros Hbase ->. rewrite Z.sub_0_l. by apply PercentFacts.percent_change_nothing_left.
  - intros ->. rewrite Z.sub_diag. apply PercentFacts.percent_change_none.
  - intros Hbase ->.
    replace (2 * Models.total_lines base - Models.total_lines base)
      with (Models.total_lines base) by lia.
    by apply PercentFacts.percent_change_all.
  - intros Hbase ->. rewrite Z.sub_0_l. by apply PercentFacts.percent_change_nothing_left.
Qed.

Lemma X19_witness :
  Models.size_change_percent
    (fst (Comparator.compare ExampleSnapshots.base_ab ExampleSnapshots.base_ab 0
            Comparator.new_comparator)) = PyFloat.of_Z 0.
Proof.
  by apply (X19_percentages ExampleSnapshots.base_ab ExampleSnapshots.base_ab 0
              Comparator.new_comparator).
Defined.


(* ===================================================================== *)
(** * Properties of the graph routes *)
(* ===================================================================== *)

(** X20.  Starting from an empty cache, whatever requests arrive and
    whatever the upload directories hold when they arrive, a graph in the
    cache is one that [build_graph] returned on a new builder for a tree that
    one of the requests met under that upload id; a graph that failed to
    build is never cached. *)
Theorem X20_cached_graphs_were_built `{PyRuntime}
    (steps : list (GraphRoutes.uploads * GraphRoutes.request))
    (upload_id : string) (graph_data : GraphData) :
  GraphRoutes.serve_all ∅ steps !! upload_id = Some graph_data ->
  GraphRoutes.built_from steps upload_id graph_data.
Proof.
  intros Hcached.
  destruct (RouteFacts.serve_all_provenance ∅ steps upload_id graph_data Hcached)
    as [Hempty|Hbuilt]; [|done].
  destruct (lookup_empty_Some (M := gmap string) _ _ Hempty).
Qed.

Lemma X20_witness :
  exists graph_data,
    GraphRoutes.serve_all (H := Example.runtime) ∅
      [(ExampleRoutes.disk, GraphRoutes.GetGraph "chain")] !! "chain" = Some graph_data
    /\ GraphRoutes.built_from (H := Example.runtime)
         [(ExampleRoutes.disk, GraphRoutes.GetGraph "chain")] "chain" graph_data.
Proof.
  assert (exists graph_data,
             GraphRoutes.serve_all (H := Example.runtime) ∅
               [(ExampleRoutes.disk, GraphRoutes.GetGraph "chain")] !! "chain"
             = Some graph_data) as (graph_data & Hcached)
    by (eexists; vm_compute; reflexivity).
  exists graph_data. split; [exact Hcached|].
  exact (X20_cached_graphs_were_built (H := Example.runtime) _ _ _ Hcached).
Defined.

(** X21.  Once a graph is cached, [get_dependency_graph] answers with it,
    unchanged, after any requests that do not clear the cache of that upload,
    and it does so without looking at the upload directory: the answer is the
    same when the upload was changed or deleted in the meantime. *)
Theorem X21_cached_graph_is_served_until_cleared `{PyRuntime}
    (cache : GraphRoutes.graph_cache)
    (steps : list (GraphRoutes.uploads * GraphRoutes.request))
    (disk : GraphRoutes.uploads) (upload_id : string) (graph_data : GraphData) :
  cache !! upload_id = Some graph_data ->
  (forall disk', (disk', GraphRoutes.ClearCache upload_id) ∉ steps) ->
  GraphRoutes.get_dependency_graph disk upload_id (GraphRoutes.serve_all cache steps)
  = (GraphRoutes.Http200 graph_data, GraphRoutes.serve_all cache steps).
Proof.
  intros Hcached Hkept. unfold GraphRoutes.get_dependency_graph.
  by rewrite (RouteFacts.serve_all_keeps cache steps upload_id graph_data Hcached Hkept).
Qed.

Lemma X21_witness :
  exists graph_data,
    ExampleRoutes.warm !! "chain" = Some graph_data
    /\ GraphRoutes.get_dependency_graph (H := Example.runtime) ∅ "chain"
         (GraphRoutes.serve_all (H := Example.runtime) ExampleRoutes.warm
            [(∅, GraphRoutes.GetFile "chain" "a.py")])
       = (GraphRoutes.Http200 graph_data,
          GraphRoutes.serve_all (H := Example.runtime) ExampleRoutes.warm
            [(∅, GraphRoutes.GetFile "chain" "a.py")]).
Proof.
  assert (exists graph_data, ExampleRoutes.warm !! "chain" = Some graph_data)
    as (graph_data & Hcached) by (eexists; vm_compute; reflexivity).
  exists graph_data. split; [exact Hcached|].
  apply (X21_cached_graph_is_served_until_cleared (H := Example.runtime)); [exact Hcached|].
  intros disk' [[= _ ?]|Hin%elem_of_nil]%elem_of_cons. exact Hin.
Defined.

(** X22.  For an upload that is not cached, [get_dependency_graph] answers
    404 when the upload directory does not exist.  When it exists and the
    import graph of its tree has no cycle, the answer is the graph, with no
    circular dependency, and the graph is cached.  Status 500 is answered for
    trees with a cycle only, and then the cache stays as it was (the
    interpreter's limit on the depth of the recursion is not part of the
    model). *)
Theorem X22_answers_of_the_graph_route `{PyRuntime}
    (disk : GraphRoutes.uploads) (upload_id : string) (cache : GraphRoutes.graph_cache) :
  cache !! upload_id = None ->
  match disk !! upload_id with
  | None =>
      GraphRoutes.get_dependency_graph disk upload_id cache = (GraphRoutes.Http404, cache)
  | Some upload_dir =>
      let related :=
        _build_relationships (scan_imports (PyPath.glob_py upload_dir) new_builder) in
      ((forall n, ~ tc (CycleSpec.imports_from related) n n) ->
       exists graph_data,
         GraphRoutes.get_dependency_graph disk upload_id cache
         = (GraphRoutes.Http200 graph_data, <[ upload_id := graph_data ]> cache)
         /\ gd_circular_dependencies graph_data = [])
      /\ (fst (GraphRoutes.get_dependency_graph disk upload_id cache) = GraphRoutes.Http500 ->
          snd (GraphRoutes.get_dependency_graph disk upload_id cache) = cache
          /\ ~ (forall n, ~ tc (CycleSpec.imports_from related) n n))
  end.
Proof.
  intros Hcache. unfold GraphRoutes.get_dependency_graph. rewrite Hcache.
  destruct (disk !! upload_id) as [upload_dir|]; [|done].
  assert ((forall n, ~ tc (CycleSpec.imports_from
                             (_build_relationships
                                (scan_imports (PyPath.glob_py upload_dir) new_builder))) n n) ->
          exists graph_data b,
            build_graph upload_dir upload_id new_builder = Ok graph_data b
            /\ gd_circular_dependencies graph_data = []) as Hacyclic.
  { intros Hno. unfold build_graph.
    rewrite (BuilderFacts._detect_circular_dependencies_acyclic _ Hno).
    rewrite ExampleFacts.with_circular_deps_same. eexists _, _. split; [done|].
    cbn [gd_circular_dependencies _generate_graph_data].
    rewrite GraphFacts._build_relationships_circular_deps.
    by destruct (GraphFacts.scan_imports_graphs (PyPath.glob_py upload_dir) new_builder)
      as (_ & _ & -> & _). }
  split.
  - intros Hno. destruct (Hacyclic Hno) as (graph_data & b & -> & Hnone).
    by exists graph_data.
  - intros H500. split.
    + by destruct (build_graph upload_dir upload_id new_builder).
    + intros Hno. destruct (Hacyclic Hno) as (graph_data & b & Hbuild & _).
      by rewrite Hbuild in H500.
Qed.

Lemma X22_witness :
  (exists graph_data,
      GraphRoutes.get_dependency_graph (H := Example.runtime) ExampleRoutes.disk "chain" ∅
      = (GraphRoutes.Http200 graph_data, <[ "chain" := graph_data ]> ∅)
      /\ gd_circular_dependencies graph_data = [])
  /\ GraphRoutes.get_dependency_graph (H := Example.runtime) ExampleRoutes.disk "tangled" ∅
     = (GraphRoutes.Http500, ∅)
  /\ GraphRoutes.get_dependency_graph (H := Example.runtime) ExampleRoutes.disk "absent" ∅
     = (GraphRoutes.Http404, ∅).
Proof.
  split; [|split].
  - pose proof (X22_answers_of_the_graph_route (H := Example.runtime) ExampleRoutes.disk
                  "chain" ∅ eq_refl) as Hchain.
    change (ExampleRoutes.disk !! "chain") with (Some Example.chain_tree) in Hchain.
    destruct Hchain as (Hacyclic & _). apply Hacyclic, ExampleFacts.chain_acyclic.
  - by vm_compute.
  - exact (X22_answers_of_the_graph_route (H := Example.runtime) ExampleRoutes.disk
             "absent" ∅ eq_refl).
Defined.

(** X23.  [get_file_dependencies] of the routes answers 404 exactly for an
    upload directory that does not exist.  It builds the graph again on every
    request, so its answer does not depend on the cache, and it leaves every
    cached graph as it is: after the tree of an upload has changed, this route
    answers from the new tree while [get_dependency_graph] goes on answering
    with the cached graph. *)
Theorem X23_file_route_ignores_the_cache `{PyRuntime}
    (disk : GraphRoutes.uploads) (upload_id file_path : string)
    (cache : GraphRoutes.graph_cache) :
  (fst (GraphRoutes.get_file_dependencies disk upload_id file_path cache)
   = GraphRoutes.Http404 <-> disk !! upload_id = None)
  /\ (forall cache',
        fst (GraphRoutes.get_file_dependencies disk upload_id file_path cache')
        = fst (GraphRoutes.get_file_dependencies disk upload_id file_path cache))
  /\ (forall id graph_data,
        cache !! id = Some graph_data ->
        snd (GraphRoutes.get_file_dependencies disk upload_id file_path cache) !! id
        = Some graph_data)
  /\ (forall upload_dir graph_data b,
        disk !! upload_id = Some upload_dir ->
        build_graph upload_dir upload_id new_builder = Ok graph_data b ->
        exists file_deps,
          fst (GraphRoutes.get_file_dependencies disk upload_id file_path cache)
          = GraphRoutes.Http200 file_deps
          /\ fd_file file_deps = file_path
          /\ fd_imports_from file_deps = elements (dd_get file_path (graph b))
          /\ fd_imported_by file_deps = elements (dd_get file_path (reverse_graph b))).
Proof.
  unfold GraphRoutes.get_file_dependencies.
  destruct (disk !! upload_id) as [upload_dir|] eqn:Hdisk.
  - destruct (build_graph upload_dir upload_id new_builder) as [graph_data b|e b|] eqn:Hbuild;
      cbn [get_file_dependencies fst snd].
    + split; [done|]. split; [done|]. split.
      * intros id data Hid. destruct (cache !! upload_id) eqn:Hcache; [done|].
        etrans; [apply (lookup_insert_ne (M := gmap string)); congruence | done].
      * intros ? ? ? [= <-] Hb. rewrite Hbuild in Hb. injection Hb as <- <-. by eexists.
    + split; [done|]. split; [done|]. split; [done|].
      intros ? ? ? [= <-] Hb. by rewrite Hbuild in Hb.
    + split; [done|]. split; [done|]. split; [done|].
      intros ? ? ? [= <-] Hb. by rewrite Hbuild in Hb.
  - split; [done|]. split; [done|]. split; [done|]. intros ? ? ? [=].
Qed.

(* ===================================================================== *)
(** * Properties of the metadata routes *)
(* ===================================================================== *)

(** X24.  [get_codebase_metadata] with a false [refresh] answers with the
    cached snapshot, if there is one; the entry of an upload stays what it
    is through any requests to the four routes that do not refresh it, clear
    it or compare it, and the upload directory is not looked at.  With a
    true [refresh] the cache is not read: the answer is 404 for a directory
    that does not exist and otherwise the snapshot [build_metadata] returns
    on a new builder, which replaces the entry.  [compare_codebases] calls
    [get_codebase_metadata] with the upload id alone, which leaves [refresh]
    the default object, a true value: it does not read the cache.  Without
    the base directory it answers 404 and writes nothing; with the base
    directory and without the other it overwrites the base entry and answers
    404; with both it overwrites both entries and answers with the
    comparison of the two new snapshots.  [clear_metadata_cache] removes the
    entry of its upload and no other. *)
Theorem X24_metadata_cache `{PyRuntime}
    (disk : MetadataRoutes.uploads) (upload_id : string)
    (cache : MetadataRoutes.metadata_cache)
    (steps : list (MetadataRoutes.uploads * MetadataRoutes.request)) :
  let snapshot_of (id : string) (upload_dir : MetadataRoutes.upload) :=
    fst (MetadataBuilder.build_metadata (MetadataRoutes.up_tree upload_dir)
           (MetadataRoutes.up_info upload_dir) id MetadataBuilder.reset) in
  (forall metadata,
      cache !! upload_id = Some metadata ->
      MetadataRoutes.untouched upload_id steps ->
      MetadataRoutes.get_codebase_metadata disk upload_id false
        (MetadataRoutes.serve_all cache steps)
      = (GraphRoutes.Http200 metadata, MetadataRoutes.serve_all cache steps))
  /\ (forall upload_dir,
        disk !! upload_id = Some upload_dir ->
        MetadataRoutes.get_codebase_metadata disk upload_id true cache
        = (GraphRoutes.Http200 (snapshot_of upload_id upload_dir),
           <[ upload_id := snapshot_of upload_id upload_dir ]> cache))
  /\ (disk !! upload_id = None ->
      MetadataRoutes.get_codebase_metadata disk upload_id true cache
      = (GraphRoutes.Http404, cache))
  (* compare_codebases *)
  /\ (forall compare_upload_id now,
        disk !! upload_id = None ->
        MetadataRoutes.compare_codebases disk upload_id compare_upload_id now cache
        = (GraphRoutes.Http404, cache))
  /\ (forall compare_upload_id now base_dir,
        disk !! upload_id = Some base_dir -> disk !! compare_upload_id = None ->
        MetadataRoutes.compare_codebases disk upload_id compare_upload_id now cache
        = (GraphRoutes.Http404, <[ upload_id := snapshot_of upload_id base_dir ]> cache))
  /\ (forall compare_upload_id now base_dir compare_dir,
        disk !! upload_id = Some base_dir ->
        disk !! compare_upload_id = Some compare_dir ->
        MetadataRoutes.compare_codebases disk upload_id compare_upload_id now cache
        = (GraphRoutes.Http200
             (fst (Comparator.compare (snapshot_of upload_id base_dir)
                     (snapshot_of compare_upload_id compare_dir) now
                     Comparator.new_comparator)),
           <[ compare_upload_id := snapshot_of compare_upload_id compare_dir ]>
             (<[ upload_id := snapshot_of upload_id base_dir ]> cache)))
  (* clear_metadata_cache *)
  /\ snd (MetadataRoutes.clear_metadata_cache upload_id cache) !! upload_id = None
  /\ (forall other,
        other <> upload_id ->
        snd (MetadataRoutes.clear_metadata_cache upload_id cache) !! other
        = cache !! other).
Proof.
  intros snapshot_of. split; [|split; [|split; [|split; [|split; [|split; [|split]]]]]].
  - intros metadata Hcached Hsteps. unfold MetadataRoutes.get_codebase_metadata.
    by rewrite (MetadataRouteFacts.entry_kept_by_requests cache steps upload_id metadata).
  - intros upload_dir Hdisk. unfold MetadataRoutes.get_codebase_metadata.
    by rewrite Hdisk.
  - intros Hdisk. unfold MetadataRoutes.get_codebase_metadata. by rewrite Hdisk.
  - intros compare_upload_id now Hbase.
    unfold MetadataRoutes.compare_codebases, MetadataRoutes.get_codebase_metadata.
    by rewrite Hbase.
  - intros compare_upload_id now base_dir Hbase Hcompare.
    unfold MetadataRoutes.compare_codebases, MetadataRoutes.get_codebase_metadata.
    by rewrite Hbase, Hcompare.
  - intros compare_upload_id now base_dir compare_dir Hbase Hcompare.
    by apply MetadataRouteFacts.compare_codebases_found.
  - unfold MetadataRoutes.clear_metadata_cache.
    destruct (cache !! upload_id) eqn:Hid; cbn [snd]; [|done].
    apply (lookup_delete_eq (M := gmap string)).
  - intros other Hother. unfold MetadataRoutes.clear_metadata_cache.
    destruct (cache !! upload_id) eqn:Hid; cbn [snd]; [|done].
    by apply (lookup_delete_ne (M := gmap string)).
Qed.


(* ===================================================================== *)
(** * The answers of [get_file_dependencies] *)
(* ===================================================================== *)

(** X25.  After any calls of [build_graph], the answers of
    [get_file_dependencies] fit together: [g] is among the files [f] imports
    from exactly when [f] is among the files that import [g]; the two counts
    are the lengths of the two lists, no file is listed twice, and the counts
    are those of the node of the file in the graph data. *)
Theorem X25_file_dependencies_fit_together `{PyRuntime} (b : Builder) (f g : string) :
  GraphSpec.reachable b ->
  exists deps_f deps_g,
    get_file_dependencies f b = Ok deps_f b
    /\ get_file_dependencies g b = Ok deps_g b
    /\ (g ∈ fd_imports_from deps_f <-> f ∈ fd_imported_by deps_g)
    /\ fd_imports_count deps_f = len (fd_imports_from deps_f)
    /\ fd_imported_by_count deps_f = len (fd_imported_by deps_f)
    /\ NoDup (fd_imports_from deps_f) /\ NoDup (fd_imported_by deps_f)
    /\ (forall n, n ∈ gd_nodes (_generate_graph_data b) -> node_id n = f ->
          node_imports_count n = fd_imports_count deps_f
          /\ node_imported_by_count n = fd_imported_by_count deps_f).
Proof.
  intros Hb. eexists _, _. split; [reflexivity|]. split; [reflexivity|].
  cbn [fd_imports_from fd_imported_by fd_imports_count fd_imported_by_count].
  split; [|split; [reflexivity|split; [reflexivity|split; [apply NoDup_elements|split]]]].
  - rewrite !elem_of_elements. by apply GraphFacts.reachable_transposed.
  - apply NoDup_elements.
  - intros n Hn <-.
    destruct (GraphDataFacts.nodes_spec b) as (_ & _ & _ & _ & Hnodes).
    by destruct (Hnodes n Hn) as (_ & -> & -> & _).
Qed.

Lemma X25_witness :
  exists deps_f deps_g,
    get_file_dependencies "a.py" Example.chain_builder = Ok deps_f Example.chain_builder
    /\ get_file_dependencies "b.py" Example.chain_builder = Ok deps_g Example.chain_builder
    /\ ("b.py" ∈ fd_imports_from deps_f <-> "a.py" ∈ fd_imported_by deps_g).
Proof.
  destruct (X25_file_dependencies_fit_together (H := Example.runtime) Example.chain_builder
              "a.py" "b.py") as (deps_f & deps_g & Hf & Hg & Hfit & _).
  - apply (ReachFacts.reachable_state_after (H := Example.runtime)), GraphSpec.reach_new.
  - exists deps_f, deps_g. exact (conj Hf (conj Hg Hfit)).
Defined.
